(** * NeMo excerpts: prompt formatting, speech-LLM drivers, embedding model
      head and the Llama cross-attention language model

    A shallow embedding of the Python sources under [src/nemo/collections]
    together with the properties stated about them.  Python exceptions are
    an explicit error type, dictionaries are finite maps, floats are real
    numbers without rounding (with the infinities and nan where the code
    divides tensors), and calls into external libraries (torch,
    Megatron-core, lhotse, Lightning) are parameters of the sections that
    use them. *)

From Stdlib Require Import ZArith List String Ascii Reals Lra Lia Bool.
From stdpp Require Import base gmap strings list.

Open Scope string_scope.

(** ** Python exceptions and fallible computations *)

Module Py.

Inductive exn : Type :=
| ValueError (msg : string)
| KeyError (key : string)
| IndexError
| AttributeError (name : string)
| AssertionError (msg : string)
| TypeError
| ZeroDivisionError
| NotImplementedError
| BdbQuit.

Inductive result (A : Type) : Type :=
| Ok (a : A)
| Raise (e : exn).

Arguments Ok {A} a.
Arguments Raise {A} e.

Definition bind {A B : Type} (c : result A) (k : A -> result B) : result B :=
  match c with
  | Ok a => k a
  | Raise e => Raise e
  end.

Definition is_ok {A : Type} (c : result A) : bool :=
  match c with Ok _ => true | Raise _ => false end.

(** [l[i]] on a Python list: [IndexError] out of range. *)
Definition index {A : Type} (l : list A) (i : nat) : result A :=
  match l !! i with
  | Some a => Ok a
  | None => Raise IndexError
  end.

(** Code with effects: a state (a log of external calls, a store) is
    threaded through, and survives an exception. *)
Definition eff (S A : Type) : Type := S -> result A * S.

Definition eret {S A : Type} (a : A) : eff S A := fun s => (Ok a, s).

Definition eraise {S A : Type} (e : exn) : eff S A := fun s => (Raise e, s).

Definition ebind {S A B : Type} (c : eff S A) (k : A -> eff S B) : eff S B :=
  fun s =>
    match c s with
    | (Ok a, s') => k a s'
    | (Raise e, s') => (Raise e, s')
    end.

Module Notations.
Notation "'let*' x ':=' c 'in' k" := (bind c (fun x => k))
  (at level 10, x name, c at level 200, k at level 200).
Notation "'run*' x ':=' c 'in' k" := (ebind c (fun x => k))
  (at level 10, x name, c at level 200, k at level 200).
Notation "c ';;' k" := (ebind c (fun _ => k))
  (at level 100, k at level 200, right associativity).
End Notations.

Lemma bind_ok {A B : Type} (c : result A) (k : A -> result B) (b : B) :
  bind c k = Ok b -> exists a, c = Ok a /\ k a = Ok b.
Proof.
  destruct c as [a | e]; simpl; intros H; [eauto | discriminate].
Qed.

End Py.

(** ** [nemo/collections/common/prompts/gemma.py] *)

Module Gemma.
Import Py Py.Notations.

(** The one-character string written "\n" in the source. *)
Definition NL : string := String (ascii_of_nat 10) EmptyString.

Definition GEMMA_BOS : string := "<start_of_turn>".
Definition GEMMA_END_OF_TURN : string := "<end_of_turn>".
Definition GEMMA_NL : string := NL ++ NL.

Inductive Modality : Type := Text.

(** An entry of a formatter's [TEMPLATE]: the template text and its slots,
    in the order the dict literal lists them. *)
Record RoleTemplate : Type := {
  template : string;
  slot_types : list (string * Modality)
}.

Definition NAME : string := "gemma".
Definition OUTPUT_ROLE : string := "assistant".
Definition INSERT_BOS : bool := true.
Definition INSERT_EOS : bool := true.

Definition TEMPLATE : gmap string RoleTemplate :=
  <[ OUTPUT_ROLE :=
       {| template := "|message|" ++ GEMMA_END_OF_TURN ++ NL;
          slot_types := [("message", Text)] |} ]>
  {[ "user" :=
       {| template := GEMMA_BOS ++ "user" ++ NL ++ "|message|"
                        ++ GEMMA_END_OF_TURN ++ NL ++ GEMMA_BOS ++ "model" ++ NL;
          slot_types := [("message", Text)] |} ]}.

(** A dialog turn: [{"role": ..., "slots": {...}}]. *)
Record Turn : Type := {
  role : string;
  slots : gmap string string
}.

(** The part of a lhotse cut that [gemma1] reads: its custom fields
    (attribute access [cut.name] reads them) and its supervisions. *)
Record Supervision : Type := { text : option string }.

Record CutData : Type := {
  custom : gmap string string;
  supervisions : list Supervision
}.

Inductive Cut : Type :=
| MonoCut (c : CutData)
| MixedCut (first_non_padding_cut : CutData).

Definition has_custom (c : CutData) (name : string) : bool :=
  match custom c !! name with Some _ => true | None => false end.

Definition getattr (c : CutData) (name : string) : result string :=
  match custom c !! name with
  | Some v => Ok v
  | None => Raise (AttributeError name)
  end.

(** Lines 60-61: a [MixedCut] is replaced by its first non-padding cut. *)
Definition resolve (cut : Cut) : CutData :=
  match cut with
  | MixedCut c => c
  | MonoCut c => c
  end.

(** Lines 62-67. *)
Definition select_context (cut : CutData) : result string :=
  if has_custom cut "context" then getattr cut "context"
  else if has_custom cut "question" then getattr cut "question"
  else getattr cut "default_context".

(** Lines 69-75: the turns of one cut, as handed to [encode_dialog]. *)
Definition gemma1_turns (cut : Cut) : result (list Turn) :=
  let cut := resolve cut in
  let* context := select_context cut in
  let turns := [] in
  let* turns :=
    (if has_custom cut "system_prompt" then
       let* system := getattr cut "system_prompt" in
       Ok (turns ++ [ {| role := "system_and_user";
                         slots := <["message" := context]> {["system" := system]} |} ])%list
     else
       Ok (turns ++ [ {| role := "user"; slots := {["message" := context]} |} ])%list) in
  let* s0 := index (supervisions cut) 0 in
  match text s0 with
  | Some answer =>
      Ok (turns ++ [ {| role := "assistant"; slots := {["message" := answer]} |} ])%list
  | None => Ok turns
  end.

Section Gemma1.

(** [PromptFormatter.encode_dialog] lives in [prompts/formatter.py]; here
    it is the formatter handed to [gemma1]. *)
Variable V : Type.
Variable encode_dialog : list Turn -> result (list (string * V)).

(** [ans[k].append(v)] on a [defaultdict(list)]. *)
Definition ans_append (ans : gmap string (list V)) (kv : string * V)
  : gmap string (list V) :=
  <[ kv.1 := (default [] (ans !! kv.1) ++ [kv.2])%list ]> ans.

Fixpoint gemma1_loop (cuts : list Cut) (ans : gmap string (list V))
  : result (gmap string (list V)) :=
  match cuts with
  | [] => Ok ans
  | cut :: rest =>
      let* turns := gemma1_turns cut in
      let* items := encode_dialog turns in
      gemma1_loop rest (fold_left ans_append items ans)
  end.

Definition gemma1 (cuts : list Cut) : result (gmap string (list V)) :=
  gemma1_loop cuts ∅.

End Gemma1.

(** *** Template rendering *)

(** [s.replace(pat, v)] for a non-empty [pat]: every occurrence, left to
    right, without overlaps.  [skip] counts the characters of a match that
    are still to be dropped. *)
Fixpoint replace_from (pat v : string) (skip : nat) (s : string) : string :=
  match s with
  | EmptyString => EmptyString
  | String c s' =>
      match skip with
      | S k => replace_from pat v k s'
      | O =>
          if String.prefix pat s
          then v ++ replace_from pat v (String.length pat - 1) s'
          else String c (replace_from pat v 0 s')
      end
  end.

Definition str_replace (pat v s : string) : string := replace_from pat v 0 s.

Definition mangled (slot : string) : string := "|" ++ slot ++ "|".

(** Modelled from the spec: [PromptFormatter] (prompts/formatter.py) is not
    among the sources.  A turn is rendered from the template of its role by
    substituting, for every slot the template declares, the slot's value for
    the placeholder [|slot|]; a role without a template and a slot without a
    value are rejected. *)
Fixpoint fill_slots (expected : list (string * Modality))
  (values : gmap string string) (prompt : string) : result string :=
  match expected with
  | [] => Ok prompt
  | (slot, _) :: rest =>
      match values !! slot with
      | None => Raise (AssertionError "missing required slot")
      | Some value => fill_slots rest values (str_replace (mangled slot) value prompt)
      end
  end.

Definition render_turn (tpl : gmap string RoleTemplate) (turn : Turn)
  : result string :=
  match tpl !! role turn with
  | None => Raise (AssertionError "role")
  | Some rt => fill_slots (slot_types rt) (slots turn) (template rt)
  end.

End Gemma.

Module GemmaFacts.
Import Py Py.Notations Gemma.

(** The user message as the specification words it: the custom field
    [context] if present, else [question] if present, else
    [default_context]. *)
Definition spec_user_message (c : CutData) : option string :=
  match custom c !! "context" with
  | Some v => Some v
  | None =>
      match custom c !! "question" with
      | Some v => Some v
      | None => custom c !! "default_context"
      end
  end.

Definition assistant_turn (answer : string) : Turn :=
  {| role := "assistant"; slots := {["message" := answer]} |}.

Lemma select_context_spec (c : CutData) (v : string) :
  select_context c = Ok v <-> spec_user_message c = Some v.
Proof.
  unfold select_context, spec_user_message, has_custom, getattr.
  destruct (custom c !! "context") as [a|];
    [ split; intros H; inversion H; reflexivity | ].
  destruct (custom c !! "question") as [b|];
    [ split; intros H; inversion H; reflexivity | ].
  destruct (custom c !! "default_context") as [d|];
    split; intros H; inversion H; reflexivity.
Qed.

Lemma template_roles (r : string) :
  is_Some (TEMPLATE !! r) <-> r = "user" \/ r = "assistant".
Proof.
  unfold TEMPLATE, OUTPUT_ROLE. split.
  - intros [rt H].
    destruct (decide (r = "assistant")) as [->|Hne]; [now right|].
    rewrite lookup_insert_ne in H by congruence.
    destruct (decide (r = "user")) as [->|Hne']; [now left|].
    rewrite lookup_singleton_ne in H by congruence. discriminate.
  - intros [-> | ->]; eexists; reflexivity.
Qed.

Lemma gemma1_turns_shape (cut : Cut) (turns : list Turn) :
  gemma1_turns cut = Ok turns ->
  exists context s0,
    select_context (resolve cut) = Ok context /\
    supervisions (resolve cut) !! 0%nat = Some s0 /\
    turns =
      (match custom (resolve cut) !! "system_prompt" with
       | Some system =>
           {| role := "system_and_user";
              slots := <["message" := context]> {["system" := system]} |}
       | None => {| role := "user"; slots := {["message" := context]} |}
       end)
      :: match text s0 with
         | Some answer => [assistant_turn answer]
         | None => []
         end.
Proof.
  unfold gemma1_turns. intros H.
  apply bind_ok in H as (context & Hc & H).
  apply bind_ok in H as (first & Hf & H).
  apply bind_ok in H as (s0 & Hs & H).
  exists context, s0. split; [exact Hc|].
  unfold index in Hs.
  destruct (supervisions (resolve cut) !! 0%nat) as [s|] eqn:E; [|discriminate].
  inversion Hs; subst s. split; [reflexivity|].
  unfold has_custom, getattr in Hf.
  destruct (custom (resolve cut) !! "system_prompt") as [system|];
    simpl in Hf; inversion Hf; subst first;
    destruct (text s0); inversion H; reflexivity.
Qed.

(** C7.  The gemma formatter renders a user turn with message [m] as
    "<start_of_turn>user\n" + m + "<end_of_turn>\n<start_of_turn>model\n"
    and an assistant turn as m + "<end_of_turn>\n", with BOS and EOS
    insertion switched on; and whenever [gemma1] builds the turns of a cut,
    the message of the first turn is the cut's custom [context] if present,
    else its [question] if present, else its [default_context], and an
    assistant turn follows exactly when the text of the first supervision
    is not [None]. *)
Theorem gemma_prompt_format :
  (forall turn m,
     role turn = "user" -> slots turn !! "message" = Some m ->
     render_turn TEMPLATE turn =
       Ok ("<start_of_turn>user" ++ NL ++ m ++ "<end_of_turn>" ++ NL
             ++ "<start_of_turn>model" ++ NL)) /\
  (forall turn m,
     role turn = "assistant" -> slots turn !! "message" = Some m ->
     render_turn TEMPLATE turn = Ok (m ++ "<end_of_turn>" ++ NL)) /\
  INSERT_BOS = true /\ INSERT_EOS = true /\
  (forall cut turns,
     gemma1_turns cut = Ok turns ->
     exists first s0,
       supervisions (resolve cut) !! 0%nat = Some s0 /\
       slots first !! "message" = spec_user_message (resolve cut) /\
       is_Some (spec_user_message (resolve cut)) /\
       turns = first :: match text s0 with
                        | Some answer => [assistant_turn answer]
                        | None => []
                        end) /\
  (forall cut s0,
     is_Some (spec_user_message (resolve cut)) ->
     supervisions (resolve cut) !! 0%nat = Some s0 ->
     exists turns, gemma1_turns cut = Ok turns).
Proof.
  split; [|split; [|split; [reflexivity|split; [reflexivity|split]]]].
  - intros [r sl] m Hr Hm. simpl in Hr, Hm. subst r.
    unfold render_turn. simpl role. simpl slots.
    replace (TEMPLATE !! "user") with
      (Some {| template := GEMMA_BOS ++ "user" ++ NL ++ "|message|"
                        ++ GEMMA_END_OF_TURN ++ NL ++ GEMMA_BOS ++ "model" ++ NL;
               slot_types := [("message", Text)] |}) by reflexivity.
    simpl slot_types. simpl template. unfold fill_slots. rewrite Hm.
    reflexivity.
  - intros [r sl] m Hr Hm. simpl in Hr, Hm. subst r.
    unfold render_turn. simpl role. simpl slots.
    replace (TEMPLATE !! "assistant") with
      (Some {| template := "|message|" ++ GEMMA_END_OF_TURN ++ NL;
               slot_types := [("message", Text)] |}) by reflexivity.
    simpl slot_types. simpl template. unfold fill_slots. rewrite Hm.
    reflexivity.
  - intros cut turns H.
    apply gemma1_turns_shape in H as (context & s0 & Hc & Hs & ->).
    apply select_context_spec in Hc.
    eexists _, s0. split; [exact Hs|]. split; [|split; [|reflexivity]].
    + rewrite Hc.
      destruct (custom (resolve cut) !! "system_prompt"); simpl.
      * apply lookup_insert_eq.
      * apply lookup_singleton_eq.
    + rewrite Hc. eexists; reflexivity.
  - intros cut s0 [v Hv] Hs.
    apply select_context_spec in Hv.
    unfold gemma1_turns. rewrite Hv. simpl.
    unfold has_custom, getattr, index.
    destruct (custom (resolve cut) !! "system_prompt"); simpl;
      rewrite Hs; simpl; destruct (text s0); eexists; reflexivity.
Qed.

Definition cut_question : Cut :=
  MonoCut {| custom := {["question" := "What is said?"]};
             supervisions := [ {| text := Some "hello" |} ] |}.

Lemma gemma_prompt_format_witness :
  render_turn TEMPLATE {| role := "user"; slots := {["message" := "hi"]} |}
    = Ok ("<start_of_turn>user" ++ NL ++ "hi" ++ "<end_of_turn>" ++ NL
            ++ "<start_of_turn>model" ++ NL) /\
  exists first,
    gemma1_turns cut_question = Ok [first; assistant_turn "hello"] /\
    slots first !! "message" = Some "What is said?".
Proof.
  destruct gemma_prompt_format as (Hu & _ & _ & _ & Hg & Hex).
  split.
  - apply Hu; reflexivity.
  - destruct (Hex cut_question {| text := Some "hello" |}) as [turns Ht].
    + exists "What is said?". reflexivity.
    + reflexivity.
    + destruct (Hg cut_question turns Ht) as (first & s0 & Hs & Hm & _ & Hl).
      exists first. inversion Hs; subst s0. simpl in Hl. subst turns.
      split; [exact Ht | exact Hm].
Defined.

(** C9.  For a cut that carries a custom [system_prompt], the dialog that
    [gemma1] hands to [encode_dialog] starts with a turn whose role is
    "system_and_user"; the gemma [TEMPLATE] has exactly the roles "user"
    and "assistant", so it has no entry for that role. *)
Theorem gemma1_system_prompt_role_undefined :
  (forall r, is_Some (TEMPLATE !! r) <-> r = "user" \/ r = "assistant") /\
  TEMPLATE !! "system_and_user" = None /\
  forall (cut : Cut) (system : string) (turns : list Turn),
    custom (resolve cut) !! "system_prompt" = Some system ->
    gemma1_turns cut = Ok turns ->
    (exists first rest,
       turns = first :: rest /\
       role first = "system_and_user" /\
       slots first !! "system" = Some system /\
       TEMPLATE !! role first = None) /\
    forall V (encode_dialog : list Turn -> result (list (string * V))) rest ans,
      gemma1_loop V encode_dialog (cut :: rest) ans =
        let* items := encode_dialog turns in
        gemma1_loop V encode_dialog rest (fold_left (ans_append V) items ans).
Proof.
  split; [exact template_roles|]. split; [reflexivity|].
  intros cut system turns Hsys Ht. split.
  - apply gemma1_turns_shape in Ht as (context & s0 & _ & _ & ->).
    rewrite Hsys. eexists _, _. split; [reflexivity|].
    split; [reflexivity|]. split; [|reflexivity].
    simpl. rewrite lookup_insert_ne by discriminate.
    apply lookup_singleton_eq.
  - intros V encode_dialog rest ans. simpl. rewrite Ht. reflexivity.
Qed.

Definition cut_system : Cut :=
  MixedCut {| custom := <["system_prompt" := "Be brief."]>
                          {["context" := "Transcribe."]};
              supervisions := [ {| text := None |} ] |}.

Lemma gemma1_system_prompt_role_undefined_witness :
  exists first rest,
    gemma1_turns cut_system = Ok (first :: rest) /\
    role first = "system_and_user" /\
    TEMPLATE !! role first = None.
Proof.
  destruct gemma1_system_prompt_role_undefined as (_ & _ & H).
  destruct (gemma1_turns cut_system) as [turns|e] eqn:E;
    [|vm_compute in E; discriminate].
  destruct (H cut_system "Be brief." turns eq_refl E)
    as ((first & rest & -> & Hr & _ & Hn) & _).
  exists first, rest. split; [reflexivity|]. split; assumption.
Defined.

End GemmaFacts.

(** ** [nemo/collections/slm/api.py] *)

Module SlmApi.
Import Py Py.Notations.

(** The calls a driver makes into the rest of NeMo, Lightning and the
    standard library, in the vocabulary of the source. *)
Inductive call : Type :=
| set_typecheck_enabled
| to_container
| logging_info
| AutoTokenizer
| SpeechToTextLLMConfig
| SpeechToTextLLM
| AudioToTextDataModule
| from_config_optim
| Trainer
| SpeechToTextLLMPEFT
| from_config_resume
| from_config_logger
| llm_finetune
| setup
| trainer_validate
| trainer_predict
| pdb_set_trace.

#[global] Instance call_eq_dec : EqDecision call.
Proof. solve_decision. Defined.

(** How the session of the interactive debugger ends that
    [pdb.set_trace()] opens: the program is halted until a command
    arrives. *)
Inductive session : Type :=
| resumed   (* [continue]: [pdb.set_trace()] returns *)
| quit      (* [quit], or the end of the input: [bdb.BdbQuit] is raised *)
| waiting.  (* no command arrives: the call does not return *)

(** What a driver reads from its configuration and from the objects it
    builds. *)
Record DictConfig : Type := {
  model_peft : bool;         (* truthiness of cfg['model'].get('peft', None) *)
  logger_log_dir : string;   (* logger.log_dir *)
  app_state_log_dir : string (* app_state.log_dir *)
}.

Definition trace : Type := list call.

(** A run of a driver: the calls it has made, and how it has ended:
    [Some (Ok v)] when it has returned [v], [Some (Raise e)] when it has
    raised [e], and [None] when it has not ended: it is halted in the
    debugger. *)
Definition run (A : Type) : Type := trace -> option (result A) * trace.

Definition ret {A : Type} (a : A) : run A := fun tr => (Some (Ok a), tr).

Definition andthen {A B : Type} (c : run A) (k : A -> run B) : run B :=
  fun tr =>
    match c tr with
    | (Some (Ok a), tr') => k a tr'
    | (Some (Raise e), tr') => (Some (Raise e), tr')
    | (None, tr') => (None, tr')
    end.

Section Drivers.

(** The outcome of each call other than the debugger: [None] when it
    completes, the exception when it raises. *)
Variable outcome : call -> option exn.
(** The debugger session of this run. *)
Variable debugger : session.

Local Notation "c >> k" := (andthen c (fun _ => k))
  (at level 100, k at level 200, right associativity).

Definition invoke (c : call) : run unit :=
  fun tr =>
    match c with
    | pdb_set_trace =>
        match debugger with
        | resumed => (Some (Ok tt), tr ++ [c])
        | quit => (Some (Raise BdbQuit), tr ++ [c])
        | waiting => (None, tr ++ [c])
        end
    | _ =>
        match outcome c with
        | None => (Some (Ok tt), tr ++ [c])
        | Some e => (Some (Raise e), tr ++ [c])
        end
    end%list.

(** Steps 1-6, shared word for word by the three drivers. *)
Definition build (cfg : DictConfig) : run unit :=
  invoke set_typecheck_enabled >>
  invoke to_container >>
  invoke logging_info >>
  invoke AutoTokenizer >>
  invoke SpeechToTextLLMConfig >>
  invoke SpeechToTextLLM >>
  invoke AudioToTextDataModule >>
  invoke from_config_optim >>
  invoke Trainer >>
  (if model_peft cfg then invoke SpeechToTextLLMPEFT else ret tt) >>
  invoke from_config_resume >>
  invoke from_config_logger.

Definition speetch_to_text_llm_train (cfg : DictConfig) : run string :=
  build cfg >>
  invoke llm_finetune >>
  ret (logger_log_dir cfg).

Definition speetch_to_text_llm_validate (cfg : DictConfig) : run string :=
  build cfg >>
  invoke setup >>
  invoke trainer_validate >>
  invoke pdb_set_trace >>
  ret (app_state_log_dir cfg).

Definition speetch_to_text_llm_generate (cfg : DictConfig) : run string :=
  build cfg >>
  invoke setup >>
  invoke trainer_predict >>
  ret (app_state_log_dir cfg).

End Drivers.

End SlmApi.

Module SlmApiFacts.
Import Py Py.Notations SlmApi.

(** Runs a driver symbolically: one case split per external call, the
    raising branch ending the run. *)
Ltac run_driver :=
  unfold speetch_to_text_llm_train, speetch_to_text_llm_validate,
    speetch_to_text_llm_generate, build, andthen, ret, invoke;
  repeat match goal with
    | |- context [model_peft ?cfg] => destruct (model_peft cfg)
    | |- context [match ?o ?c with Some _ => _ | None => _ end] =>
        destruct (o c) eqn:?
    | |- context [match ?d with resumed => _ | quit => _ | waiting => _ end] =>
        destruct d
    end.

Ltac close_trace :=
  intros H; inversion H; subst; clear H;
  rewrite <- ?app_assoc; simpl; eexists; split; [reflexivity|].

(** How a run ends that has reached the debugger. *)
Definition after_debugger (debugger : session) (cfg : DictConfig)
  : option (result string) :=
  match debugger with
  | resumed => Some (Ok (app_state_log_dir cfg))
  | quit => Some (Raise BdbQuit)
  | waiting => None
  end.

Lemma train_trace outcome debugger cfg tr r tr' :
  speetch_to_text_llm_train outcome debugger cfg tr = (r, tr') ->
  r <> None /\
  exists added, tr' = (tr ++ added)%list /\ ~ In pdb_set_trace added.
Proof.
  revert r tr'. run_driver; intros r tr' H; inversion H; subst; clear H;
    (split; [discriminate|]);
    rewrite <- ?app_assoc; simpl; eexists; (split; [reflexivity|]);
    simpl; intuition discriminate.
Qed.

Lemma generate_trace outcome debugger cfg tr r tr' :
  speetch_to_text_llm_generate outcome debugger cfg tr = (r, tr') ->
  r <> None /\
  exists added, tr' = (tr ++ added)%list /\ ~ In pdb_set_trace added.
Proof.
  revert r tr'. run_driver; intros r tr' H; inversion H; subst; clear H;
    (split; [discriminate|]);
    rewrite <- ?app_assoc; simpl; eexists; (split; [reflexivity|]);
    simpl; intuition discriminate.
Qed.

Lemma validate_trace outcome debugger cfg tr r tr' :
  speetch_to_text_llm_validate outcome debugger cfg tr = (r, tr') ->
  exists added,
    tr' = (tr ++ added)%list /\
    (In trainer_validate added -> outcome trainer_validate = None ->
     r = after_debugger debugger cfg /\
     exists mid, added = (mid ++ [trainer_validate; pdb_set_trace])%list) /\
    (In pdb_set_trace added ->
     exists mid, added = (mid ++ [trainer_validate; pdb_set_trace])%list) /\
    (forall v, r = Some (Ok v) ->
     debugger = resumed /\ In pdb_set_trace added).
Proof.
  revert r tr'. run_driver; intros r tr'; close_trace.
  all: split; [intros Hin Hnone | split; [intros Hin | intros v Hv]].
  all: try discriminate.
  all: try congruence.
  all: try (exfalso; simpl in Hin; intuition discriminate).
  all: try (split; [reflexivity | simpl; tauto]).
  all: try (split; [reflexivity|]).
  all: match goal with
       | |- exists mid, ?l = _ =>
           exists (removelast (removelast l)); reflexivity
       end.
Qed.

Lemma validate_reaches_debugger outcome debugger cfg tr :
  (forall c, outcome c = None) ->
  exists tr', speetch_to_text_llm_validate outcome debugger cfg tr
              = (after_debugger debugger cfg, tr').
Proof.
  intros Hall.
  unfold speetch_to_text_llm_validate, build, andthen, ret, invoke.
  rewrite !Hall.
  destruct (model_peft cfg); rewrite ?Hall; destruct debugger;
    eexists; reflexivity.
Qed.

(** C8.  In every run of [speetch_to_text_llm_validate], once
    [trainer.validate] has completed the next call is [pdb.set_trace()],
    made before [app_state.log_dir] is read, and the program is halted
    there: how the run ends is up to the debugger session.  While no
    command arrives the run has no result; on [continue] it returns
    [app_state.log_dir]; on [quit] it raises [bdb.BdbQuit].  So a run
    returns only after it was resumed from the debugger, and whenever no
    call raises the run gets to the debugger.  Runs of the train and
    generate drivers never call [pdb.set_trace()] and are never
    halted. *)
Theorem validate_driver_stops_in_debugger :
  forall (outcome : call -> option exn) (debugger : session)
         (cfg : DictConfig) (tr : trace),
    (forall r tr',
       speetch_to_text_llm_validate outcome debugger cfg tr = (r, tr') ->
       exists added,
         tr' = (tr ++ added)%list /\
         (In trainer_validate added -> outcome trainer_validate = None ->
          r = after_debugger debugger cfg /\
          exists mid, added = (mid ++ [trainer_validate; pdb_set_trace])%list) /\
         (forall v, r = Some (Ok v) ->
          debugger = resumed /\
          exists mid, added = (mid ++ [trainer_validate; pdb_set_trace])%list)) /\
    ((forall c, outcome c = None) ->
     exists tr', speetch_to_text_llm_validate outcome debugger cfg tr
                 = (after_debugger debugger cfg, tr')) /\
    (forall r tr',
       speetch_to_text_llm_train outcome debugger cfg tr = (r, tr') ->
       r <> None /\
       exists added, tr' = (tr ++ added)%list /\ ~ In pdb_set_trace added) /\
    (forall r tr',
       speetch_to_text_llm_generate outcome debugger cfg tr = (r, tr') ->
       r <> None /\
       exists added, tr' = (tr ++ added)%list /\ ~ In pdb_set_trace added).
Proof.
  intros outcome debugger cfg tr. split; [|split; [|split]].
  - intros r tr' H.
    destruct (validate_trace _ _ _ _ _ _ H) as (added & E & Hv & Hdbg & Hok).
    exists added. split; [exact E|]. split; [exact Hv|].
    intros v Hr. destruct (Hok v Hr) as [Hres Hin].
    split; [exact Hres | exact (Hdbg Hin)].
  - apply validate_reaches_debugger.
  - intros r tr'. apply train_trace.
  - intros r tr'. apply generate_trace.
Qed.

Definition cfg_example : DictConfig :=
  {| model_peft := true; logger_log_dir := "exp/log"; app_state_log_dir := "exp/app" |}.

(** With no call raising and no debugger command, the run is halted right
    after validation and has no result. *)
Lemma validate_driver_stops_in_debugger_witness :
  exists mid,
    speetch_to_text_llm_validate (fun _ => None) waiting cfg_example []
    = (None, (mid ++ [trainer_validate; pdb_set_trace])%list).
Proof.
  destruct (validate_driver_stops_in_debugger (fun _ => None) waiting
              cfg_example []) as (H & _).
  destruct (H _ _ eq_refl) as (added & Etr & Hv & _).
  simpl in Etr. subst added.
  destruct (Hv ltac:(simpl; tauto) eq_refl) as (_ & mid & Hmid).
  exists mid. rewrite <- Hmid. reflexivity.
Defined.

End SlmApiFacts.

(** ** [nemo/collections/vlm/llama/model/language.py]: partially trainable
       embedding *)

Module TextModel.

(** Tensors are read by index: a [b, s] tensor of token ids is a function
    of the two indices, an [s, b, h] tensor of activations a function of
    three.  The operations below are the torch calls of the source; all of
    them act position by position. *)
Definition IntTensor2 : Type := nat -> nat -> Z.
Definition IntTensor3 : Type := nat -> nat -> nat -> Z.
Definition Tensor3 : Type := nat -> nat -> nat -> R.

Definition zeros_like (x : IntTensor2) : IntTensor2 := fun _ _ => 0%Z.
Definition ones_like (x : IntTensor2) : IntTensor2 := fun _ _ => 1%Z.
Definition minimum (x : IntTensor2) (c : Z) : IntTensor2 :=
  fun i j => Z.min (x i j) c.
Definition maximum (x : IntTensor2) (c : Z) : IntTensor2 :=
  fun i j => Z.max (x i j) c.
Definition sub_scalar (x : IntTensor2) (c : Z) : IntTensor2 :=
  fun i j => (x i j - c)%Z.
Definition ge_scalar (x : IntTensor2) (c : Z) : nat -> nat -> bool :=
  fun i j => (c <=? x i j)%Z.
Definition lt_scalar (x : IntTensor2) (c : Z) : nat -> nat -> bool :=
  fun i j => (x i j <? c)%Z.
Definition where_ (cond : nat -> nat -> bool) (a b : IntTensor2) : IntTensor2 :=
  fun i j => if cond i j then a i j else b i j.
(** [unsqueeze(-1)]: the new last axis has size one and broadcasts. *)
Definition unsqueeze_last (x : IntTensor2) : IntTensor3 := fun i j _ => x i j.
Definition transpose01 {A : Type} (x : nat -> nat -> nat -> A)
  : nat -> nat -> nat -> A := fun i j k => x j i k.
Definition type_as (m : IntTensor3) : Tensor3 := fun i j k => IZR (m i j k).
Definition mul_t (x y : Tensor3) : Tensor3 := fun i j k => (x i j k * y i j k)%R.
Definition add_t (x y : Tensor3) : Tensor3 := fun i j k => (x i j k + y i j k)%R.

(** The fields of [CrossAttentionTextModel] that the embedding reads. *)
Record CrossAttentionTextModel : Type := {
  num_frozen_embeddings : Z;
  _thresh : Z
}.

(** Lines 132-133 of [__init__]. *)
Definition init (word_embeddings_num_embeddings : Z) : CrossAttentionTextModel :=
  {| num_frozen_embeddings := word_embeddings_num_embeddings;
     _thresh := word_embeddings_num_embeddings - 1 |}.

Section Embedding.

(** The two embedding modules come from Megatron-core.  Each is a table
    lookup per token: [self.embedding] maps ids [b, s] (with their position
    ids) to activations [s, b, h], [self.learnable_embedding] maps ids
    [b, s] to activations [b, s, h]. *)
Variable frozen_table : Z -> Z -> nat -> R.
Variable learnable_table : Z -> nat -> R.

Definition embedding (ids position_ids : IntTensor2) : Tensor3 :=
  fun s b h => frozen_table (ids b s) (position_ids b s) h.

Definition learnable_embedding (ids : IntTensor2) : Tensor3 :=
  fun b s h => learnable_table (ids b s) h.

Definition mask_orig (self : CrossAttentionTextModel) (x : IntTensor2) : IntTensor3 :=
  transpose01
    (unsqueeze_last
       (where_ (ge_scalar x (num_frozen_embeddings self)) (zeros_like x) (ones_like x))).

Definition mask_new (self : CrossAttentionTextModel) (x : IntTensor2) : IntTensor3 :=
  transpose01
    (unsqueeze_last
       (where_ (lt_scalar x (num_frozen_embeddings self)) (zeros_like x) (ones_like x))).

Definition get_partially_trainable_embedding (self : CrossAttentionTextModel)
  (x position_ids : IntTensor2) : Tensor3 :=
  let x_orig := minimum x (_thresh self) in
  let x_new :=
    sub_scalar (maximum x (_thresh self + 1)) (num_frozen_embeddings self) in
  let x_orig := embedding x_orig position_ids in
  let x_new := transpose01 (learnable_embedding x_new) in
  add_t (mul_t x_orig (type_as (mask_orig self x)))
      (mul_t x_new (type_as (mask_new self x))).

End Embedding.

End TextModel.

Module TextModelFacts.
Import TextModel.


Definition ids_example : IntTensor2 :=
  fun b s => match s with O => 5%Z | _ => 128258%Z end.


End TextModelFacts.

(** ** Floating-point values *)

Module Floats.
Import Py.

(** [a / b] on Python floats raises on a zero divisor; the division of
    tensors below does not. *)
Definition py_div (a b : R) : result R :=
  if Req_dec_T b 0 then Raise ZeroDivisionError else Ok (a / b)%R.

(** A floating-point value without its rounding: a real number, one of
    the two infinities, or nan.  Overflow and the sign of a zero are not
    modelled: a zero is [+0.0]. *)
Inductive fnum : Type :=
| Finite (x : R)
| PosInf
| NegInf
| NaN.

Definition Rltb (a b : R) : bool := if Rlt_dec a b then true else false.

Definition fneg (a : fnum) : fnum :=
  match a with
  | Finite x => Finite (- x)
  | PosInf => NegInf
  | NegInf => PosInf
  | NaN => NaN
  end.

Definition fadd (a b : fnum) : fnum :=
  match a, b with
  | NaN, _ | _, NaN => NaN
  | Finite x, Finite y => Finite (x + y)
  | PosInf, NegInf | NegInf, PosInf => NaN
  | PosInf, _ | _, PosInf => PosInf
  | NegInf, _ | _, NegInf => NegInf
  end.

Definition fsub (a b : fnum) : fnum := fadd a (fneg b).

Definition infinity (positive : bool) : fnum :=
  if positive then PosInf else NegInf.

(** An infinity of the given sign times a finite [x]: nan at zero. *)
Definition inf_times (positive : bool) (x : R) : fnum :=
  if Req_dec_T x 0 then NaN
  else if Rlt_dec 0 x then infinity positive else infinity (negb positive).

Definition fmul (a b : fnum) : fnum :=
  match a, b with
  | NaN, _ | _, NaN => NaN
  | Finite x, Finite y => Finite (x * y)
  | PosInf, Finite x | Finite x, PosInf => inf_times true x
  | NegInf, Finite x | Finite x, NegInf => inf_times false x
  | PosInf, PosInf | NegInf, NegInf => PosInf
  | PosInf, NegInf | NegInf, PosInf => NegInf
  end.

(** Division does not raise: a non-zero number over zero is an infinity,
    zero over zero and infinity over infinity are nan. *)
Definition fdiv (a b : fnum) : fnum :=
  match a, b with
  | NaN, _ | _, NaN => NaN
  | Finite x, Finite y =>
      if Req_dec_T y 0 then
        if Req_dec_T x 0 then NaN else infinity (Rltb 0 x)
      else Finite (x / y)
  | Finite _, (PosInf | NegInf) => Finite 0
  | PosInf, Finite y => infinity (negb (Rltb y 0))
  | NegInf, Finite y => infinity (Rltb y 0)
  | (PosInf | NegInf), (PosInf | NegInf) => NaN
  end.

(** [a < b]: false whenever one side is nan. *)
Definition flt (a b : fnum) : bool :=
  match a, b with
  | NaN, _ | _, NaN => false
  | Finite x, Finite y => Rltb x y
  | _, NegInf => false
  | PosInf, _ => false
  | NegInf, _ => true
  | Finite _, PosInf => true
  end.

Definition fgt (a b : fnum) : bool := flt b a.

Lemma fdiv_finite (x y : R) :
  y <> 0%R -> fdiv (Finite x) (Finite y) = Finite (x / y).
Proof.
  intros Hy. unfold fdiv. destruct (Req_dec_T y 0); [contradiction | reflexivity].
Qed.

Lemma fdiv_zero (x : R) :
  fdiv (Finite x) (Finite 0)
  = if Req_dec_T x 0 then NaN else infinity (Rltb 0 x).
Proof.
  unfold fdiv. destruct (Req_dec_T 0 0) as [_ | H]; [reflexivity | now elim H].
Qed.

Lemma Rltb_true (a b : R) : (a < b)%R -> Rltb a b = true.
Proof. intros H. unfold Rltb. destruct (Rlt_dec a b); [reflexivity | contradiction]. Qed.

Lemma Rltb_false (a b : R) : ~ (a < b)%R -> Rltb a b = false.
Proof. intros H. unfold Rltb. destruct (Rlt_dec a b); [contradiction | reflexivity]. Qed.

End Floats.

(** ** [language.py]: rescaling of rotary embedding frequencies *)

Module Rope.
Import Py Py.Notations Floats.

(** One entry of [inv_freq] through the tensor expressions of
    [apply_rope_scaling], lines 956-963.  The operations on tensors are
    those of floating point and do not raise; [torch.where] selects entry
    by entry, so an infinity or a nan in the branch not selected is
    dropped. *)
Definition rescale_entry (factor low_freq_factor high_freq_factor old_context_len
                          low_freq_wavelen high_freq_wavelen inv_freq : R) : fnum :=
  let inv_freq := Finite inv_freq in
  let wavelen := fdiv (Finite (2 * PI)) inv_freq in
  let inv_freq_llama :=
    if fgt wavelen (Finite low_freq_wavelen)
    then fdiv inv_freq (Finite factor) else inv_freq in
  let smooth_factor :=
    fdiv (fsub (fdiv (Finite old_context_len) wavelen) (Finite low_freq_factor))
      (Finite (high_freq_factor - low_freq_factor)) in
  let smoothed_inv_freq :=
    fadd (fdiv (fmul (fsub (Finite 1) smooth_factor) inv_freq_llama)
            (Finite factor))
      (fmul smooth_factor inv_freq_llama) in
  let is_medium_freq :=
    negb (flt wavelen (Finite high_freq_wavelen))
    && negb (fgt wavelen (Finite low_freq_wavelen)) in
  if is_medium_freq then smoothed_inv_freq else inv_freq_llama.

(** [apply_rope_scaling], lines 942-965, on a tensor of finite entries. *)
Definition apply_rope_scaling (inv_freq : list R)
  (factor low_freq_factor high_freq_factor old_context_len : R)
  : result (list fnum) :=
  let* low_freq_wavelen := py_div old_context_len low_freq_factor in
  let* high_freq_wavelen := py_div old_context_len high_freq_factor in
  Ok (map (rescale_entry factor low_freq_factor high_freq_factor old_context_len
             low_freq_wavelen high_freq_wavelen) inv_freq).

End Rope.

Module RopeFacts.
Import Py Py.Notations Floats Rope.

(** The value of an entry over the reals, where no division of
    [rescale_entry] is by zero. *)
Definition rescale_real (factor low high old low_wavelen high_wavelen f : R) : R :=
  let wavelen := (2 * PI / f)%R in
  let inv_freq_llama :=
    if Rltb low_wavelen wavelen then (f / factor)%R else f in
  let smooth_factor := ((old / wavelen - low) / (high - low))%R in
  if negb (Rltb wavelen high_wavelen) && negb (Rltb low_wavelen wavelen)
  then ((1 - smooth_factor) * inv_freq_llama / factor
        + smooth_factor * inv_freq_llama)%R
  else inv_freq_llama.

Lemma wavelength_nonzero (f : R) : f <> 0%R -> (2 * PI / f)%R <> 0%R.
Proof.
  intros Hf H. pose proof PI_RGT_0.
  assert (E : (2 * PI)%R = (2 * PI / f * f)%R) by (field; exact Hf).
  rewrite H in E. lra.
Qed.

Lemma rescale_entry_finite (factor low high old lw hw f : R) :
  f <> 0%R -> factor <> 0%R -> high <> low ->
  rescale_entry factor low high old lw hw f
  = Finite (rescale_real factor low high old lw hw f).
Proof.
  intros Hf Hfac Hband. unfold rescale_entry, rescale_real, fgt.
  rewrite (fdiv_finite _ f Hf). simpl flt.
  rewrite (fdiv_finite old _ (wavelength_nonzero f Hf)).
  rewrite (fdiv_finite f factor Hfac).
  assert (Hd : (high - low)%R <> 0%R) by lra.
  cbn [fsub fadd fneg fmul]. rewrite (fdiv_finite _ _ Hd).
  destruct (Rltb lw (2 * PI / f)); destruct (Rltb (2 * PI / f) hw);
    cbn [fsub fadd fneg fmul negb andb]; try reflexivity;
    rewrite (fdiv_finite _ _ Hfac); cbn [fadd];
    f_equal; unfold Rdiv, Rminus; ring.
Qed.

(** Scaling before or after a division by [factor] is the same, also when
    [factor] is zero. *)
Lemma fdiv_scale (a f factor : R) :
  (0 < f)%R ->
  fdiv (Finite (a * f)) (Finite factor)
  = fmul (Finite a) (fdiv (Finite f) (Finite factor)).
Proof.
  intros Hf. destruct (Req_dec_T factor 0) as [-> | Hfac].
  - rewrite !fdiv_zero.
    destruct (Req_dec_T f 0) as [E | _]; [lra|].
    rewrite (Rltb_true 0 f Hf). simpl. unfold inf_times.
    destruct (Req_dec_T (a * f) 0) as [E | Hne];
      destruct (Req_dec_T a 0) as [Ea | Hna]; try reflexivity.
    + exfalso. apply Hna. nra.
    + exfalso. apply Hne. subst a. ring.
    + destruct (Rlt_dec 0 a) as [Hpos | Hneg].
      * rewrite Rltb_true by nra. reflexivity.
      * rewrite Rltb_false by nra. reflexivity.
  - rewrite !fdiv_finite by exact Hfac. simpl. f_equal. unfold Rdiv. ring.
Qed.

(** What a positive entry [f] becomes, by the band its wavelength falls
    in.  The quotient [f/factor] is the floating-point one. *)
Definition banded (factor low high old f : R) (y : fnum) : Prop :=
  (0 < f)%R ->
  let w := (2 * PI / f)%R in
  let s := ((old / w - low) / (high - low))%R in
  ((w > old / low)%R -> y = fdiv (Finite f) (Finite factor)) /\
  ((w < old / high)%R -> ~ (w > old / low)%R -> y = Finite f) /\
  (~ (w < old / high)%R -> ~ (w > old / low)%R ->
   y = fadd (fmul (Finite (1 - s)) (fdiv (Finite f) (Finite factor)))
         (Finite (s * f))).

Lemma rescale_entry_banded (factor low high old f : R) :
  low <> high ->
  banded factor low high old f
    (rescale_entry factor low high old (old / low) (old / high) f).
Proof.
  intros Hband Hf w s.
  assert (Hf0 : f <> 0%R) by lra.
  assert (Hd : (high - low)%R <> 0%R) by lra.
  unfold rescale_entry, fgt.
  rewrite (fdiv_finite _ f Hf0). fold w. simpl flt.
  rewrite (fdiv_finite old w (wavelength_nonzero f Hf0)).
  cbn [fsub fadd fneg]. rewrite (fdiv_finite _ _ Hd).
  unfold Rltb.
  destruct (Rlt_dec (old / low) w) as [Hlow | Hlow];
    destruct (Rlt_dec w (old / high)) as [Hhigh | Hhigh];
    cbn [negb andb]; repeat split; intros; try reflexivity;
    try contradiction; try (exfalso; unfold Rgt in *; tauto).
  cbn [fsub fadd fneg fmul].
  replace (1 + - ((old / w + - low) / (high - low)))%R with (1 - s)%R
    by (unfold s; unfold Rdiv, Rminus; ring).
  rewrite (fdiv_scale (1 - s) f factor Hf).
  replace ((old / w + - low) / (high - low) * f)%R with (s * f)%R
    by (unfold s; unfold Rdiv, Rminus; ring).
  reflexivity.
Qed.

(** C3, amended.  With non-zero and different [low_freq_factor] and
    [high_freq_factor], [apply_rope_scaling] returns one entry per input
    entry, and a positive entry [f] with wavelength [w = 2*pi/f] becomes
    [f/factor] when [w > old_context_len/low_freq_factor]; stays [f] when
    [w < old_context_len/high_freq_factor] and [w] is not above
    [old_context_len/low_freq_factor]; and otherwise becomes
    [(1 - s)*(f/factor) + s*f] with
    [s = (old_context_len/w - low_freq_factor)/(high_freq_factor - low_freq_factor)]. *)
Theorem apply_rope_scaling_bands :
  forall (inv_freq : list R) (factor low high old : R),
    low <> 0%R -> high <> 0%R -> low <> high ->
    exists out,
      apply_rope_scaling inv_freq factor low high old = Ok out /\
      Forall2 (banded factor low high old) inv_freq out.
Proof.
  intros inv_freq factor low high old Hlow Hhigh Hband.
  unfold apply_rope_scaling, py_div.
  destruct (Req_dec_T low 0) as [E|_]; [contradiction|].
  destruct (Req_dec_T high 0) as [E|_]; [contradiction|].
  simpl. eexists. split; [reflexivity|].
  induction inv_freq as [|f rest IH]; simpl; constructor.
  - apply rescale_entry_banded. exact Hband.
  - exact IH.
Qed.

Lemma two_pi_bounds : (6 < 2 * PI / 1 <= 8)%R.
Proof.
  pose proof PI2_3_2 as Hlo. pose proof PI_4 as Hhi. lra.
Qed.

Lemma apply_rope_scaling_bands_witness :
  exists y,
    apply_rope_scaling [1%R] 8 1 4 8192 = Ok [y] /\ y = Finite 1.
Proof.
  destruct (apply_rope_scaling_bands [1%R] 8 1 4 8192) as (out & E & Hb);
    [lra | lra | lra |].
  inversion Hb as [|f y rest out' Hy Hrest]; subst.
  inversion Hrest; subst.
  exists y. split; [exact E|].
  destruct (Hy ltac:(lra)) as (_ & Hkeep & _).
  pose proof two_pi_bounds as Hpi.
  apply Hkeep; [lra | unfold Rgt; lra].
Defined.

Lemma apply_rope_scaling_ok inv_freq factor low high old :
  low <> 0%R -> high <> 0%R ->
  apply_rope_scaling inv_freq factor low high old
  = Ok (map (rescale_entry factor low high old (old / low) (old / high))
          inv_freq).
Proof.
  intros Hlow Hhigh. unfold apply_rope_scaling, py_div.
  destruct (Req_dec_T low 0) as [E|_]; [contradiction|].
  destruct (Req_dec_T high 0) as [E|_]; [contradiction|].
  reflexivity.
Qed.

(** Without the side conditions the unchanged band fails where the two
    outer bands overlap: with
    [low_freq_factor = 4 > high_freq_factor = 1] the entry 1 has a
    wavelength below [old_context_len/high_freq_factor], yet it is divided
    by [factor]. *)
Lemma apply_rope_scaling_overlap_counterexample :
  (0 < 1)%R /\
  (2 * PI / 1 < 16 / 1)%R /\
  apply_rope_scaling [1%R] 8 4 1 16 = Ok [Finite (1 / 8)] /\
  Finite (1 / 8) <> Finite 1.
Proof.
  pose proof two_pi_bounds as Hpi.
  split; [lra|]. split; [lra|]. split; [|intros H; inversion H; lra].
  rewrite apply_rope_scaling_ok by lra. simpl.
  rewrite rescale_entry_finite by lra. do 2 f_equal.
  unfold rescale_real.
  rewrite (Rltb_true (16 / 4) (2 * PI / 1)) by lra.
  rewrite (Rltb_true (2 * PI / 1) (16 / 1)) by lra.
  reflexivity.
Qed.

End RopeFacts.

(** ** [language.py]: the cross-attention layer and block *)

Module XAttn.
Import Py Py.Notations.

Set Warnings "-register-all".

(** A tensor by its leading axis: a scalar entry, or the stack of its
    slices along axis 0. *)
Inductive Tensor : Type :=
| Scalar (r : R)
| Stack (rows : list Tensor).

(** [g * t] for a one-element parameter [g]: every entry is scaled. *)
Fixpoint scale (g : R) (t : Tensor) : Tensor :=
  match t with
  | Scalar r => Scalar (g * r)
  | Stack rows => Stack (map (scale g) rows)
  end.

(** The Python values that flow between the modules. *)
Inductive pyval : Type :=
| PNone
| PTensor (t : Tensor)
| PTuple (items : list pyval).

(** [a, b = v]: a tuple must have two items; a tensor is iterated along
    axis 0 and must have two slices there. *)
Definition unpack2 (v : pyval) : result (pyval * pyval) :=
  match v with
  | PTuple [a; b] => Ok (a, b)
  | PTuple _ => Raise (ValueError "unpack (expected 2)")
  | PTensor (Stack [a; b]) => Ok (PTensor a, PTensor b)
  | PTensor (Stack _) => Raise (ValueError "unpack (expected 2)")
  | PTensor (Scalar _) => Raise TypeError
  | PNone => Raise TypeError
  end.

(** The keyword arguments a block hands unchanged to each of its layers. *)
Record LayerInputs : Type := {
  cross_attention_masks : pyval;
  full_text_row_masked_out_mask : pyval;
  rotary_pos_emb : pyval;
  inference_params : pyval;
  packed_seq_params : pyval
}.

(** *** [CrossAttentionTransformerLayer] *)

(** The two gates of [__init__] (lines 457-458) and the submodules and
    settings the Megatron-core base class builds. *)
Record CrossAttentionTransformerLayer : Type := {
  layer_number : nat;
  gate_attn : R;
  gate_ffn : R;
  training : bool;
  bias_dropout_fusion : bool;
  hidden_dropout : R;
  pre_cross_attn_layernorm : pyval -> pyval;
  cross_attention : pyval -> LayerInputs -> pyval -> pyval;
  cross_attn_bda : bool -> bool -> pyval -> pyval -> R -> pyval;
  pre_mlp_layernorm : pyval -> pyval;
  mlp : pyval -> pyval;
  mlp_bda : bool -> bool -> pyval -> pyval -> R -> pyval
}.

(** [g * output if output is not None else None] *)
Definition gate_item (g : R) (output : pyval) : result pyval :=
  match output with
  | PNone => Ok PNone
  | PTensor t => Ok (PTensor (scale g t))
  | PTuple _ => Raise TypeError
  end.

Fixpoint gate_items (g : R) (outputs : list pyval) : result (list pyval) :=
  match outputs with
  | [] => Ok []
  | output :: rest =>
      let* o := gate_item g output in
      let* os := gate_items g rest in
      Ok (o :: os)
  end.

(** The [assert isinstance(..., tuple)] and the gating generator. *)
Definition gate_tuple (msg : string) (g : R) (output_with_bias : pyval)
  : result pyval :=
  match output_with_bias with
  | PTuple outputs =>
      let* gated := gate_items g outputs in
      Ok (PTuple gated)
  | _ => Raise (AssertionError msg)
  end.

(** [v.requires_grad]: an attribute of tensors, which [None] and tuples
    do not have. *)
Definition requires_grad (v : pyval) : result unit :=
  match v with
  | PTensor _ => Ok tt
  | _ => Raise (AttributeError "requires_grad")
  end.

(** [CrossAttentionTransformerLayer.forward], lines 463-541.
    [make_viewless_tensor] hands back the values of its input. *)
Definition layer_forward (self : CrossAttentionTransformerLayer)
  (hidden_states : pyval) (inputs : LayerInputs) (xattn_cache : pyval)
  : result (pyval * pyval) :=
  let residual := hidden_states in
  let pre_cross_attn_layernorm_output :=
    pre_cross_attn_layernorm self hidden_states in
  let attention_output_with_bias :=
    cross_attention self pre_cross_attn_layernorm_output inputs xattn_cache in
  let _gate_attn := tanh (gate_attn self) in
  let* attention_output_with_bias :=
    gate_tuple "`attention_output_with_bias` needs to be tuple for gating."
      _gate_attn attention_output_with_bias in
  let hidden_states :=
    cross_attn_bda self (training self) (bias_dropout_fusion self)
      attention_output_with_bias residual (hidden_dropout self) in
  let residual := hidden_states in
  let pre_mlp_layernorm_output := pre_mlp_layernorm self hidden_states in
  let mlp_output_with_bias := mlp self pre_mlp_layernorm_output in
  let _gate_ffn := tanh (gate_ffn self) in
  let* mlp_output_with_bias :=
    gate_tuple "`mlp_output_with_bias` needs to be tuple for gating."
      _gate_attn mlp_output_with_bias in
  let hidden_states :=
    mlp_bda self (training self) (bias_dropout_fusion self)
      mlp_output_with_bias residual (hidden_dropout self) in
  let* _ := requires_grad hidden_states in
  let output := hidden_states in
  Ok (output, PNone).

End XAttn.

Module LayerFacts.
Import Py Py.Notations XAttn.

(** The layer as the specification words it: the feed-forward branch is
    gated by [tanh(gate_ffn)]. *)
Definition spec_layer_forward (self : CrossAttentionTransformerLayer)
  (hidden_states : pyval) (inputs : LayerInputs) (xattn_cache : pyval)
  : result (pyval * pyval) :=
  let residual := hidden_states in
  let attention_output_with_bias :=
    cross_attention self (pre_cross_attn_layernorm self hidden_states)
      inputs xattn_cache in
  let* attention_output_with_bias :=
    gate_tuple "`attention_output_with_bias` needs to be tuple for gating."
      (tanh (gate_attn self)) attention_output_with_bias in
  let hidden_states :=
    cross_attn_bda self (training self) (bias_dropout_fusion self)
      attention_output_with_bias residual (hidden_dropout self) in
  let residual := hidden_states in
  let mlp_output_with_bias := mlp self (pre_mlp_layernorm self hidden_states) in
  let* mlp_output_with_bias :=
    gate_tuple "`mlp_output_with_bias` needs to be tuple for gating."
      (tanh (gate_ffn self)) mlp_output_with_bias in
  let hidden_states :=
    mlp_bda self (training self) (bias_dropout_fusion self)
      mlp_output_with_bias residual (hidden_dropout self) in
  let* _ := requires_grad hidden_states in
  Ok (hidden_states, PNone).

Definition with_gate_ffn (g : R) (l : CrossAttentionTransformerLayer)
  : CrossAttentionTransformerLayer :=
  {| layer_number := layer_number l;
     gate_attn := gate_attn l;
     gate_ffn := g;
     training := training l;
     bias_dropout_fusion := bias_dropout_fusion l;
     hidden_dropout := hidden_dropout l;
     pre_cross_attn_layernorm := pre_cross_attn_layernorm l;
     cross_attention := cross_attention l;
     cross_attn_bda := cross_attn_bda l;
     pre_mlp_layernorm := pre_mlp_layernorm l;
     mlp := mlp l;
     mlp_bda := mlp_bda l |}.

(** The attention branch is gated as stated, and the two layers agree,
    in what they return and in what they raise, as long as the gates hold
    the same value (as they do right after [__init__], where both are
    zero). *)
Lemma layer_forward_equal_gates self hidden_states inputs xattn_cache :
  gate_ffn self = gate_attn self ->
  layer_forward self hidden_states inputs xattn_cache
  = spec_layer_forward self hidden_states inputs xattn_cache.
Proof.
  intros E. unfold layer_forward, spec_layer_forward. rewrite E. reflexivity.
Qed.

(** [gate_ffn] is computed but never used: the output does not depend on it. *)
Lemma layer_forward_ignores_gate_ffn self g hidden_states inputs xattn_cache :
  layer_forward (with_gate_ffn g self) hidden_states inputs xattn_cache
  = layer_forward self hidden_states inputs xattn_cache.
Proof. reflexivity. Qed.

(** Entry-wise sum of two tensors of one shape. *)
Fixpoint tensor_add (a b : Tensor) {struct a} : Tensor :=
  match a, b with
  | Scalar x, Scalar y => Scalar (x + y)
  | Stack xs, Stack ys =>
      Stack ((fix go (xs ys : list Tensor) {struct xs} : list Tensor :=
                match xs, ys with
                | x :: xs', y :: ys' => tensor_add x y :: go xs' ys'
                | _, _ => []
                end) xs ys)
  | _, _ => a
  end.

(** A bias-dropout-add without bias and with dropout off:
    [residual + output]. *)
Definition plain_bda (_ _ : bool) (x_with_bias residual : pyval) (_ : R) : pyval :=
  match x_with_bias, residual with
  | PTuple [PTensor x; PNone], PTensor r => PTensor (tensor_add r x)
  | _, _ => residual
  end.

(** A layer whose submodules pass their input through, with the ffn gate
    moved away from the attention gate. *)
Definition passthrough_layer (g_attn g_ffn : R) : CrossAttentionTransformerLayer :=
  {| layer_number := 1;
     gate_attn := g_attn;
     gate_ffn := g_ffn;
     training := false;
     bias_dropout_fusion := false;
     hidden_dropout := 0;
     pre_cross_attn_layernorm := fun x => x;
     cross_attention := fun x _ _ => PTuple [x; PNone];
     cross_attn_bda := plain_bda;
     pre_mlp_layernorm := fun x => x;
     mlp := fun x => PTuple [x; PNone];
     mlp_bda := plain_bda |}.

Definition no_inputs : LayerInputs :=
  {| cross_attention_masks := PNone;
     full_text_row_masked_out_mask := PNone;
     rotary_pos_emb := PNone;
     inference_params := PNone;
     packed_seq_params := PNone |}.

(** One token, batch of one, hidden size one: the tensor [[[1.0]]]. *)
Definition unit_hidden : pyval := PTensor (Stack [Stack [Stack [Scalar 1]]]).

(** With both gates at 1 each branch adds [tanh 1] times its input: the
    attention branch turns 1 into [1 + tanh 1], the feed-forward branch
    adds [tanh 1] times that. *)
Lemma layer_forward_equal_gates_witness :
  layer_forward (passthrough_layer 1 1) unit_hidden no_inputs PNone
  = Ok (PTensor
          (Stack [Stack [Stack
             [Scalar (1 + tanh 1 * 1 + tanh 1 * (1 + tanh 1 * 1))]]]),
        PNone).
Proof.
  rewrite (layer_forward_equal_gates (passthrough_layer 1 1) unit_hidden
             no_inputs PNone eq_refl).
  reflexivity.
Defined.

Lemma tanh_zero : tanh 0 = 0%R.
Proof. unfold tanh. rewrite sinh_0. unfold Rdiv. ring. Qed.

Lemma tanh_one_pos : (0 < tanh 1)%R.
Proof.
  unfold tanh. apply Rdiv_lt_0_compat.
  - rewrite <- sinh_0. apply sinh_lt. lra.
  - unfold cosh. pose proof (exp_pos 1). pose proof (exp_pos (Ropp 1)). lra.
Qed.

(** C1, at a layer whose gates differ ([gate_attn = 0], [gate_ffn = 1]) and
    the input [[[1.0]]]: the source returns [[[1.0]]], the feed-forward
    branch having been scaled by [tanh(gate_attn) = 0]; gating that branch
    by [tanh(gate_ffn)] gives [[[1 + tanh 1]]], which is a different
    tensor. *)
Theorem layer_forward_gates_ffn_with_gate_attn :
  layer_forward (passthrough_layer 0 1) unit_hidden no_inputs PNone
    = Ok (PTensor (Stack [Stack [Stack [Scalar 1]]]), PNone) /\
  spec_layer_forward (passthrough_layer 0 1) unit_hidden no_inputs PNone
    = Ok (PTensor (Stack [Stack [Stack [Scalar (1 + tanh 1)]]]), PNone) /\
  (1 + tanh 1)%R <> 1%R.
Proof.
  split; [|split].
  - unfold layer_forward, unit_hidden. simpl. rewrite tanh_zero.
    repeat f_equal; lra.
  - unfold spec_layer_forward, unit_hidden. simpl. rewrite tanh_zero.
    repeat f_equal; lra.
  - pose proof tanh_one_pos. lra.
Qed.

End LayerFacts.

(** *** [CrossAttentionTransformerBlock] *)

Module Block.
Import Py Py.Notations XAttn.

(** A slot of [xattn_and_dummy_layers]. *)
Inductive XLayer : Type :=
| XAttnLayer (l : CrossAttentionTransformerLayer)
| DummyCrossAttentionTransformerLayer.

(** [DummyCrossAttentionTransformerLayer.__call__], lines 546-552. *)
Definition dummy_call (hidden_states : pyval) : pyval := hidden_states.

(** A text-only [TransformerLayer] of Megatron-core. *)
Record TextLayer : Type := {
  text_forward : pyval -> pyval -> LayerInputs -> pyval
}.

(** A configuration value that may be unset, a string or a flag. *)
Inductive cfgval : Type :=
| CNone
| CStr (s : string)
| CBool (b : bool).

Definition truthy (v : cfgval) : bool :=
  match v with
  | CNone => false
  | CStr s => negb (String.eqb s "")
  | CBool b => b
  end.

(** [v == s] for a string literal [s]. *)
Definition eq_str (v : cfgval) (s : string) : bool :=
  match v with
  | CStr s' => String.eqb s' s
  | _ => false
  end.

Record TransformerConfig : Type := {
  fusion_schedule : list nat;
  fp8 : cfgval;
  fp8_wgrad : bool;
  sequence_parallel : bool;
  recompute_granularity : cfgval;
  enable_cuda_graph : bool;
  cpu_offloading : bool
}.

Inductive Format : Type := E4M3 | HYBRID.

(** The context managers of [forward].  [fp8_autocast] carries the format
    of its recipe, the third entry of [override_linear_precision], and
    whether an amax reduction group was fetched. *)
Inductive context : Type :=
| nullcontext
| rng_tracker_fork
| fp8_autocast (fp8_format : Format) (override_wgrad : bool) (fp8_group : bool)
| offload.

(** Context manager objects define neither [__bool__] nor [__len__]. *)
Definition context_truthy (c : context) : bool := true.

(** [a and b] *)
Definition py_and (a b : context) : context :=
  if context_truthy a then b else a.

(** What a forward pass does that can be observed from outside. *)
Inductive event : Type :=
| Enter (c : context)
| Exit (c : context)
| CallXAttnSlot (l_no : nat) (slot : XLayer) (xattn_cache : pyval)
| CallTextLayer (l_no : nat)
| ReplayCudaGraph (l_no microbatch : nat).

Definition trace : Type := list event.

Definition emit (e : event) : eff trace unit := fun tr => (Ok tt, (tr ++ [e])%list).

Definition lift {A : Type} (r : result A) : eff trace A := fun tr => (r, tr).

(** [with c: body]: the context is left on every way out of the body. *)
Definition with_ {A : Type} (c : context) (body : eff trace A) : eff trace A :=
  fun tr =>
    let '(r, tr') := body (tr ++ [Enter c])%list in
    (r, (tr' ++ [Exit c])%list).

(** The block after [TransformerBlock.__init__] of Megatron-core has run,
    and the state the training loop keeps on it. *)
Record TransformerBlock : Type := {
  config : TransformerConfig;
  num_layers_per_pipeline_rank : nat;
  layers : list TextLayer;
  pre_process : bool;
  input_tensor : pyval;
  block_training : bool;
  offload_context : context;
  cuda_graphs : list (list (pyval -> bool -> pyval));
  current_microbatch : nat;
  group_prefetch_offload_commit_async : option (pyval -> pyval);
  final_layernorm : option (pyval -> pyval)
}.

Record CrossAttentionTransformerBlock : Type := {
  base : TransformerBlock;
  xattn_layers : list CrossAttentionTransformerLayer;
  xattn_and_dummy_layers : list XLayer
}.

(** [i in self.fusion_schedule] *)
Definition in_schedule (i : nat) (schedule : list nat) : bool :=
  existsb (Nat.eqb i) schedule.

Section Init.

(** [build_module(layer_spec, config=self.config, layer_number=...)] of
    Megatron-core, by layer number. *)
Variable build_module : nat -> CrossAttentionTransformerLayer.

(** One turn of the loop of lines 268-302. *)
Definition init_step (schedule : list nat)
  (acc : list CrossAttentionTransformerLayer * list XLayer) (i : nat)
  : list CrossAttentionTransformerLayer * list XLayer :=
  if in_schedule i schedule then
    let xattn_layer := build_module (i + 1) in
    (acc.1 ++ [xattn_layer], acc.2 ++ [XAttnLayer xattn_layer])%list
  else
    (acc.1, (acc.2 ++ [DummyCrossAttentionTransformerLayer])%list).

(** [CrossAttentionTransformerBlock.__init__], lines 260-305. *)
Definition init (super : TransformerBlock) : result CrossAttentionTransformerBlock :=
  let fusion_schedule := fusion_schedule (config super) in
  let built :=
    fold_left (init_step fusion_schedule)
      (seq 0 (num_layers_per_pipeline_rank super)) ([], []) in
  if Nat.eqb (length built.2) (length (layers super)) then
    Ok {| base := super;
          xattn_layers := built.1;
          xattn_and_dummy_layers := built.2 |}
  else Raise (AssertionError "Check PP implementation for cross attention layers!").

End Init.

Section Forward.

(** [torch.is_grad_enabled()] and
    [parallel_state.model_parallel_is_initialized()]. *)
Variable grad_enabled : bool.
Variable model_parallel_is_initialized : bool.

Variable self : CrossAttentionTransformerBlock.
Variable attention_mask : pyval.
Variable xattn_caches : pyval.
Variable inputs : LayerInputs.

(** [xattn_caches[l_no]] *)
Definition subscript (v : pyval) (i : nat) : result pyval :=
  match v with
  | PNone => Raise TypeError
  | PTuple items => index items i
  | PTensor (Stack rows) =>
      match rows !! i with
      | Some row => Ok (PTensor row)
      | None => Raise IndexError
      end
  | PTensor (Scalar _) => Raise IndexError
  end.

Definition is_none (v : pyval) : bool :=
  match v with PNone => true | _ => false end.

(** Calling a slot of [xattn_and_dummy_layers]. *)
Definition call_xattn_slot (xattn_layer : XLayer) (l_no : nat)
  (hidden_states xattn_cache : pyval) : eff trace pyval :=
  emit (CallXAttnSlot l_no xattn_layer xattn_cache) ;;
  match xattn_layer with
  | XAttnLayer l =>
      run* out := lift (layer_forward l hidden_states inputs xattn_cache) in
      eret (PTuple [out.1; out.2])
  | DummyCrossAttentionTransformerLayer => eret (dummy_call hidden_states)
  end.

Definition call_text_layer (layer : TextLayer) (l_no : nat)
  (hidden_states : pyval) : eff trace pyval :=
  emit (CallTextLayer l_no) ;;
  eret (text_forward layer hidden_states attention_mask inputs).

(** The body of [with self.offload_context:], lines 386-425. *)
Definition layer_pair (l_no : nat) (layer : TextLayer) (xattn_layer : XLayer)
  (hidden_states : pyval) : eff trace pyval :=
  let b := base self in
  if Nat.eqb (length (cuda_graphs b)) 0 || negb (block_training b) then
    run* xattn_cache := lift (subscript xattn_caches l_no) in
    run* out := call_xattn_slot xattn_layer l_no hidden_states xattn_cache in
    run* unpacked := lift (unpack2 out) in
    let hidden_states := unpacked.1 in
    run* out := call_text_layer layer l_no hidden_states in
    run* unpacked := lift (unpack2 out) in
    let hidden_states := unpacked.1 in
    let context := unpacked.2 in
    if is_none context || negb (enable_cuda_graph (config b))
       || negb (block_training b)
    then eret hidden_states
    else eraise (AssertionError "")
  else
    match cuda_graphs b !! l_no with
    | None => eraise (AssertionError "")
    | Some graphs =>
        match graphs !! current_microbatch b with
        | None => eraise (AssertionError "")
        | Some graph =>
            emit (ReplayCudaGraph l_no (current_microbatch b)) ;;
            eret (graph hidden_states (Nat.eqb (current_microbatch b) 0))
        end
    end.

(** The [for l_no, (layer, xattn_layer) in enumerate(zip(...))] loop. *)
Fixpoint layer_loop (l_no : nat) (pairs : list (TextLayer * XLayer))
  (hidden_states : pyval) : eff trace pyval :=
  match pairs with
  | [] => eret hidden_states
  | (layer, xattn_layer) :: rest =>
      run* hidden_states :=
        with_ (offload_context (base self))
          (layer_pair l_no layer xattn_layer hidden_states) in
      let hidden_states :=
        match group_prefetch_offload_commit_async (base self) with
        | Some commit =>
            if grad_enabled && cpu_offloading (config (base self))
            then commit hidden_states else hidden_states
        | None => hidden_states
        end in
      layer_loop (S l_no) rest hidden_states
  end.

Definition fp8_error : exn :=
  ValueError "E4M3 and HYBRID are the only supported FP8 formats.".

(** Lines 351-369: the FP8 context of this pass. *)
Definition make_fp8_context : result context :=
  let cfg := config (base self) in
  if truthy (fp8 cfg) then
    let* fp8_format :=
      (if eq_str (fp8 cfg) "e4m3" then Ok E4M3
       else if eq_str (fp8 cfg) "hybrid" then Ok HYBRID
       else Raise fp8_error) in
    Ok (fp8_autocast fp8_format (negb (fp8_wgrad cfg))
          model_parallel_is_initialized)
  else Ok nullcontext.

(** [CrossAttentionTransformerBlock.forward], lines 307-439. *)
Definition forward (hidden_states : pyval) : eff trace pyval :=
  let b := base self in
  let hidden_states :=
    if negb (pre_process b) then input_tensor b else hidden_states in
  let rng_context :=
    if sequence_parallel (config b) then rng_tracker_fork else nullcontext in
  run* fp8_context := lift make_fp8_context in
  run* hidden_states :=
    with_ (py_and rng_context fp8_context)
      (if eq_str (recompute_granularity (config b)) "full" && block_training b
       then eraise NotImplementedError
       else layer_loop 0 (zip (layers b) (xattn_and_dummy_layers self))
              hidden_states) in
  match final_layernorm b with
  | Some norm => eret (norm hidden_states)
  | None => eret hidden_states
  end.

End Forward.

End Block.

Module BlockFacts.
Import Py Py.Notations XAttn Block.

Lemma eq_str_false (v : cfgval) (s : string) :
  v <> CStr s -> eq_str v s = false.
Proof.
  intros H. destruct v as [|s'|b]; simpl; try reflexivity.
  apply String.eqb_neq. congruence.
Qed.

(** **** The layers run inside the context of the pass *)

(** [e] is the call of layer [l_no]: of its cross-attention slot, of its
    text layer, or the replay of its CUDA graph. *)
Definition calls_layer (l_no : nat) (e : event) : Prop :=
  match e with
  | CallXAttnSlot n _ _ | CallTextLayer n | ReplayCudaGraph n _ => n = l_no
  | Enter _ | Exit _ => False
  end.

(** The events of the layer loop from layer [l_no] on: one turn per
    layer, in order, each made of the offload context entered, calls of
    that layer only, and the offload context left. *)
Inductive layer_turns (off : context) : nat -> list event -> Prop :=
| turns_done (l_no : nat) : layer_turns off l_no []
| turns_next (l_no : nat) (calls rest : list event) :
    Forall (calls_layer l_no) calls ->
    layer_turns off (S l_no) rest ->
    layer_turns off l_no (Enter off :: calls ++ Exit off :: rest)%list.

Section Inside.

Variables (grad_enabled model_parallel_is_initialized : bool).
Variable self : CrossAttentionTransformerBlock.
Variables (attention_mask xattn_caches : pyval) (inputs : LayerInputs).

(** Layer [l_no] with cross-attention slot [slot] was run among [events]:
    outside CUDA-graph replay the slot was called with
    [xattn_caches[l_no]] and the text layer was called; in replay the
    graph of the layer was replayed. *)
Definition ran_layer (l_no : nat) (slot : XLayer) (events : list event) : Prop :=
  if Nat.eqb (length (cuda_graphs (base self))) 0
     || negb (block_training (base self))
  then
    (exists cache,
       subscript xattn_caches l_no = Ok cache /\
       In (CallXAttnSlot l_no slot cache) events) /\
    In (CallTextLayer l_no) events
  else In (ReplayCudaGraph l_no (current_microbatch (base self))) events.

(** A pass ran inside the context [ctx]: what it added to the trace is
    the entry of [ctx], the turns of the layer loop and the exit of
    [ctx], nothing before, between or after; and if the pass returned,
    every layer of the block was run in its turn. *)
Definition ran_inside (ctx : context) (tr : trace)
  (run : result pyval * trace) : Prop :=
  exists inner,
    snd run = (tr ++ Enter ctx :: inner ++ [Exit ctx])%list /\
    layer_turns (offload_context (base self)) 0 inner /\
    (forall out, fst run = Ok out ->
     forall i layer slot,
       zip (layers (base self)) (xattn_and_dummy_layers self) !! i
       = Some (layer, slot) ->
       ran_layer i slot inner).

Lemma layer_pair_calls l_no layer slot hidden_states tr :
  exists calls,
    snd (layer_pair self attention_mask xattn_caches inputs l_no layer slot
           hidden_states tr) = (tr ++ calls)%list /\
    Forall (calls_layer l_no) calls /\
    (forall out,
       fst (layer_pair self attention_mask xattn_caches inputs l_no layer slot
              hidden_states tr) = Ok out ->
       ran_layer l_no slot calls).
Proof.
  unfold layer_pair, ran_layer.
  destruct (Nat.eqb (length (cuda_graphs (base self))) 0
            || negb (block_training (base self))).
  - unfold ebind, lift, call_xattn_slot, call_text_layer, emit, eret, eraise.
    destruct (subscript xattn_caches l_no) as [cache | e]; simpl.
    2:{ exists []. rewrite app_nil_r. repeat split; [constructor | discriminate
                                                    | discriminate]. }
    assert (Hone : Forall (calls_layer l_no) [CallXAttnSlot l_no slot cache])
      by (repeat constructor).
    assert (Htwo : Forall (calls_layer l_no)
                     [CallXAttnSlot l_no slot cache; CallTextLayer l_no])
      by (repeat constructor).
    assert (Hran : (exists cache0,
                      Ok cache = Ok cache0 /\
                      In (CallXAttnSlot l_no slot cache0)
                        [CallXAttnSlot l_no slot cache; CallTextLayer l_no]) /\
                   In (CallTextLayer l_no)
                     [CallXAttnSlot l_no slot cache; CallTextLayer l_no]).
    { split; [exists cache; split; [reflexivity | left; reflexivity]
             | right; left; reflexivity]. }
    destruct slot as [l|]; simpl.
    + destruct (layer_forward l hidden_states inputs cache) as [[h1 c1] | e];
        simpl; [|exists [CallXAttnSlot l_no (XAttnLayer l) cache];
                 repeat split; [exact Hone | discriminate | discriminate]].
      destruct (unpack2 (text_forward layer h1 attention_mask inputs))
        as [[h2 c2] | e]; simpl;
        [destruct (is_none c2 || negb (enable_cuda_graph (config (base self)))
                   || negb (block_training (base self)))|];
        exists [CallXAttnSlot l_no (XAttnLayer l) cache; CallTextLayer l_no];
        rewrite <- app_assoc; (split; [reflexivity|]);
        (split; [exact Htwo | intros out Hout; exact Hran]).
    + unfold dummy_call.
      destruct (unpack2 hidden_states) as [[h1 c1] | e]; simpl;
        [|exists [CallXAttnSlot l_no DummyCrossAttentionTransformerLayer cache];
          repeat split; [exact Hone | discriminate | discriminate]].
      destruct (unpack2 (text_forward layer h1 attention_mask inputs))
        as [[h2 c2] | e]; simpl;
        [destruct (is_none c2 || negb (enable_cuda_graph (config (base self)))
                   || negb (block_training (base self)))|];
        exists [CallXAttnSlot l_no DummyCrossAttentionTransformerLayer cache;
                CallTextLayer l_no];
        rewrite <- app_assoc; (split; [reflexivity|]);
        (split; [exact Htwo | intros out Hout; exact Hran]).
  - destruct (cuda_graphs (base self) !! l_no) as [graphs|]; simpl;
      [|exists []; rewrite app_nil_r;
        repeat split; [constructor | discriminate]].
    destruct (graphs !! current_microbatch (base self)) as [graph|]; simpl;
      [|exists []; rewrite app_nil_r;
        repeat split; [constructor | discriminate]].
    exists [ReplayCudaGraph l_no (current_microbatch (base self))].
    split; [reflexivity|]. split; [repeat constructor|].
    intros out _. left. reflexivity.
Qed.

Lemma ran_layer_incl l_no slot (events events' : list event) :
  (forall e, In e events -> In e events') ->
  ran_layer l_no slot events -> ran_layer l_no slot events'.
Proof.
  intros Hincl. unfold ran_layer. destruct (_ || _).
  - intros [(cache & Hc & Hin) Htext]. split.
    + exists cache. split; [exact Hc | apply Hincl; exact Hin].
    + apply Hincl. exact Htext.
  - apply Hincl.
Qed.

Lemma layer_loop_turns pairs : forall l_no hidden_states tr,
  exists inner,
    snd (layer_loop grad_enabled self attention_mask xattn_caches inputs
           l_no pairs hidden_states tr) = (tr ++ inner)%list /\
    layer_turns (offload_context (base self)) l_no inner /\
    (forall out,
       fst (layer_loop grad_enabled self attention_mask xattn_caches inputs
              l_no pairs hidden_states tr) = Ok out ->
       forall i layer slot,
         pairs !! i = Some (layer, slot) -> ran_layer (l_no + i) slot inner).
Proof.
  induction pairs as [|[layer slot] rest IH]; intros l_no hidden_states tr.
  - exists []. simpl. rewrite app_nil_r.
    split; [reflexivity|]. split; [constructor|].
    intros out _ i layer slot H. discriminate.
  - simpl. unfold ebind, with_.
    destruct (layer_pair_calls l_no layer slot hidden_states
                (tr ++ [Enter (offload_context (base self))])%list)
      as (calls & Etr & Hcalls & Hran).
    destruct (layer_pair self attention_mask xattn_caches inputs l_no layer
                slot hidden_states
                (tr ++ [Enter (offload_context (base self))])%list)
      as [[h1 | e] tr1]; simpl in Etr; subst tr1.
    + match goal with
      | |- context [layer_loop _ _ _ _ _ (S l_no) rest ?hs ?tr0] =>
          destruct (IH (S l_no) hs tr0) as (later & Elater & Hturns & Hlater);
          destruct (layer_loop grad_enabled self attention_mask xattn_caches
                      inputs (S l_no) rest hs tr0) as [r tr2]
      end.
      simpl in Elater. subst tr2.
      exists (Enter (offload_context (base self))
                :: calls ++ Exit (offload_context (base self)) :: later)%list.
      simpl. split; [rewrite <- !app_assoc; reflexivity|].
      split; [constructor; assumption|].
      intros out Hout [|i] layer' slot' Hi; simpl in Hi.
      * inversion Hi; subst. rewrite Nat.add_0_r.
        apply (ran_layer_incl _ _ calls); [|apply (Hran h1); reflexivity].
        intros e He. right. apply in_or_app. left. exact He.
      * replace (l_no + S i)%nat with (S l_no + i)%nat by lia.
        apply (ran_layer_incl _ _ later);
          [|exact (Hlater out Hout i layer' slot' Hi)].
        intros e He. right. apply in_or_app. right. right. exact He.
    + exists (Enter (offload_context (base self))
                :: calls ++ Exit (offload_context (base self)) :: [])%list.
      simpl. split; [rewrite <- !app_assoc; reflexivity|].
      split; [constructor; [assumption | constructor]|].
      intros out Hout. discriminate.
Qed.

Lemma forward_ran_inside (hidden_states : pyval) (tr : trace) (c : context) :
  make_fp8_context model_parallel_is_initialized self = Ok c ->
  ran_inside c tr
    (forward grad_enabled model_parallel_is_initialized self attention_mask
       xattn_caches inputs hidden_states tr).
Proof.
  intros Hc. unfold ran_inside, forward, ebind at 1, lift. rewrite Hc.
  unfold py_and, context_truthy. unfold ebind, with_.
  destruct (eq_str (recompute_granularity (config (base self))) "full"
            && block_training (base self)).
  - exists []. simpl. rewrite <- app_assoc.
    split; [reflexivity|]. split; [constructor | discriminate].
  - match goal with
    | |- context [layer_loop _ _ _ _ _ 0 ?pairs ?hs ?tr0] =>
        destruct (layer_loop_turns pairs 0 hs tr0)
          as (inner & Einner & Hturns & Hran);
        destruct (layer_loop grad_enabled self attention_mask xattn_caches
                    inputs 0 pairs hs tr0) as [[hs' | e] tr1]
    end; simpl in Einner; subst tr1; exists inner; simpl.
    + split.
      { destruct (final_layernorm (base self)); simpl;
          rewrite <- !app_assoc; reflexivity. }
      split; [exact Hturns|].
      intros out _ i layer slot Hi. exact (Hran hs' eq_refl i layer slot Hi).
    + split; [rewrite <- !app_assoc; reflexivity|].
      split; [exact Hturns | discriminate].
Qed.

End Inside.

(** C4.  When [config.fp8] is truthy but neither "e4m3" nor "hybrid",
    [forward] raises the [ValueError] "E4M3 and HYBRID are the only
    supported FP8 formats." with nothing run: no layer is called and no
    context entered.  When it is "e4m3" or "hybrid", the pass runs inside
    an [fp8_autocast] of that format: the context is entered first and
    left last, between the two lie the turns of the layer loop and
    nothing else, and a pass that returns has run every layer there.
    When [config.fp8] is unset (or otherwise falsy) the same holds with a
    [nullcontext]. *)
Theorem forward_fp8_format_validation :
  forall (grad_enabled model_parallel_is_initialized : bool)
         (self : CrossAttentionTransformerBlock)
         (attention_mask xattn_caches : pyval) (inputs : LayerInputs)
         (hidden_states : pyval) (tr : trace),
    let cfg := config (base self) in
    let run :=
      forward grad_enabled model_parallel_is_initialized self attention_mask
        xattn_caches inputs hidden_states tr in
    (truthy (fp8 cfg) = true ->
     fp8 cfg <> CStr "e4m3" -> fp8 cfg <> CStr "hybrid" ->
     run = (Raise fp8_error, tr)) /\
    (forall fmt,
       (fp8 cfg = CStr "e4m3" /\ fmt = E4M3) \/
       (fp8 cfg = CStr "hybrid" /\ fmt = HYBRID) ->
       ran_inside self xattn_caches
         (fp8_autocast fmt (negb (fp8_wgrad cfg)) model_parallel_is_initialized)
         tr run) /\
    (truthy (fp8 cfg) = false ->
     ran_inside self xattn_caches nullcontext tr run).
Proof.
  intros grad_enabled mp self attention_mask xattn_caches inputs hidden_states
    tr cfg run.
  split; [|split].
  - intros Ht H1 H2. subst run. unfold forward, ebind, lift, make_fp8_context.
    fold cfg. rewrite Ht, (eq_str_false _ _ H1), (eq_str_false _ _ H2).
    reflexivity.
  - intros fmt H. apply forward_ran_inside. unfold make_fp8_context. fold cfg.
    destruct H as [[E ->] | [E ->]]; rewrite E; reflexivity.
  - intros Hf. apply forward_ran_inside. unfold make_fp8_context. fold cfg.
    rewrite Hf. reflexivity.
Qed.

(** **** Small blocks to run *)

(** A text layer that hands its input back as [(hidden_states, None)]. *)
Definition echo_layer : TextLayer :=
  {| text_forward := fun hidden_states _ _ => PTuple [hidden_states; PNone] |}.

Definition example_config (fp8_value : cfgval) (schedule : list nat)
  : TransformerConfig :=
  {| fusion_schedule := schedule;
     fp8 := fp8_value;
     fp8_wgrad := true;
     sequence_parallel := false;
     recompute_granularity := CNone;
     enable_cuda_graph := false;
     cpu_offloading := false |}.

Definition example_super (fp8_value : cfgval) (schedule : list nat)
  (n : nat) : TransformerBlock :=
  {| config := example_config fp8_value schedule;
     num_layers_per_pipeline_rank := n;
     layers := repeat echo_layer n;
     pre_process := true;
     input_tensor := PNone;
     block_training := false;
     offload_context := nullcontext;
     cuda_graphs := [];
     current_microbatch := 0;
     group_prefetch_offload_commit_async := None;
     final_layernorm := None |}.

(** One text layer, and an empty fusion schedule: its slot is a dummy. *)
Definition one_dummy_block (fp8_value : cfgval) : CrossAttentionTransformerBlock :=
  {| base := example_super fp8_value [] 1;
     xattn_layers := [];
     xattn_and_dummy_layers := [DummyCrossAttentionTransformerLayer] |}.

(** Hidden states [s, b, h] for three tokens, batch one, hidden size one. *)
Definition three_tokens : pyval :=
  PTensor (Stack [Stack [Stack [Scalar 1]];
                  Stack [Stack [Scalar 2]];
                  Stack [Stack [Scalar 3]]]).

(** One text layer with a cross-attention layer in its slot. *)
Definition one_xattn_block (fp8_value : cfgval) : CrossAttentionTransformerBlock :=
  {| base := example_super fp8_value [0%nat] 1;
     xattn_layers := [LayerFacts.passthrough_layer 0 0];
     xattn_and_dummy_layers := [XAttnLayer (LayerFacts.passthrough_layer 0 0)] |}.

Lemma forward_fp8_format_validation_witness :
  forward false false (one_dummy_block (CStr "e5m2")) PNone (PTuple [PNone])
    LayerFacts.no_inputs three_tokens []
  = (Raise fp8_error, []) /\
  exists inner,
    snd (forward false false (one_xattn_block (CStr "e4m3")) PNone
           (PTuple [PNone]) LayerFacts.no_inputs three_tokens [])
    = (Enter (fp8_autocast E4M3 false false)
         :: inner ++ [Exit (fp8_autocast E4M3 false false)])%list /\
    In (CallXAttnSlot 0 (XAttnLayer (LayerFacts.passthrough_layer 0 0)) PNone)
      inner /\
    In (CallTextLayer 0) inner.
Proof.
  split.
  - apply (forward_fp8_format_validation false false
             (one_dummy_block (CStr "e5m2")) PNone (PTuple [PNone])
             LayerFacts.no_inputs three_tokens []);
      [reflexivity | discriminate | discriminate].
  - destruct (forward_fp8_format_validation false false
                (one_xattn_block (CStr "e4m3")) PNone (PTuple [PNone])
                LayerFacts.no_inputs three_tokens []) as (_ & Hfp8 & _).
    destruct (Hfp8 E4M3 (or_introl (conj eq_refl eq_refl)))
      as (inner & Etr & _ & Hran).
    exists inner. split; [exact Etr|].
    destruct (Hran _ eq_refl 0%nat echo_layer
                (XAttnLayer (LayerFacts.passthrough_layer 0 0)) eq_refl)
      as [(cache & Hc & Hin) Htext].
    inversion Hc; subst cache. split; assumption.
Defined.

(** **** The fusion schedule *)

Section Placement.

Variable build_module : nat -> CrossAttentionTransformerLayer.

(** The slot [__init__] creates for index [i]. *)
Definition slot_for (schedule : list nat) (i : nat) : XLayer :=
  if in_schedule i schedule then XAttnLayer (build_module (i + 1))
  else DummyCrossAttentionTransformerLayer.

Lemma init_loop_slots schedule : forall n start acc,
  (fold_left (init_step build_module schedule) (seq start n) acc).2
  = (acc.2 ++ map (slot_for schedule) (seq start n))%list.
Proof.
  induction n as [|n IH]; intros start acc; simpl.
  - now rewrite app_nil_r.
  - rewrite IH. unfold init_step, slot_for.
    destruct (in_schedule start schedule); simpl;
      now rewrite <- app_assoc.
Qed.

Lemma in_schedule_spec i schedule : in_schedule i schedule = true <-> In i schedule.
Proof.
  unfold in_schedule. rewrite existsb_exists. split.
  - intros (j & Hj & E). apply Nat.eqb_eq in E. now subst j.
  - intros H. exists i. split; [exact H | apply Nat.eqb_refl].
Qed.

(** Placement: a block that [__init__] builds has one slot per text layer,
    and slot [i] is a cross-attention layer exactly when [i] is in the
    fusion schedule, a dummy otherwise. *)
Lemma init_places_by_schedule super blk :
  init build_module super = Ok blk ->
  base blk = super /\
  length (xattn_and_dummy_layers blk) = num_layers_per_pipeline_rank super /\
  length (xattn_and_dummy_layers blk) = length (layers super) /\
  forall i, (i < num_layers_per_pipeline_rank super)%nat ->
    (In i (fusion_schedule (config super)) ->
     xattn_and_dummy_layers blk !! i = Some (XAttnLayer (build_module (i + 1)))) /\
    (~ In i (fusion_schedule (config super)) ->
     xattn_and_dummy_layers blk !! i = Some DummyCrossAttentionTransformerLayer).
Proof.
  unfold init. rewrite init_loop_slots. simpl.
  destruct (Nat.eqb_spec
              (length (map (slot_for (fusion_schedule (config super)))
                         (seq 0 (num_layers_per_pipeline_rank super))))
              (length (layers super))) as [Hlen | Hlen]; [|discriminate].
  intros H. inversion H; subst blk; clear H. simpl.
  rewrite length_map, length_seq in Hlen.
  rewrite length_map, length_seq.
  split; [reflexivity|]. split; [reflexivity|]. split; [exact Hlen|].
  intros i Hi.
  assert (E : map (slot_for (fusion_schedule (config super)))
                (seq 0 (num_layers_per_pipeline_rank super)) !! i
              = Some (slot_for (fusion_schedule (config super)) i)).
  { change (map ?f ?l) with (f <$> l). rewrite list_lookup_fmap.
    rewrite lookup_seq_lt by exact Hi. reflexivity. }
  rewrite E. unfold slot_for. split; intros Hin.
  - apply in_schedule_spec in Hin. now rewrite Hin.
  - destruct (in_schedule i (fusion_schedule (config super))) eqn:Hs;
      [|reflexivity].
    apply in_schedule_spec in Hs. contradiction.
Qed.

End Placement.

(** **** One turn of the layer loop, outside CUDA-graph replay *)

Section LayerPair.

Variable self : CrossAttentionTransformerBlock.
Variables (attention_mask xattn_caches : pyval) (inputs : LayerInputs).

Hypothesis no_replay :
  Nat.eqb (length (cuda_graphs (base self))) 0
  || negb (block_training (base self)) = true.

(** The slot is called first, with [xattn_caches[l_no]], and the text
    layer second; nothing else is called. *)
Lemma layer_pair_order l_no layer slot hidden_states tr :
  let run := layer_pair self attention_mask xattn_caches inputs
               l_no layer slot hidden_states tr in
  (exists e, subscript xattn_caches l_no = Raise e /\ run = (Raise e, tr)) \/
  (exists cache,
     subscript xattn_caches l_no = Ok cache /\
     (snd run = (tr ++ [CallXAttnSlot l_no slot cache])%list /\
      (forall hs, fst run <> Ok hs) \/
      snd run = (tr ++ [CallXAttnSlot l_no slot cache; CallTextLayer l_no])%list)).
Proof.
  unfold layer_pair. rewrite no_replay.
  destruct (subscript xattn_caches l_no) as [cache | e] eqn:Hc.
  - right. exists cache. split; [reflexivity|].
    unfold ebind, lift, call_xattn_slot, call_text_layer, emit, eret, eraise.
    simpl.
    destruct slot as [l|]; simpl.
    + destruct (layer_forward l hidden_states inputs cache) as [[h1 c1] | e];
        simpl; [|left; split; [reflexivity | discriminate]].
      right. rewrite <- app_assoc. simpl.
      destruct (unpack2 (text_forward layer h1 attention_mask inputs))
        as [[h2 c2] | e]; simpl; [|reflexivity].
      destruct (is_none c2 || negb (enable_cuda_graph (config (base self)))
                || negb (block_training (base self))); reflexivity.
    + unfold dummy_call.
      destruct (unpack2 hidden_states) as [[h1 c1] | e]; simpl;
        [|left; split; [reflexivity | discriminate]].
      right. rewrite <- app_assoc. simpl.
      destruct (unpack2 (text_forward layer h1 attention_mask inputs))
        as [[h2 c2] | e]; simpl; [|reflexivity].
      destruct (is_none c2 || negb (enable_cuda_graph (config (base self)))
                || negb (block_training (base self))); reflexivity.
  - left. exists e. split; reflexivity.
Qed.

(** A cross-attention layer hands back a pair, which the loop takes apart,
    and the text layer runs on its first component. *)
Lemma layer_pair_xattn l_no layer l hidden_states cache h1 c1 h2 tr :
  subscript xattn_caches l_no = Ok cache ->
  layer_forward l hidden_states inputs cache = Ok (h1, c1) ->
  text_forward layer h1 attention_mask inputs = PTuple [h2; PNone] ->
  layer_pair self attention_mask xattn_caches inputs l_no layer
    (XAttnLayer l) hidden_states tr
  = (Ok h2,
     (tr ++ [CallXAttnSlot l_no (XAttnLayer l) cache; CallTextLayer l_no])%list).
Proof.
  intros Hc Hl Ht. unfold layer_pair. rewrite no_replay.
  unfold ebind, lift, call_xattn_slot, call_text_layer, emit, eret.
  rewrite Hc. simpl. rewrite Hl. simpl. rewrite Ht. simpl.
  now rewrite <- app_assoc.
Qed.

(** A dummy hands back the bare hidden states, so taking its result apart
    as a pair raises whenever the hidden states do not happen to have two
    slices along their first axis; the text layer is then not reached. *)
Lemma layer_pair_dummy_raises l_no layer hidden_states cache e tr :
  subscript xattn_caches l_no = Ok cache ->
  unpack2 hidden_states = Raise e ->
  layer_pair self attention_mask xattn_caches inputs l_no layer
    DummyCrossAttentionTransformerLayer hidden_states tr
  = (Raise e,
     (tr ++ [CallXAttnSlot l_no DummyCrossAttentionTransformerLayer cache])%list).
Proof.
  intros Hc Hu. unfold layer_pair. rewrite no_replay.
  unfold ebind, lift, call_xattn_slot, emit, eret, dummy_call.
  rewrite Hc. simpl. rewrite Hu. reflexivity.
Qed.

End LayerPair.

Lemma unpack2_tensor_raises rows :
  length rows <> 2%nat ->
  unpack2 (PTensor (Stack rows)) = Raise (ValueError "unpack (expected 2)").
Proof.
  intros H. destruct rows as [|a [|b [|c rest]]]; simpl in *;
    try reflexivity; congruence.
Qed.

(** C2, at a block with one text layer and an empty fusion schedule, run
    on hidden states of three tokens.  [__init__] places a dummy in slot 0,
    and [forward] calls it with [xattn_caches[0]]; the dummy returns the
    hidden states themselves, the loop's [hidden_states, context = ...]
    cannot take a three-slice tensor apart, and the pass ends in a
    [ValueError] without the text layer having run. *)
Theorem forward_dummy_slot_never_reaches_text_layer :
  init (fun _ => LayerFacts.passthrough_layer 0 0) (example_super CNone [] 1)
    = Ok (one_dummy_block CNone) /\
  dummy_call three_tokens = three_tokens /\
  forward false false (one_dummy_block CNone) PNone (PTuple [PNone])
    LayerFacts.no_inputs three_tokens []
  = (Raise (ValueError "unpack (expected 2)"),
     [Enter nullcontext;
      Enter nullcontext;
      CallXAttnSlot 0 DummyCrossAttentionTransformerLayer PNone;
      Exit nullcontext;
      Exit nullcontext]).
Proof.
  split; [reflexivity|]. split; reflexivity.
Qed.

(** A block of two text layers with the fusion schedule [1]: a dummy in
    slot 0 and the cross-attention layer numbered 2 in slot 1. *)
Lemma init_places_by_schedule_witness :
  exists blk,
    init (fun n => LayerFacts.passthrough_layer (INR n) 0)
      (example_super CNone [1%nat] 2) = Ok blk /\
    xattn_and_dummy_layers blk !! 0%nat
      = Some DummyCrossAttentionTransformerLayer /\
    xattn_and_dummy_layers blk !! 1%nat
      = Some (XAttnLayer (LayerFacts.passthrough_layer (INR (1 + 1)) 0)).
Proof.
  destruct (init (fun n => LayerFacts.passthrough_layer (INR n) 0)
              (example_super CNone [1%nat] 2)) as [blk | e] eqn:E;
    [|discriminate].
  exists blk. split; [reflexivity|].
  destruct (init_places_by_schedule _ _ _ E) as (_ & _ & _ & H).
  split.
  - apply (H 0%nat); simpl; [lia | intros [F | []]; discriminate].
  - apply (H 1%nat); simpl; [lia | left; reflexivity].
Defined.

Lemma layer_pair_order_witness :
  snd (layer_pair (one_dummy_block CNone) PNone (PTuple [PNone])
         LayerFacts.no_inputs 0 echo_layer DummyCrossAttentionTransformerLayer
         three_tokens [])
  = [CallXAttnSlot 0 DummyCrossAttentionTransformerLayer PNone].
Proof.
  destruct (layer_pair_order (one_dummy_block CNone) PNone (PTuple [PNone])
              LayerFacts.no_inputs eq_refl 0 echo_layer
              DummyCrossAttentionTransformerLayer three_tokens [])
    as [(e & F & _) | (cache & Hc & [[H _] | H])].
  - discriminate.
  - inversion Hc; subst cache. exact H.
  - reflexivity.
Defined.

End BlockFacts.

(** ** [nlp/models/information_retrieval/megatron_gpt_embedding_model.py] *)

Module EmbeddingModel.
Import Py Py.Notations Floats.

(** A row of embeddings that are only moved around: gathered, filtered
    and written out. *)
Definition Vec : Type := list R.

(** *** [loss_func] *)

(** A row of a tensor of floats. *)
Definition Row : Type := list fnum.

(** [l[start::step]] *)
Fixpoint strided (skip step : nat) {A : Type} (l : list A) : list A :=
  match l with
  | [] => []
  | x :: rest =>
      match skip with
      | O => x :: strided (step - 1) step rest
      | S k => strided k step rest
      end
  end.

(** An index into an axis of size [n]; negative indices count from the end. *)
Definition wrap_index (n : nat) (i : Z) : result nat :=
  if (0 <=? i)%Z && (i <? Z.of_nat n)%Z then Ok (Z.to_nat i)
  else if (- Z.of_nat n <=? i)%Z && (i <? 0)%Z then Ok (Z.to_nat (Z.of_nat n + i))
  else Raise IndexError.

(** Two index tensors of one axis brought to a common length. *)
Definition broadcast2 {A B : Type} (xs : list A) (ys : list B)
  : result (list (A * B)) :=
  if Nat.eqb (length xs) (length ys) then Ok (zip xs ys)
  else match xs, ys with
       | [x], _ => Ok (map (fun y => (x, y)) ys)
       | _, [y] => Ok (map (fun x => (x, y)) xs)
       | _, _ => Raise IndexError
       end.

Fixpoint sequence {A : Type} (l : list (result A)) : result (list A) :=
  match l with
  | [] => Ok []
  | c :: rest =>
      let* a := c in
      let* others := sequence rest in
      Ok (a :: others)
  end.

(** [output_tensor[loss_mask, idx, :]] for [output_tensor] of shape
    [s, b, h], given as its [s] slices of [b] vectors each. *)
Definition gather (output_tensor : list (list Row)) (loss_mask : list Z)
  (idx : list nat) : result (list Row) :=
  let* pairs := broadcast2 loss_mask idx in
  sequence
    (map (fun p : Z * nat =>
            let* i := wrap_index (length output_tensor) p.1 in
            let* slice := index output_tensor i in
            index slice p.2)
       pairs).

(** What [self.cfg] holds for the loss, after [__init__] (lines 38-39) and
    line 254 have applied their defaults. *)
Record LossConfig : Type := {
  temperature : R;
  num_soft_negatives : nat;
  context_parallel_size : Z
}.

Definition init (cfg_temperature : option R) (cfg_num_soft_negatives : option nat)
  (cfg_context_parallel_size : option Z) : LossConfig :=
  {| temperature := default 1%R cfg_temperature;
     num_soft_negatives := default 0%nat cfg_num_soft_negatives;
     context_parallel_size := default 1%Z cfg_context_parallel_size |}.

(** The entry of [torch.mm] for a row and a column. *)
Definition dot (x y : Row) : fnum :=
  fold_right fadd (Finite 0) (zip_with fmul x y).

Section LossFunc.

(** The torch kernels, one row at a time. *)
Variable cosine_similarity : Row -> Row -> fnum.
Variable norm : Row -> fnum.
(** [cross_entropy(cs, target)] with its default mean reduction. *)
Variable cross_entropy : list Row -> list nat -> fnum.
(** [torch.multinomial(w, k, replacement=False)] on the all-ones matrix of
    size [n] with a zero diagonal: [k] column indices per row. *)
Variable multinomial : nat -> nat -> list (list nat).
(** The losses the other ranks of the context-parallel group contribute
    to [all_reduce], whose default operation is the sum. *)
Variable peer_losses : list fnum.

Definition all_reduce (loss : fnum) : fnum := fold_left fadd peer_losses loss.

(** A row-wise binary kernel on two [n, h] tensors; a single row
    broadcasts. *)
Definition rowwise (f : Row -> Row -> fnum) (xs ys : list Row) : result Row :=
  if Nat.eqb (length xs) (length ys) then Ok (zip_with f xs ys)
  else match xs, ys with
       | [x], _ => Ok (map (f x) ys)
       | _, [y] => Ok (map (fun x => f x y) xs)
       | _, _ => Raise (ValueError "size mismatch")
       end.

(** [x / torch.norm(x, dim=-1, keepdim=True)]: a division of tensors,
    which gives nan or an infinity at a zero norm. *)
Definition normalize (xs : list Row) : list Row :=
  map (fun x => map (fun v => fdiv v (norm x)) x) xs.

(** [t * c] for a tensor [t] and a Python float [c]. *)
Definition mul_scalar (c : R) (t : Row) : Row := map (fun v => fmul v (Finite c)) t.

(** [torch.cat(columns, dim=1)] of column blocks with [n] rows each. *)
Fixpoint cat_columns (blocks : list (list Row)) : result (list Row) :=
  match blocks with
  | [] => Raise (ValueError "cat of nothing")
  | [block] => Ok block
  | block :: rest =>
      let* others := cat_columns rest in
      if Nat.eqb (length block) (length others)
      then Ok (zip_with (fun a b => (a ++ b)%list) block others)
      else Raise (ValueError "size mismatch")
  end.

Definition unsqueeze1 (xs : Row) : list Row := map (fun x => [x]) xs.

(** [loss_func], lines 224-257.  [1.0 / self.temperature] divides Python
    floats and raises at zero. *)
Definition loss_func (self : LossConfig) (loss_mask : list Z)
  (output_tensor : list (list Row)) : result (fnum * list Row * list Row) :=
  let idx := seq 0 (length (default [] (head output_tensor))) in
  let* eos_tensors := gather output_tensor loss_mask idx in
  let query_hs := strided 0 3 eos_tensors in
  let pos_doc_hs := strided 1 3 eos_tensors in
  let neg_doc_hs := strided 2 3 eos_tensors in
  let* neg_cs := rowwise cosine_similarity query_hs neg_doc_hs in
  let* inverse := py_div 1 (temperature self) in
  let neg_cs := mul_scalar inverse neg_cs in
  let query_hs := normalize query_hs in
  let pos_doc_hs := normalize pos_doc_hs in
  let* cs :=
    (if Nat.ltb 0 (num_soft_negatives self) then
       if Nat.ltb (num_soft_negatives self) (length query_hs) then
         let soft_neg_samples :=
           multinomial (length query_hs) (num_soft_negatives self) in
         let all_cs := map (fun q => map (dot q) pos_doc_hs) query_hs in
         let* inverse := py_div 1 (temperature self) in
         let all_cs := map (mul_scalar inverse) all_cs in
         let* pos_cs_diag :=
           sequence (imap (fun i row => index row i) all_cs) in
         let* soft_neg_cs :=
           sequence
             (map (fun samples =>
                     sequence
                       (map (fun j => let* row := index all_cs j in index row 0)
                          samples))
                soft_neg_samples) in
         cat_columns [unsqueeze1 pos_cs_diag; unsqueeze1 neg_cs; soft_neg_cs]
       else Raise (AssertionError "Batch size is not large enough for soft negatives")
     else
       let* pos_cs := rowwise cosine_similarity query_hs pos_doc_hs in
       let* inverse := py_div 1 (temperature self) in
       let pos_cs := mul_scalar inverse pos_cs in
       cat_columns [unsqueeze1 pos_cs; unsqueeze1 neg_cs]) in
  let loss := cross_entropy cs (repeat 0%nat (length cs)) in
  let cp_size := context_parallel_size self in
  let loss := if (1 <? cp_size)%Z then all_reduce loss else loss in
  Ok (loss, query_hs, pos_doc_hs).

End LossFunc.

End EmbeddingModel.

Module LossFacts.
Import Py Py.Notations Floats EmbeddingModel.

(** One training example: the hidden states selected for its query, its
    positive document and its negative document. *)
Record Example : Type := {
  query : Row;
  positive : Row;
  negative : Row
}.

(** The selected rows of a batch, example after example. *)
Definition interleave (examples : list Example) : list Row :=
  flat_map (fun e => [query e; positive e; negative e]) examples.

Lemma strided_interleave (examples : list Example) :
  strided 0 3 (interleave examples) = map query examples /\
  strided 1 3 (interleave examples) = map positive examples /\
  strided 2 3 (interleave examples) = map negative examples.
Proof.
  induction examples as [|e rest (IHq & IHp & IHn)]; simpl.
  - repeat split; reflexivity.
  - rewrite IHq, IHp, IHn. repeat split; reflexivity.
Qed.

Lemma zip_with_map {A B C D : Type} (f : B -> C -> D) (g : A -> B) (h : A -> C)
  (l : list A) :
  zip_with f (map g l) (map h l) = map (fun a => f (g a) (h a)) l.
Proof.
  induction l as [|a rest IH]; simpl; [reflexivity | now rewrite IH].
Qed.

Lemma rowwise_map {A : Type} (f : Row -> Row -> fnum) (g h : A -> Row) (l : list A) :
  rowwise f (map g l) (map h l) = Ok (map (fun a => f (g a) (h a)) l).
Proof.
  unfold rowwise. rewrite !length_map, Nat.eqb_refl.
  now rewrite zip_with_map.
Qed.

Lemma py_div_ok (a b : R) : b <> 0%R -> py_div a b = Ok (a / b)%R.
Proof.
  intros Hb. unfold py_div. destruct (Req_dec_T b 0); [contradiction | reflexivity].
Qed.

Lemma py_div_zero (a : R) : py_div a 0 = Raise ZeroDivisionError.
Proof.
  unfold py_div. destruct (Req_dec_T 0 0) as [_ | H]; [reflexivity | now elim H].
Qed.

Section Loss.

Variable cosine_similarity : Row -> Row -> fnum.
Variable norm : Row -> fnum.
Variable cross_entropy : list Row -> list nat -> fnum.
Variable multinomial : nat -> nat -> list (list nat).
Variable peer_losses : list fnum.

(** A row divided by its norm. *)
Definition unit (x : Row) : Row := map (fun v => fdiv v (norm x)) x.

(** The two-column similarity matrix [positive, negative], each entry
    multiplied by [1/temperature]. *)
Definition similarities (t : R) (examples : list Example) : list Row :=
  map (fun e =>
         [ fmul (cosine_similarity (unit (query e)) (unit (positive e)))
             (Finite (1 / t));
           fmul (cosine_similarity (query e) (negative e)) (Finite (1 / t)) ])
      examples.

Lemma loss_func_no_soft_negatives self loss_mask output_tensor examples :
  gather output_tensor loss_mask
    (seq 0 (length (default [] (head output_tensor)))) = Ok (interleave examples) ->
  num_soft_negatives self = 0%nat ->
  temperature self <> 0%R ->
  loss_func cosine_similarity norm cross_entropy multinomial peer_losses
    self loss_mask output_tensor
  = Ok (let ce := cross_entropy (similarities (temperature self) examples)
                    (repeat 0%nat (length examples)) in
        if (1 <? context_parallel_size self)%Z
        then fold_left fadd peer_losses ce else ce,
        map (fun e => unit (query e)) examples,
        map (fun e => unit (positive e)) examples).
Proof.
  intros Hg Hn Ht. unfold loss_func. rewrite Hg, Hn. simpl bind.
  destruct (strided_interleave examples) as (-> & -> & ->).
  rewrite rowwise_map. simpl bind.
  rewrite (py_div_ok 1 _ Ht). simpl bind.
  unfold normalize. rewrite !map_map.
  change (0 <? 0)%nat with false. cbv iota.
  rewrite (rowwise_map cosine_similarity
             (fun e => map (fun v => fdiv v (norm (query e))) (query e))
             (fun e => map (fun v => fdiv v (norm (positive e))) (positive e))).
  simpl bind. unfold mul_scalar, unsqueeze1. rewrite !map_map.
  unfold cat_columns. simpl bind.
  rewrite !length_map, Nat.eqb_refl.
  rewrite zip_with_map. simpl bind.
  unfold similarities, unit, all_reduce. simpl app.
  rewrite length_map. reflexivity.
Qed.

Lemma loss_func_zero_temperature self loss_mask output_tensor examples :
  gather output_tensor loss_mask
    (seq 0 (length (default [] (head output_tensor)))) = Ok (interleave examples) ->
  temperature self = 0%R ->
  loss_func cosine_similarity norm cross_entropy multinomial peer_losses
    self loss_mask output_tensor
  = Raise ZeroDivisionError.
Proof.
  intros Hg Ht. unfold loss_func. rewrite Hg. simpl bind.
  destruct (strided_interleave examples) as (-> & -> & ->).
  rewrite rowwise_map. simpl bind. rewrite Ht, py_div_zero. reflexivity.
Qed.

End Loss.

(** The kernels without the rounding of their floating-point versions,
    on rows of finite entries; a row with an infinity or a nan gives
    nan. *)
Fixpoint reals (x : Row) : option (list R) :=
  match x with
  | [] => Some []
  | Finite r :: rest =>
      match reals rest with
      | Some rs => Some (r :: rs)
      | None => None
      end
  | _ :: _ => None
  end.

Definition real_dot (x y : list R) : R :=
  fold_right Rplus 0%R (zip_with Rmult x y).

Definition ideal_norm (x : Row) : fnum :=
  match reals x with
  | Some r => Finite (sqrt (real_dot r r))
  | None => NaN
  end.

(** [x.y / max(|x| |y|, eps)] with the default [eps = 1e-8]. *)
Definition ideal_cosine_similarity (x y : Row) : fnum :=
  match reals x, reals y with
  | Some a, Some b =>
      Finite (real_dot a b
              / Rmax (sqrt (real_dot a a) * sqrt (real_dot b b)) (1 / 100000000))
  | _, _ => NaN
  end.

Fixpoint real_rows (cs : list Row) : option (list (list R)) :=
  match cs with
  | [] => Some []
  | row :: rest =>
      match reals row, real_rows rest with
      | Some r, Some rs => Some (r :: rs)
      | _, _ => None
      end
  end.

Definition ideal_cross_entropy (cs : list Row) (target : list nat) : fnum :=
  match real_rows cs with
  | Some rows =>
      Finite
        (fold_right Rplus 0
           (zip_with
              (fun row t => ln (fold_right Rplus 0 (map exp row)) - nth t row 0)
              rows target)
         / INR (length rows))%R
  | None => NaN
  end.

Definition one_example : Example :=
  {| query := [Finite 1; Finite 0];
     positive := [Finite 1; Finite 0];
     negative := [Finite 0; Finite 1] |}.

(** The hidden states [s = 1, b = 3, h = 2] of that example, and the
    position selected in each of the three sequences. *)
Definition one_example_output : list (list Row) :=
  [[ [Finite 1; Finite 0]; [Finite 1; Finite 0]; [Finite 0; Finite 1] ]].

Definition one_example_mask : list Z := [0%Z; 0%Z; 0%Z].

(** C5, amended.  For a batch whose selected hidden states are, example
    after example, those of the query, the positive and the negative
    document, and with [num_soft_negatives = 0], [loss_func] takes them at
    the stride-3 offsets 0, 1 and 2.  With a non-zero [temperature] it
    returns the cross-entropy against class 0 of the two-column matrix of
    the cosine similarities (normalized query, normalized positive) and
    (query, negative), each multiplied by [1/temperature]; when
    [context_parallel_size > 1] that loss is summed with those of the
    other ranks of the context-parallel group.  With it come the query
    and positive embeddings divided by their norms.  With a zero
    [temperature] it raises [ZeroDivisionError]. *)
Theorem loss_func_contrastive :
  forall (cosine_similarity : Row -> Row -> fnum) (norm : Row -> fnum)
         (cross_entropy : list Row -> list nat -> fnum)
         (multinomial : nat -> nat -> list (list nat)) (peer_losses : list fnum)
         (self : LossConfig) (loss_mask : list Z)
         (output_tensor : list (list Row)) (examples : list Example),
    gather output_tensor loss_mask
      (seq 0 (length (default [] (head output_tensor))))
      = Ok (interleave examples) ->
    num_soft_negatives self = 0%nat ->
    strided 0 3 (interleave examples) = map query examples /\
    strided 1 3 (interleave examples) = map positive examples /\
    strided 2 3 (interleave examples) = map negative examples /\
    (temperature self <> 0%R ->
     loss_func cosine_similarity norm cross_entropy multinomial peer_losses
       self loss_mask output_tensor
     = Ok (let ce :=
             cross_entropy
               (similarities cosine_similarity norm (temperature self) examples)
               (repeat 0%nat (length examples)) in
           if (1 <? context_parallel_size self)%Z
           then fold_left fadd peer_losses ce else ce,
           map (fun e => unit norm (query e)) examples,
           map (fun e => unit norm (positive e)) examples)) /\
    (temperature self = 0%R ->
     loss_func cosine_similarity norm cross_entropy multinomial peer_losses
       self loss_mask output_tensor
     = Raise ZeroDivisionError).
Proof.
  intros cosine_similarity norm cross_entropy multinomial peer_losses self
    loss_mask output_tensor examples Hg Hn.
  destruct (strided_interleave examples) as (Hq & Hp & Hd).
  repeat split; try assumption.
  - intros Ht. now apply loss_func_no_soft_negatives.
  - intros Ht. now apply (loss_func_zero_temperature _ _ _ _ _ _ _ _ examples).
Qed.

Lemma loss_func_contrastive_witness :
  loss_func ideal_cosine_similarity ideal_norm ideal_cross_entropy
    (fun _ _ => []) [] (init (Some 0.05%R) None None)
    one_example_mask one_example_output
  = Ok (ideal_cross_entropy
          (similarities ideal_cosine_similarity ideal_norm 0.05 [one_example])
          [0%nat],
        [unit ideal_norm [Finite 1; Finite 0]],
        [unit ideal_norm [Finite 1; Finite 0]]) /\
  loss_func ideal_cosine_similarity ideal_norm ideal_cross_entropy
    (fun _ _ => []) [] (init (Some 0%R) None None)
    one_example_mask one_example_output
  = Raise ZeroDivisionError.
Proof.
  split.
  - apply (loss_func_contrastive ideal_cosine_similarity ideal_norm
             ideal_cross_entropy (fun _ _ => []) []
             (init (Some 0.05%R) None None)
             one_example_mask one_example_output [one_example]);
      try reflexivity.
    simpl. lra.
  - apply (loss_func_contrastive ideal_cosine_similarity ideal_norm
             ideal_cross_entropy (fun _ _ => []) []
             (init (Some 0%R) None None)
             one_example_mask one_example_output [one_example]);
      reflexivity.
Defined.

Lemma unit_one_zero :
  unit ideal_norm [Finite 1; Finite 0] = [Finite (1 / 1); Finite (0 / 1)].
Proof.
  unfold unit, ideal_norm. cbn [reals map].
  replace (sqrt (real_dot [1%R; 0%R] [1%R; 0%R])) with 1%R.
  - rewrite !fdiv_finite by lra. reflexivity.
  - unfold real_dot. simpl.
    replace (1 * 1 + (0 * 0 + 0))%R with 1%R by ring.
    symmetry. apply sqrt_1.
Qed.

(** The statement without the context-parallel reduction fails:
    with [context_parallel_size = 2] and a peer rank contributing a loss of
    1, what [loss_func] returns is the cross-entropy plus 1. *)
Lemma loss_func_context_parallel_counterexample :
  let ce :=
    ideal_cross_entropy
      (similarities ideal_cosine_similarity ideal_norm 1 [one_example])
      [0%nat] in
  num_soft_negatives (init None None (Some 2%Z)) = 0%nat /\
  temperature (init None None (Some 2%Z)) <> 0%R /\
  loss_func ideal_cosine_similarity ideal_norm ideal_cross_entropy
    (fun _ _ => []) [Finite 1] (init None None (Some 2%Z))
    one_example_mask one_example_output
  = Ok (fadd ce (Finite 1),
        [unit ideal_norm [Finite 1; Finite 0]],
        [unit ideal_norm [Finite 1; Finite 0]]) /\
  fadd ce (Finite 1) <> ce.
Proof.
  intros ce. split; [reflexivity|].
  assert (Ht : temperature (init None None (Some 2%Z)) <> 0%R) by (simpl; lra).
  split; [exact Ht|]. split.
  - rewrite (loss_func_no_soft_negatives ideal_cosine_similarity ideal_norm
               ideal_cross_entropy (fun _ _ => []) [Finite 1]
               (init None None (Some 2%Z)) one_example_mask one_example_output
               [one_example]); [reflexivity | reflexivity | reflexivity | exact Ht].
  - subst ce. unfold similarities. simpl map.
    rewrite unit_one_zero. simpl.
    intros H. inversion H as [E]. lra.
Qed.

End LossFacts.

(** *** [_build_dataset] *)

Module BuildDataset.
Import Py Py.Notations.

(** A configuration entry that should be a [ListConfig]: it may be [None],
    a [ListConfig], or a value of another type. *)
Inductive conf (A : Type) : Type :=
| ConfNone
| ListConfig (items : list A)
| ConfOther (repr : string).

Arguments ConfNone {A}.
Arguments ListConfig {A} items.
Arguments ConfOther {A} repr.

Definition is_list_config {A : Type} (c : conf A) : bool :=
  match c with ListConfig _ => true | _ => false end.

(** [len(c)]: [None] has no length; another value is taken as a string. *)
Definition conf_len {A : Type} (c : conf A) : result nat :=
  match c with
  | ConfNone => Raise TypeError
  | ListConfig items => Ok (length items)
  | ConfOther repr => Ok (String.length repr)
  end.

Definition conf_items {A : Type} (c : conf A) : list A :=
  match c with ListConfig items => items | _ => [] end.

Record DataCfg : Type := {
  file_names : conf string;
  concat_sampling_probabilities : conf R;
  global_batch_size : Z;
  max_seq_length : Z;
  min_seq_length : Z;
  add_bos : option bool;
  add_eos : option bool;
  seed : option Z;
  index_mapping_dir : option string;
  memmap_workers : option Z;
  truncation_method : option string
}.

Definition set_max_seq_length (v : Z) (d : DataCfg) : DataCfg :=
  {| file_names := file_names d;
     concat_sampling_probabilities := concat_sampling_probabilities d;
     global_batch_size := global_batch_size d;
     max_seq_length := v;
     min_seq_length := min_seq_length d;
     add_bos := add_bos d;
     add_eos := add_eos d;
     seed := seed d;
     index_mapping_dir := index_mapping_dir d;
     memmap_workers := memmap_workers d;
     truncation_method := truncation_method d |}.

(** What [self] holds: the trainer's [max_steps] and the model config. *)
Record Model : Type := {
  trainer_max_steps : option Z;
  position_embedding_type : option string;
  max_position_embeddings : Z;
  tokenizer : string;
  virtual_tokens : Z;
  chat_prompt_tokens : option string
}.

(** The two dataset classes, by the arguments they are constructed with. *)
Record GPTEmbeddingDataset : Type := {
  file_path : string;
  ds_tokenizer : string;
  ds_max_seq_length : Z;
  ds_min_seq_length : Z;
  ds_add_bos : bool;
  ds_add_eos : bool;
  max_num_samples : option Z;
  ds_seed : Z;
  ds_index_mapping_dir : option string;
  ds_virtual_tokens : Z;
  ds_memmap_workers : option Z;
  ds_truncation_method : string;
  special_tokens : option string
}.

Record BlendableDataset : Type := {
  datasets : list GPTEmbeddingDataset;
  weights : list R;
  size : Z
}.

Inductive Built : Type :=
| Blended (dataset : BlendableDataset)
| PerFile (datasets : list GPTEmbeddingDataset).

(** An entry of the [data_prefix] list [weight1, file1, weight2, file2, ...]. *)
Inductive prefix_item : Type :=
| Weight (w : R)
| Prefix (p : string).

Fixpoint interleave_prefix (pairs : list (R * string)) : list prefix_item :=
  match pairs with
  | [] => []
  | (weight, prefix) :: rest => Weight weight :: Prefix prefix :: interleave_prefix rest
  end.

Definition sum_Z (l : list Z) : Z := fold_left Z.add l 0%Z.

(** [[x[0] for x in l]] *)
Fixpoint heads {A : Type} (l : list (list A)) : result (list A) :=
  match l with
  | [] => Ok []
  | x :: rest =>
      let* h := index x 0 in
      let* hs := heads rest in
      Ok (h :: hs)
  end.

Section Build.

(** [get_datasets_weights_and_num_samples] of
    [megatron/base_dataset_utils.py], which is not among the sources: from
    the prefix list and the requested sample counts to prefixes, weights
    and, per dataset, one sample count per request. *)
Variable get_datasets_weights_and_num_samples :
  list prefix_item -> list Z -> result (list string * list R * list (list Z)).

Variable self : Model.

Definition not_a_list_error : exn :=
  ValueError "SFT train/validation datasets must be provided as a list of individual JSONL files.".

Definition probabilities_error : exn :=
  ValueError "concat_sampling_probabilities must be a ListConfig with the same number of files in file_names.".

Definition size_error : exn :=
  ValueError "concat_sampling_probabilities must be of the same size as file_names.".

Definition max_steps_error : exn :=
  ValueError "Trainer max_steps must be set to a positive integer.".

(** Lines 52-86: the per-dataset sample counts, and for training the size
    of the blend. *)
Definition sample_counts (data_cfg : DataCfg) (is_train : bool)
  : result (list (list (option Z)) * Z) :=
  if is_train then
    if negb (is_list_config (concat_sampling_probabilities data_cfg))
    then Raise probabilities_error
    else
      let* n_probabilities := conf_len (concat_sampling_probabilities data_cfg) in
      let* n_files := conf_len (file_names data_cfg) in
      if negb (Nat.eqb n_probabilities n_files) then Raise size_error
      else
        let data_prefix :=
          interleave_prefix
            (zip (conf_items (concat_sampling_probabilities data_cfg))
                 (conf_items (file_names data_cfg))) in
        match trainer_max_steps self with
        | None => Raise max_steps_error
        | Some max_steps =>
            if (max_steps <=? 0)%Z then Raise max_steps_error
            else
              let num_train_samples :=
                [(max_steps * global_batch_size data_cfg)%Z] in
              let* out :=
                get_datasets_weights_and_num_samples data_prefix
                  num_train_samples in
              let num_train_samples_per_dataset := out.2 in
              let* firsts := heads num_train_samples_per_dataset in
              Ok (map (map Some) num_train_samples_per_dataset, sum_Z firsts)
        end
  else
    let* n_files := conf_len (file_names data_cfg) in
    Ok (repeat [None] n_files, 0%Z).

(** Lines 88-96: the sequence length is capped for absolute position
    embeddings. *)
Definition cap_max_seq_length (data_cfg : DataCfg) : DataCfg :=
  let absolute :=
    match position_embedding_type self with
    | None => true
    | Some t => String.eqb t "learned_absolute"
    end in
  if absolute && (max_position_embeddings self <? max_seq_length data_cfg)%Z
  then set_max_seq_length (max_position_embeddings self) data_cfg
  else data_cfg.

(** Lines 98-120: one dataset per file, as far as both lists reach. *)
Fixpoint per_file_datasets (data_cfg : DataCfg)
  (pairs : list (string * list (option Z))) : result (list GPTEmbeddingDataset) :=
  match pairs with
  | [] => Ok []
  | (path, num_samples) :: rest =>
      let* first := index num_samples 0 in
      let dataset :=
        {| file_path := path;
           ds_tokenizer := tokenizer self;
           ds_max_seq_length := max_seq_length data_cfg;
           ds_min_seq_length := min_seq_length data_cfg;
           ds_add_bos := default false (add_bos data_cfg);
           ds_add_eos := default true (add_eos data_cfg);
           max_num_samples := first;
           ds_seed := default 1234%Z (seed data_cfg);
           ds_index_mapping_dir := index_mapping_dir data_cfg;
           ds_virtual_tokens := virtual_tokens self;
           ds_memmap_workers := memmap_workers data_cfg;
           ds_truncation_method := default "right" (truncation_method data_cfg);
           special_tokens := chat_prompt_tokens self |} in
      let* others := per_file_datasets data_cfg rest in
      Ok (dataset :: others)
  end.

(** [MegatronGPTEmbeddingModel._build_dataset], lines 45-127.  The
    configuration is returned too, since line 96 may have changed it. *)
Definition _build_dataset (data_cfg : DataCfg) (is_train : bool)
  : result (Built * DataCfg) :=
  if negb (is_list_config (file_names data_cfg)) then Raise not_a_list_error
  else
    let* counts := sample_counts data_cfg is_train in
    let num_train_samples_per_dataset := counts.1 in
    let num_train_samples_after_blend := counts.2 in
    let data_cfg := cap_max_seq_length data_cfg in
    let* datasets :=
      per_file_datasets data_cfg
        (zip (conf_items (file_names data_cfg)) num_train_samples_per_dataset) in
    if is_train then
      Ok (Blended
            {| datasets := datasets;
               weights := conf_items (concat_sampling_probabilities data_cfg);
               size := num_train_samples_after_blend |},
          data_cfg)
    else Ok (PerFile datasets, data_cfg).

End Build.

End BuildDataset.

Module BuildDatasetFacts.
Import Py Py.Notations BuildDataset.

Section Facts.

Variable helper :
  list prefix_item -> list Z -> result (list string * list R * list (list Z)).
Variable self : Model.

(** A dataset was built for file [p.1] with the first count of [p.2]. *)
Definition built_for (d : GPTEmbeddingDataset) (p : string * list (option Z)) : Prop :=
  file_path d = p.1 /\ head p.2 = Some (max_num_samples d).

Lemma per_file_datasets_ok data_cfg pairs :
  Forall (fun p : string * list (option Z) => p.2 <> []) pairs ->
  exists ds,
    per_file_datasets self data_cfg pairs = Ok ds /\
    Forall2 built_for ds pairs.
Proof.
  induction 1 as [|[path counts] rest Hne _ (ds & E & IH)]; simpl.
  - exists []. split; [reflexivity | constructor].
  - destruct counts as [|first more]; [contradiction|]. simpl.
    rewrite E. simpl. eexists. split; [reflexivity|].
    constructor; [split; reflexivity | exact IH].
Qed.

Lemma heads_ok {A : Type} (d : A) (l : list (list A)) :
  Forall (fun x => x <> []) l -> heads l = Ok (map (hd d) l).
Proof.
  induction 1 as [|x rest Hne _ IH]; simpl; [reflexivity|].
  destruct x as [|h more]; [contradiction|]. simpl. now rewrite IH.
Qed.

Lemma Forall_zip_snd {A B : Type} (P : B -> Prop) (xs : list A) (ys : list B) :
  Forall P ys -> Forall (fun p : A * B => P p.2) (zip xs ys).
Proof.
  intros H. revert xs. induction H as [|y ys Hy _ IH]; intros [|x xs]; simpl;
    constructor; auto.
Qed.

Lemma Forall_repeat {A : Type} (P : A -> Prop) (a : A) (n : nat) :
  P a -> Forall P (repeat a n).
Proof. intros H. induction n; simpl; constructor; auto. Qed.

(** The four ways in which the configuration of a training set is
    rejected. *)
Definition rejected_for_training (data_cfg : DataCfg) : Prop :=
  is_list_config (concat_sampling_probabilities data_cfg) = false \/
  (exists ps fs,
     concat_sampling_probabilities data_cfg = ListConfig ps /\
     file_names data_cfg = ListConfig fs /\
     length ps <> length fs) \/
  trainer_max_steps self = None \/
  (exists m, trainer_max_steps self = Some m /\ (m <= 0)%Z).

Lemma build_dataset_rejects data_cfg :
  rejected_for_training data_cfg ->
  exists msg, _build_dataset helper self data_cfg true = Raise (ValueError msg).
Proof.
  unfold rejected_for_training, _build_dataset, sample_counts.
  destruct (file_names data_cfg) as [|fs|other] eqn:Hf; simpl;
    try (intros _; eexists; reflexivity).
  destruct (concat_sampling_probabilities data_cfg) as [|ps|other] eqn:Hp; simpl;
    try (intros _; eexists; reflexivity).
  destruct (Nat.eqb_spec (length ps) (length fs)) as [Hlen | Hlen]; simpl;
    [|intros _; eexists; reflexivity].
  destruct (trainer_max_steps self) as [m|] eqn:Hm;
    [|intros _; eexists; reflexivity].
  destruct (Z.leb_spec m 0) as [Hle | Hgt]; [intros _; eexists; reflexivity|].
  intros [H | [(ps' & fs' & E1 & E2 & Hne) | [H | (m' & E & Hle)]]].
  - discriminate.
  - inversion E1; inversion E2; subst. contradiction.
  - discriminate.
  - inversion E; subst. lia.
Qed.

Lemma build_dataset_train data_cfg fs ps m prefixes ws per :
  file_names data_cfg = ListConfig fs ->
  concat_sampling_probabilities data_cfg = ListConfig ps ->
  length ps = length fs ->
  trainer_max_steps self = Some m -> (0 < m)%Z ->
  helper (interleave_prefix (zip ps fs)) [(m * global_batch_size data_cfg)%Z]
    = Ok (prefixes, ws, per) ->
  Forall (fun x => x <> []) per ->
  exists ds,
    _build_dataset helper self data_cfg true
      = Ok (Blended {| datasets := ds;
                       weights := ps;
                       size := sum_Z (map (hd 0%Z) per) |},
            cap_max_seq_length self data_cfg) /\
    Forall2 built_for ds (zip fs (map (map Some) per)).
Proof.
  intros Hf Hp Hlen Hm Hpos Hh Hne.
  unfold _build_dataset, sample_counts. rewrite Hf, Hp. simpl.
  rewrite Hlen, Nat.eqb_refl. simpl. rewrite Hm.
  destruct (Z.leb_spec m 0) as [Hle | _]; [lia|].
  rewrite Hh. simpl. rewrite (heads_ok 0%Z per Hne). simpl.
  assert (Hc : file_names (cap_max_seq_length self data_cfg) = ListConfig fs /\
               concat_sampling_probabilities (cap_max_seq_length self data_cfg)
                 = ListConfig ps).
  { unfold cap_max_seq_length.
    destruct (_ && _); simpl; split; assumption. }
  destruct Hc as [Hf' Hp']. rewrite Hf', Hp'. simpl.
  destruct (per_file_datasets_ok (cap_max_seq_length self data_cfg)
              (zip fs (map (map Some) per))) as (ds & E & Hds).
  { apply (Forall_zip_snd (fun x : list (option Z) => x <> [])).
    apply List.Forall_map.
    eapply Forall_impl; [exact Hne|].
    intros [|x xs] Hx; [contradiction | discriminate]. }
  rewrite E. simpl. exists ds. split; [reflexivity | exact Hds].
Qed.

Lemma build_dataset_eval data_cfg fs :
  file_names data_cfg = ListConfig fs ->
  exists ds,
    _build_dataset helper self data_cfg false
      = Ok (PerFile ds, cap_max_seq_length self data_cfg) /\
    map file_path ds = fs /\
    Forall (fun d => max_num_samples d = None) ds.
Proof.
  intros Hf. unfold _build_dataset, sample_counts. rewrite Hf. simpl.
  assert (Hf' : file_names (cap_max_seq_length self data_cfg) = ListConfig fs).
  { unfold cap_max_seq_length. destruct (_ && _); simpl; assumption. }
  rewrite Hf'. simpl.
  destruct (per_file_datasets_ok (cap_max_seq_length self data_cfg)
              (zip fs (repeat [None] (length fs)))) as (ds & E & Hds).
  { apply (Forall_zip_snd (fun x : list (option Z) => x <> [])).
    apply Forall_repeat. discriminate. }
  rewrite E. simpl. exists ds. split; [reflexivity|].
  clear E Hf Hf'. revert ds Hds.
  induction fs as [|f fs IH]; intros ds Hds; simpl in Hds.
  - inversion Hds. split; [reflexivity | constructor].
  - inversion Hds as [|d p ds' ps' [Hpath Hnum] Hrest]; subst.
    destruct (IH ds' Hrest) as [Hmap Hall]. simpl in *.
    split; [now rewrite Hpath, Hmap|].
    constructor; [congruence | exact Hall].
Qed.

End Facts.

(** C6, amended.  [_build_dataset] raises [ValueError] whenever
    [file_names] is not a [ListConfig]; for training it also raises
    [ValueError] whenever [concat_sampling_probabilities] is [None] or not
    a [ListConfig], whenever its length differs from that of [file_names],
    and whenever [trainer.max_steps] is [None] or not positive.  When all
    checks pass for training, [trainer.max_steps * global_batch_size] is
    the one sample count handed to [get_datasets_weights_and_num_samples],
    every per-file dataset is limited to the first count that call
    returned for it, and the result is one [BlendableDataset] over those
    datasets, weighted by the probabilities, whose size is the sum of
    those first counts, not the count that was asked for.  For evaluation
    the result is the list of per-file datasets, one per file name and
    without a sample limit. *)
Theorem build_dataset_error_handling :
  forall (helper : list prefix_item -> list Z ->
                   result (list string * list R * list (list Z)))
         (self : Model) (data_cfg : DataCfg),
    (forall is_train,
       is_list_config (file_names data_cfg) = false ->
       _build_dataset helper self data_cfg is_train = Raise not_a_list_error) /\
    (rejected_for_training self data_cfg ->
     exists msg,
       _build_dataset helper self data_cfg true = Raise (ValueError msg)) /\
    (forall fs ps m prefixes ws per,
       file_names data_cfg = ListConfig fs ->
       concat_sampling_probabilities data_cfg = ListConfig ps ->
       length ps = length fs ->
       trainer_max_steps self = Some m -> (0 < m)%Z ->
       helper (interleave_prefix (zip ps fs))
         [(m * global_batch_size data_cfg)%Z] = Ok (prefixes, ws, per) ->
       Forall (fun x => x <> []) per ->
       exists ds,
         _build_dataset helper self data_cfg true
           = Ok (Blended {| datasets := ds;
                            weights := ps;
                            size := sum_Z (map (hd 0%Z) per) |},
                 cap_max_seq_length self data_cfg) /\
         Forall2 built_for ds (zip fs (map (map Some) per))) /\
    (forall fs,
       file_names data_cfg = ListConfig fs ->
       exists ds,
         _build_dataset helper self data_cfg false
           = Ok (PerFile ds, cap_max_seq_length self data_cfg) /\
         map file_path ds = fs /\
         Forall (fun d => max_num_samples d = None) ds).
Proof.
  intros helper self data_cfg. split; [|split; [|split]].
  - intros is_train H. unfold _build_dataset. now rewrite H.
  - apply build_dataset_rejects.
  - intros fs ps m prefixes ws per. apply build_dataset_train.
  - intros fs. apply build_dataset_eval.
Qed.

(** A stand-in for the helper: every dataset is asked for every requested
    count. *)
Definition every_count (data_prefix : list prefix_item) (num_samples : list Z)
  : result (list string * list R * list (list Z)) :=
  let files :=
    flat_map (fun i => match i with Prefix p => [p] | Weight _ => [] end)
      data_prefix in
  let ws :=
    flat_map (fun i => match i with Weight w => [w] | Prefix _ => [] end)
      data_prefix in
  Ok (files, ws, map (fun _ => num_samples) files).

(** A stand-in for the helper that asks every dataset for an equal share
    of each requested count with a margin of 0.5%, rounded up. *)
Definition padded_even_counts (data_prefix : list prefix_item)
  (num_samples : list Z) : result (list string * list R * list (list Z)) :=
  let files :=
    flat_map (fun i => match i with Prefix p => [p] | Weight _ => [] end)
      data_prefix in
  let ws :=
    flat_map (fun i => match i with Weight w => [w] | Prefix _ => [] end)
      data_prefix in
  let share := (1000 * Z.of_nat (length files))%Z in
  Ok (files, ws,
      map (fun _ =>
             map (fun c => ((c * 1005 + share - 1) / share)%Z) num_samples)
        files).

Definition example_model (max_steps : option Z) : Model :=
  {| trainer_max_steps := max_steps;
     position_embedding_type := Some "rope";
     max_position_embeddings := 4096;
     tokenizer := "tokenizer";
     virtual_tokens := 0;
     chat_prompt_tokens := None |}.

Definition example_data_cfg (probabilities : conf R) : DataCfg :=
  {| file_names := ListConfig ["a.jsonl"; "b.jsonl"];
     concat_sampling_probabilities := probabilities;
     global_batch_size := 8;
     max_seq_length := 512;
     min_seq_length := 1;
     add_bos := None;
     add_eos := None;
     seed := None;
     index_mapping_dir := None;
     memmap_workers := None;
     truncation_method := None |}.

Lemma build_dataset_error_handling_witness :
  (exists msg,
     _build_dataset every_count (example_model (Some 100%Z))
       (example_data_cfg (ListConfig [1%R])) true = Raise (ValueError msg)) /\
  (exists ds,
     _build_dataset every_count (example_model (Some 100%Z))
       (example_data_cfg (ListConfig [0.5%R; 0.5%R])) true
     = Ok (Blended {| datasets := ds;
                      weights := [0.5%R; 0.5%R];
                      size := 1600 |},
           example_data_cfg (ListConfig [0.5%R; 0.5%R])) /\
     length ds = 2%nat).
Proof.
  split.
  - apply (build_dataset_error_handling every_count (example_model (Some 100%Z))
             (example_data_cfg (ListConfig [1%R]))).
    right; left. exists [1%R], ["a.jsonl"; "b.jsonl"].
    repeat split; simpl; try reflexivity. lia.
  - destruct (build_dataset_error_handling every_count
                (example_model (Some 100%Z))
                (example_data_cfg (ListConfig [0.5%R; 0.5%R])))
      as (_ & _ & Htrain & _).
    destruct (Htrain ["a.jsonl"; "b.jsonl"] [0.5%R; 0.5%R] 100%Z
                ["a.jsonl"; "b.jsonl"] [0.5%R; 0.5%R] [[800%Z]; [800%Z]])
      as (ds & E & Hds); try reflexivity.
    + repeat constructor; discriminate.
    + exists ds. split; [exact E|].
      apply Forall2_length in Hds. exact Hds.
Defined.

(** The size of the blend is not the count that was asked for: with
    [max_steps = 100], a global batch size of 8 and a helper that adds a
    margin to each share, 800 samples are asked for and the
    [BlendableDataset] has size 804. *)
Lemma build_dataset_blend_size_counterexample :
  trainer_max_steps (example_model (Some 100%Z)) = Some 100%Z /\
  global_batch_size (example_data_cfg (ListConfig [0.5%R; 0.5%R])) = 8%Z /\
  (exists ds,
     _build_dataset padded_even_counts (example_model (Some 100%Z))
       (example_data_cfg (ListConfig [0.5%R; 0.5%R])) true
     = Ok (Blended {| datasets := ds;
                      weights := [0.5%R; 0.5%R];
                      size := 804 |},
           example_data_cfg (ListConfig [0.5%R; 0.5%R]))) /\
  (804 <> 100 * 8)%Z.
Proof.
  split; [reflexivity|]. split; [reflexivity|]. split; [|lia].
  destruct (build_dataset_train padded_even_counts (example_model (Some 100%Z))
              (example_data_cfg (ListConfig [0.5%R; 0.5%R]))
              ["a.jsonl"; "b.jsonl"] [0.5%R; 0.5%R] 100%Z
              ["a.jsonl"; "b.jsonl"] [0.5%R; 0.5%R] [[402%Z]; [402%Z]])
    as (ds & E & _); try reflexivity.
  - repeat constructor; discriminate.
  - exists ds. exact E.
Qed.

End BuildDatasetFacts.

(** ** Further properties of the frequency rescaling *)

Module RopeBounds.
Import Py Py.Notations Floats Rope RopeFacts.

(** The function fails exactly on a zero [low_freq_factor] or
    [high_freq_factor], with [ZeroDivisionError]; otherwise it returns one
    entry per input entry. *)
Theorem apply_rope_scaling_zero_division :
  forall (inv_freq : list R) (factor low high old : R),
    ((low = 0%R \/ high = 0%R) ->
     apply_rope_scaling inv_freq factor low high old = Raise ZeroDivisionError) /\
    (low <> 0%R -> high <> 0%R ->
     exists out,
       apply_rope_scaling inv_freq factor low high old = Ok out /\
       length out = length inv_freq).
Proof.
  intros inv_freq factor low high old. split.
  - intros H. unfold apply_rope_scaling, py_div.
    destruct (Req_dec_T low 0) as [E|Hl]; [reflexivity|].
    destruct (Req_dec_T high 0) as [E|Hh]; [reflexivity|].
    destruct H; contradiction.
  - intros Hl Hh. rewrite apply_rope_scaling_ok by assumption.
    eexists. split; [reflexivity|]. apply length_map.
Qed.

Lemma apply_rope_scaling_zero_division_witness :
  apply_rope_scaling [1%R; 2%R] 8 0 4 8192 = Raise ZeroDivisionError /\
  exists out, apply_rope_scaling [1%R; 2%R] 8 1 4 8192 = Ok out /\
              length out = 2%nat.
Proof.
  split.
  - apply apply_rope_scaling_zero_division. left. reflexivity.
  - apply (apply_rope_scaling_zero_division [1%R; 2%R] 8 1 4 8192); lra.
Defined.

Lemma rescale_real_factor_one (low high old lw hw f : R) :
  rescale_real 1 low high old lw hw f = f.
Proof.
  unfold rescale_real.
  destruct (Rltb lw (2 * PI / f)); destruct (Rltb (2 * PI / f) hw); simpl;
    unfold Rdiv; rewrite ?Rinv_1; ring.
Qed.

(** A zero entry has an infinite wavelength: it is divided by [factor]. *)
Lemma rescale_entry_zero (factor low high old lw hw : R) :
  rescale_entry factor low high old lw hw 0 = fdiv (Finite 0) (Finite factor).
Proof.
  pose proof PI_RGT_0 as Hpi.
  unfold rescale_entry, fgt. rewrite fdiv_zero.
  destruct (Req_dec_T (2 * PI) 0) as [E | _]; [lra|].
  rewrite (Rltb_true 0 (2 * PI)) by lra. reflexivity.
Qed.

(** A scaling factor of one changes nothing when the two band factors
    differ.  When they are equal the interpolation divides by zero: an
    entry whose wavelength is exactly
    [old_context_len/low_freq_factor] becomes nan. *)
Theorem apply_rope_scaling_factor_one :
  forall (inv_freq : list R) (low high old : R),
    low <> 0%R -> high <> 0%R ->
    (low <> high ->
     apply_rope_scaling inv_freq 1 low high old = Ok (map Finite inv_freq)) /\
    (forall f, low = high -> (2 * PI / f)%R = (old / low)%R -> f <> 0%R ->
     apply_rope_scaling [f] 1 low high old = Ok [NaN]).
Proof.
  intros inv_freq low high old Hl Hh. split.
  - intros Hband. rewrite apply_rope_scaling_ok by assumption. f_equal.
    induction inv_freq as [|f rest IH]; simpl; [reflexivity|].
    rewrite IH. f_equal.
    destruct (Req_dec_T f 0) as [-> | Hf].
    + rewrite rescale_entry_zero, fdiv_finite by lra. f_equal. field.
    + rewrite rescale_entry_finite by (try assumption; lra || congruence).
      f_equal. apply rescale_real_factor_one.
  - intros f <- Hw Hf. rewrite apply_rope_scaling_ok by assumption. simpl.
    do 2 f_equal. unfold rescale_entry, fgt.
    rewrite (fdiv_finite _ f Hf), Hw. simpl flt.
    rewrite (Rltb_false (old / low) (old / low)) by lra.
    cbn [negb andb].
    assert (Hne : (old / low)%R <> 0%R)
      by (rewrite <- Hw; apply wavelength_nonzero; exact Hf).
    rewrite (fdiv_finite old _ Hne). cbn [fsub fadd fneg].
    replace (old / (old / low) + - low)%R with 0%R.
    2:{ assert (old <> 0%R) by (intros ->; apply Hne; unfold Rdiv; ring).
        field. split; assumption. }
    replace (low - low)%R with 0%R by ring.
    rewrite fdiv_zero.
    destruct (Req_dec_T 0 0) as [_ | H]; [reflexivity | now elim H].
Qed.

Lemma apply_rope_scaling_factor_one_witness :
  apply_rope_scaling [1%R; 0.001%R] 1 1 4 8192
  = Ok [Finite 1; Finite 0.001] /\
  apply_rope_scaling [PI] 1 1 1 2 = Ok [NaN].
Proof.
  pose proof PI_RGT_0.
  destruct (apply_rope_scaling_factor_one [1%R; 0.001%R] 1 4 8192)
    as [Hsame _]; [lra | lra |].
  destruct (apply_rope_scaling_factor_one [] 1 1 2) as [_ Hnan]; [lra | lra |].
  split.
  - apply Hsame. lra.
  - apply Hnan; [reflexivity | field; lra | lra].
Defined.

Lemma div_le_iff (a b c : R) :
  (0 < c)%R -> ((a / c <= b)%R <-> (a <= b * c)%R).
Proof.
  intros Hc. split; intros H.
  - replace a with (a / c * c)%R by (field; lra).
    apply Rmult_le_compat_r; lra.
  - apply Rmult_le_reg_r with c; [exact Hc|].
    replace (a / c * c)%R with a by (field; lra). exact H.
Qed.

Lemma le_div_iff (a b c : R) :
  (0 < c)%R -> ((a <= b / c)%R <-> (a * c <= b)%R).
Proof.
  intros Hc. split; intros H.
  - replace b with (b / c * c)%R by (field; lra).
    apply Rmult_le_compat_r; lra.
  - apply Rmult_le_reg_r with c; [exact Hc|].
    replace (b / c * c)%R with b by (field; lra). exact H.
Qed.

Lemma wavelength_pos (f : R) : (0 < f)%R -> (0 < 2 * PI / f)%R.
Proof.
  intros Hf. apply Rdiv_lt_0_compat; [|exact Hf].
  pose proof PI_RGT_0. lra.
Qed.

(** With [factor >= 1] and [0 < low_freq_factor < high_freq_factor], a
    positive frequency stays a finite number, is never raised and never
    lowered below [f/factor]. *)
Theorem apply_rope_scaling_between :
  forall (inv_freq : list R) (factor low high old : R),
    (1 <= factor)%R -> (0 < low < high)%R -> (0 < old)%R ->
    exists out,
      apply_rope_scaling inv_freq factor low high old = Ok out /\
      Forall2 (fun f y =>
                 (0 < f)%R ->
                 exists r, y = Finite r /\ (f / factor <= r <= f)%R)
        inv_freq out.
Proof.
  intros inv_freq factor low high old Hfac [Hlow Hhigh] Hold.
  rewrite apply_rope_scaling_ok by lra.
  eexists. split; [reflexivity|].
  induction inv_freq as [|f rest IH]; simpl; constructor; [|exact IH].
  intros Hf.
  rewrite rescale_entry_finite by lra.
  eexists. split; [reflexivity|].
  assert (Ha : (0 < f / factor <= f)%R).
  { split.
    - apply Rdiv_lt_0_compat; lra.
    - apply div_le_iff; [lra|]. nra. }
  pose proof (wavelength_pos f Hf) as Hw.
  unfold rescale_real, Rltb.
  set (w := (2 * PI / f)%R) in *.
  destruct (Rlt_dec (old / low) w) as [Hgt | Hngt];
    destruct (Rlt_dec w (old / high)) as [Hlt | Hnlt]; simpl; try lra.
  set (s := ((old / w - low) / (high - low))%R).
  assert (Hs : (0 <= s <= 1)%R).
  { assert (Hwl : (w <= old / low)%R) by lra.
    assert (Hwh : (old / high <= w)%R) by lra.
    assert (Hl0 : (0 < low)%R) by lra.
    assert (Hh0 : (0 < high)%R) by lra.
    pose proof (proj1 (le_div_iff w old low Hl0) Hwl) as Hwl'.
    pose proof (proj1 (div_le_iff old w high Hh0) Hwh) as Hwh'.
    assert (H1 : (low <= old / w)%R) by (apply le_div_iff; lra).
    assert (H2 : (old / w <= high)%R) by (apply div_le_iff; lra).
    unfold s. split.
    - apply le_div_iff; lra.
    - apply div_le_iff; lra. }
  replace ((1 - s) * f / factor)%R with ((1 - s) * (f / factor))%R
    by (unfold Rdiv; ring).
  nra.
Qed.

Lemma apply_rope_scaling_between_witness :
  exists r,
    apply_rope_scaling [0.001%R] 8 1 4 8192 = Ok [Finite r] /\
    (0.001 / 8 <= r <= 0.001)%R.
Proof.
  destruct (apply_rope_scaling_between [0.001%R] 8 1 4 8192)
    as (out & E & H); try lra.
  inversion H as [|f y rest out' Hy Hrest]; subst.
  inversion Hrest; subst.
  destruct Hy as (r & -> & Hr); [lra|].
  exists r. split; [exact E | exact Hr].
Defined.

(** The interpolation meets the two outer bands at their edges: at a
    wavelength of exactly [old_context_len/low_freq_factor] it gives
    [f/factor] (the floating-point quotient, an infinity when [factor] is
    zero), and at exactly [old_context_len/high_freq_factor] it gives [f]
    for a non-zero [factor], and nan (from [0/0]) for a zero one. *)
Theorem apply_rope_scaling_band_edges :
  forall (factor low high old f : R),
    (0 < low < high)%R -> (0 < old)%R -> (0 < f)%R ->
    ((2 * PI / f)%R = (old / low)%R ->
     apply_rope_scaling [f] factor low high old
     = Ok [fdiv (Finite f) (Finite factor)]) /\
    ((2 * PI / f)%R = (old / high)%R ->
     apply_rope_scaling [f] factor low high old
     = Ok [if Req_dec_T factor 0 then NaN else Finite f]).
Proof.
  intros factor low high old f [Hlow Hhigh] Hold Hf.
  assert (Hband : (old / high < old / low)%R).
  { unfold Rdiv. apply Rmult_lt_compat_l; [exact Hold|].
    apply Rinv_lt_contravar; [nra | exact Hhigh]. }
  pose proof (wavelength_pos f Hf) as Hw.
  assert (Hlh : low <> high) by lra.
  destruct (rescale_entry_banded factor low high old f Hlh Hf)
    as (_ & _ & Hmid).
  split; intros E; rewrite apply_rope_scaling_ok by lra; simpl;
    do 2 f_equal; rewrite Hmid by (rewrite E; unfold Rgt; lra); rewrite E.
  - replace ((old / (old / low) - low) / (high - low))%R with 0%R
      by (field; lra).
    replace (1 - 0)%R with 1%R by ring. replace (0 * f)%R with 0%R by ring.
    destruct (Req_dec_T factor 0) as [-> | Hfac].
    + rewrite fdiv_zero. destruct (Req_dec_T f 0); [lra|].
      rewrite (Rltb_true 0 f Hf). simpl. unfold inf_times.
      destruct (Req_dec_T 1 0); [lra|].
      destruct (Rlt_dec 0 1); [reflexivity | lra].
    + rewrite fdiv_finite by exact Hfac. simpl. f_equal. ring.
  - replace ((old / (old / high) - low) / (high - low))%R with 1%R
      by (field; lra).
    replace (1 - 1)%R with 0%R by ring. replace (1 * f)%R with f by ring.
    destruct (Req_dec_T factor 0) as [-> | Hfac].
    + rewrite fdiv_zero. destruct (Req_dec_T f 0); [lra|].
      rewrite (Rltb_true 0 f Hf). simpl. unfold inf_times.
      destruct (Req_dec_T 0 0) as [_ | H]; [reflexivity | now elim H].
    + rewrite fdiv_finite by exact Hfac. simpl. f_equal. ring.
Qed.

Lemma apply_rope_scaling_band_edges_witness :
  apply_rope_scaling [PI] 8 1 4 2 = Ok [fdiv (Finite PI) (Finite 8)].
Proof.
  pose proof PI_RGT_0.
  apply (apply_rope_scaling_band_edges 8 1 4 2 PI); try lra.
  field. lra.
Defined.

End RopeBounds.

(** ** Further properties of the cross-attention block *)

Module BlockLoopFacts.
Import Py Py.Notations XAttn Block.

(** **** The list kept for the state dict *)

Section StateDict.

Variable build_module : nat -> CrossAttentionTransformerLayer.

(** The cross-attention layers among the slots, in slot order. *)
Definition real_layers (slots : list XLayer) : list CrossAttentionTransformerLayer :=
  flat_map (fun slot =>
              match slot with
              | XAttnLayer l => [l]
              | DummyCrossAttentionTransformerLayer => []
              end) slots.

Lemma real_layers_app (a b : list XLayer) :
  real_layers (a ++ b) = (real_layers a ++ real_layers b)%list.
Proof. unfold real_layers. apply flat_map_app. Qed.

Lemma init_loop_invariant schedule : forall n start acc,
  acc.1 = real_layers acc.2 ->
  let built := fold_left (init_step build_module schedule) (seq start n) acc in
  built.1 = real_layers built.2 /\
  built.1 = (acc.1 ++ map (fun i => build_module (i + 1))
                        (List.filter (fun i => in_schedule i schedule) (seq start n)))%list.
Proof.
  induction n as [|n IH]; intros start acc Hacc; simpl.
  - split; [exact Hacc | now rewrite app_nil_r].
  - destruct (IH (S start) (init_step build_module schedule acc start))
      as [H1 H2].
    + unfold init_step.
      destruct (in_schedule start schedule); simpl.
      * rewrite real_layers_app, Hacc. reflexivity.
      * rewrite real_layers_app, Hacc. simpl. now rewrite app_nil_r.
    + split; [exact H1|]. rewrite H2. unfold init_step.
      destruct (in_schedule start schedule) eqn:E; simpl.
      * now rewrite <- app_assoc.
      * reflexivity.
Qed.

(** [xattn_layers], the module list that reaches the state dict, holds
    exactly the cross-attention layers of the slots, in slot order: the
    layers numbered [i + 1] for the indices [i] of the schedule below the
    number of layers.  Schedule entries beyond that build nothing. *)
Theorem init_xattn_layers :
  forall super blk,
    init build_module super = Ok blk ->
    xattn_layers blk = real_layers (xattn_and_dummy_layers blk) /\
    xattn_layers blk
    = map (fun i => build_module (i + 1))
        (List.filter (fun i => in_schedule i (fusion_schedule (config super)))
           (seq 0 (num_layers_per_pipeline_rank super))) /\
    (length (xattn_layers blk) <= num_layers_per_pipeline_rank super)%nat.
Proof.
  intros super blk. unfold init.
  destruct (init_loop_invariant (fusion_schedule (config super))
              (num_layers_per_pipeline_rank super) 0 ([], []) eq_refl)
    as [H1 H2].
  destruct (Nat.eqb _ _); [|discriminate].
  intros H. inversion H; subst blk; clear H. simpl.
  split; [exact H1|]. split; [exact H2|].
  rewrite H2. simpl. rewrite length_map.
  etransitivity; [apply List.filter_length_le|]. now rewrite length_seq.
Qed.

End StateDict.

Lemma init_xattn_layers_witness :
  exists blk,
    init (fun n => LayerFacts.passthrough_layer (INR n) 0)
      (BlockFacts.example_super CNone [1%nat; 5%nat] 2) = Ok blk /\
    xattn_layers blk = [LayerFacts.passthrough_layer (INR (1 + 1)) 0].
Proof.
  destruct (init (fun n => LayerFacts.passthrough_layer (INR n) 0)
              (BlockFacts.example_super CNone [1%nat; 5%nat] 2))
    as [blk | e] eqn:E; [|discriminate].
  exists blk. split; [reflexivity|].
  destruct (init_xattn_layers _ _ _ E) as (_ & H & _). exact H.
Defined.

(** **** The layer loop *)

Section Loop.

Variable grad_enabled : bool.
Variable self : CrossAttentionTransformerBlock.
Variables (attention_mask xattn_caches : pyval) (inputs : LayerInputs).

(** What a complete pass over [pairs] shows from index [l_no] on: every
    index in order, its slot called with [xattn_caches[l_no]], then its
    text layer, both inside the offload context. *)
Fixpoint interleaved (l_no : nat) (pairs : list (TextLayer * XLayer))
  : option (list event) :=
  match pairs with
  | [] => Some []
  | (_, slot) :: rest =>
      match subscript xattn_caches l_no, interleaved (S l_no) rest with
      | Ok cache, Some later =>
          Some (Enter (offload_context (base self))
                  :: CallXAttnSlot l_no slot cache
                  :: CallTextLayer l_no
                  :: Exit (offload_context (base self))
                  :: later)
      | _, _ => None
      end
  end.

Lemma layer_pair_returns l_no layer slot hidden_states tr out tr' :
  Nat.eqb (length (cuda_graphs (base self))) 0
  || negb (block_training (base self)) = true ->
  layer_pair self attention_mask xattn_caches inputs l_no layer slot
    hidden_states tr = (Ok out, tr') ->
  exists cache,
    subscript xattn_caches l_no = Ok cache /\
    tr' = (tr ++ [CallXAttnSlot l_no slot cache; CallTextLayer l_no])%list.
Proof.
  intros no_replay. unfold layer_pair. rewrite no_replay.
  unfold ebind, lift, call_xattn_slot, call_text_layer, emit, eret, eraise.
  destruct (subscript xattn_caches l_no) as [cache | e]; [|discriminate].
  intros H. exists cache. split; [reflexivity|]. revert H.
  destruct slot as [l|]; simpl.
  - destruct (layer_forward l hidden_states inputs cache) as [[h1 c1] | e];
      simpl; [|discriminate].
    destruct (unpack2 (text_forward layer h1 attention_mask inputs))
      as [[h2 c2] | e]; simpl; [|discriminate].
    destruct (is_none c2 || negb (enable_cuda_graph (config (base self)))
              || negb (block_training (base self)));
      intros H; inversion H; now rewrite <- app_assoc.
  - unfold dummy_call.
    destruct (unpack2 hidden_states) as [[h1 c1] | e]; simpl; [|discriminate].
    destruct (unpack2 (text_forward layer h1 attention_mask inputs))
      as [[h2 c2] | e]; simpl; [|discriminate].
    destruct (is_none c2 || negb (enable_cuda_graph (config (base self)))
              || negb (block_training (base self)));
      intros H; inversion H; now rewrite <- app_assoc.
Qed.

(** Outside CUDA-graph replay, a pass of the loop that returns has called,
    for every index in order, first the slot with its cache and then the
    text layer, and nothing else. *)
Theorem layer_loop_interleaves :
  Nat.eqb (length (cuda_graphs (base self))) 0
  || negb (block_training (base self)) = true ->
  forall pairs l_no hidden_states tr out tr',
    layer_loop grad_enabled self attention_mask xattn_caches inputs
      l_no pairs hidden_states tr = (Ok out, tr') ->
    exists events,
      interleaved l_no pairs = Some events /\ tr' = (tr ++ events)%list.
Proof.
  intros no_replay.
  induction pairs as [|[layer slot] rest IH];
    intros l_no hidden_states tr out tr' H; simpl in H.
  - inversion H; subst. exists []. split; [reflexivity | now rewrite app_nil_r].
  - unfold ebind at 1 in H. unfold with_ in H.
    destruct (layer_pair self attention_mask xattn_caches inputs l_no layer
                slot hidden_states
                (tr ++ [Enter (offload_context (base self))])%list)
      as [[h1 | e] tr1] eqn:E1; [|discriminate].
    apply layer_pair_returns in E1; [|exact no_replay].
    destruct E1 as (cache & Hc & ->).
    apply IH in H. destruct H as (later & Hl & ->).
    simpl. rewrite Hc, Hl. eexists. split; [reflexivity|].
    rewrite <- !app_assoc. reflexivity.
Qed.

End Loop.

(** A cross-attention layer whose branches contribute nothing. *)
Definition inert_layer : CrossAttentionTransformerLayer :=
  {| layer_number := 1;
     gate_attn := 0;
     gate_ffn := 0;
     training := false;
     bias_dropout_fusion := false;
     hidden_dropout := 0;
     pre_cross_attn_layernorm := fun x => x;
     cross_attention := fun _ _ _ => PTuple [PNone; PNone];
     cross_attn_bda := fun _ _ _ residual _ => residual;
     pre_mlp_layernorm := fun x => x;
     mlp := fun _ => PTuple [PNone; PNone];
     mlp_bda := fun _ _ _ residual _ => residual |}.

(** Two text layers, a cross-attention layer in each slot. *)
Definition full_block : CrossAttentionTransformerBlock :=
  {| base := BlockFacts.example_super CNone [0%nat; 1%nat] 2;
     xattn_layers := [inert_layer; inert_layer];
     xattn_and_dummy_layers := [XAttnLayer inert_layer; XAttnLayer inert_layer] |}.

Lemma layer_loop_interleaves_witness :
  snd (layer_loop false full_block PNone (PTuple [PNone; PNone])
         LayerFacts.no_inputs 0
         (zip (layers (base full_block)) (xattn_and_dummy_layers full_block))
         BlockFacts.three_tokens [])
  = [Enter nullcontext; CallXAttnSlot 0 (XAttnLayer inert_layer) PNone;
     CallTextLayer 0; Exit nullcontext;
     Enter nullcontext; CallXAttnSlot 1 (XAttnLayer inert_layer) PNone;
     CallTextLayer 1; Exit nullcontext].
Proof.
  destruct (layer_loop false full_block PNone (PTuple [PNone; PNone])
              LayerFacts.no_inputs 0
              (zip (layers (base full_block)) (xattn_and_dummy_layers full_block))
              BlockFacts.three_tokens []) as [[out | e] tr'] eqn:E.
  - destruct (layer_loop_interleaves false full_block PNone
                (PTuple [PNone; PNone]) LayerFacts.no_inputs eq_refl _ _ _ _ _ _ E)
      as (events & Hev & ->).
    simpl in Hev. inversion Hev. reflexivity.
  - discriminate.
Defined.

(** **** What a pass never does *)

Section Emits.

(** Every event a computation adds to the trace satisfies [P]. *)
Variable P : event -> Prop.

Definition emits {A : Type} (c : eff trace A) : Prop :=
  forall tr, exists added, snd (c tr) = (tr ++ added)%list /\ Forall P added.

Lemma emits_silent {A : Type} (c : eff trace A) :
  (forall tr, snd (c tr) = tr) -> emits c.
Proof.
  intros H tr. exists []. rewrite H, app_nil_r. split; [reflexivity | constructor].
Qed.

Lemma emits_emit (e : event) : P e -> emits (emit e).
Proof.
  intros He tr. exists [e]. split; [reflexivity | repeat constructor; exact He].
Qed.

Lemma emits_ebind {A B : Type} (c : eff trace A) (k : A -> eff trace B) :
  emits c -> (forall a, emits (k a)) -> emits (ebind c k).
Proof.
  intros Hc Hk tr. unfold ebind.
  destruct (Hc tr) as (added1 & E1 & F1).
  destruct (c tr) as [[a | e] tr1]; simpl in E1; subst tr1.
  - destruct (Hk a (tr ++ added1)%list) as (added2 & E2 & F2).
    exists (added1 ++ added2)%list. rewrite E2, app_assoc.
    split; [reflexivity | apply Forall_app; split; assumption].
  - exists added1. split; [reflexivity | exact F1].
Qed.

Lemma emits_with {A : Type} (c : context) (body : eff trace A) :
  P (Enter c) -> P (Exit c) -> emits body -> emits (with_ c body).
Proof.
  intros Hin Hout Hb tr. unfold with_.
  destruct (Hb (tr ++ [Enter c])%list) as (inner & E & F).
  destruct (body (tr ++ [Enter c])%list) as [r tr1]. simpl in *. subst tr1.
  exists (Enter c :: inner ++ [Exit c])%list.
  rewrite <- !app_assoc. split; [reflexivity|].
  constructor; [exact Hin|]. apply Forall_app. split; [exact F|].
  repeat constructor. exact Hout.
Qed.

End Emits.

Definition is_layer_call (e : event) : bool :=
  match e with
  | CallXAttnSlot _ _ _ | CallTextLayer _ => true
  | _ => false
  end.

Definition is_replay (e : event) : bool :=
  match e with
  | ReplayCudaGraph _ _ => true
  | _ => false
  end.

Section Modes.

Variables (grad_enabled model_parallel_is_initialized : bool).
Variable self : CrossAttentionTransformerBlock.
Variables (attention_mask xattn_caches : pyval) (inputs : LayerInputs).

Lemma layer_pair_mode l_no layer slot hidden_states :
  emits (fun e =>
           if Nat.eqb (length (cuda_graphs (base self))) 0
              || negb (block_training (base self))
           then is_replay e = false else is_layer_call e = false)
    (layer_pair self attention_mask xattn_caches inputs l_no layer slot
       hidden_states).
Proof.
  unfold layer_pair.
  destruct (Nat.eqb (length (cuda_graphs (base self))) 0
            || negb (block_training (base self))).
  - apply emits_ebind; [now apply emits_silent | intros cache].
    apply emits_ebind.
    { unfold call_xattn_slot. apply emits_ebind; [now apply emits_emit|].
      intros _. destruct slot; [|now apply emits_silent].
      apply emits_ebind; [now apply emits_silent|].
      intros out. now apply emits_silent. }
    intros out. apply emits_ebind; [now apply emits_silent | intros up].
    apply emits_ebind.
    { unfold call_text_layer. apply emits_ebind; [now apply emits_emit|].
      intros _. now apply emits_silent. }
    intros out'. apply emits_ebind; [now apply emits_silent | intros up'].
    destruct (_ || _); now apply emits_silent.
  - destruct (cuda_graphs (base self) !! l_no) as [graphs|];
      [|now apply emits_silent].
    destruct (graphs !! current_microbatch (base self)) as [graph|];
      [|now apply emits_silent].
    apply emits_ebind; [now apply emits_emit|].
    intros _. now apply emits_silent.
Qed.

Lemma layer_loop_mode pairs : forall l_no hidden_states,
  emits (fun e =>
           if Nat.eqb (length (cuda_graphs (base self))) 0
              || negb (block_training (base self))
           then is_replay e = false else is_layer_call e = false)
    (layer_loop grad_enabled self attention_mask xattn_caches inputs
       l_no pairs hidden_states).
Proof.
  induction pairs as [|[layer slot] rest IH]; intros l_no hidden_states; simpl.
  - now apply emits_silent.
  - apply emits_ebind.
    + apply emits_with; [| |apply layer_pair_mode];
        destruct (_ || _); reflexivity.
    + intros hs. apply IH.
Qed.

(** The two ways through the loop exclude each other for a whole pass: in
    CUDA-graph replay (graphs captured and training) no cross-attention
    slot and no text layer is ever called, and outside it no graph is ever
    replayed. *)
Theorem forward_modes_exclusive :
  forall hidden_states tr,
    exists added,
      snd (forward grad_enabled model_parallel_is_initialized self
             attention_mask xattn_caches inputs hidden_states tr)
      = (tr ++ added)%list /\
      Forall (fun e =>
                if Nat.eqb (length (cuda_graphs (base self))) 0
                   || negb (block_training (base self))
                then is_replay e = false else is_layer_call e = false)
        added.
Proof.
  intros hidden_states. unfold forward.
  apply emits_ebind; [now apply emits_silent | intros ctx].
  apply emits_ebind.
  - apply emits_with; try (destruct (_ || _); reflexivity).
    destruct (_ && _); [now apply emits_silent | apply layer_loop_mode].
  - intros hs. destruct (final_layernorm (base self)); now apply emits_silent.
Qed.

End Modes.

End BlockLoopFacts.

(** ** The soft-negative branch of the contrastive loss *)

Module LossSoftNegatives.
Import Py Py.Notations Floats EmbeddingModel LossFacts.

Lemma sequence_map_ok {A B : Type} (f : A -> result B) (g : A -> B) (l : list A) :
  Forall (fun a => f a = Ok (g a)) l ->
  sequence (map f l) = Ok (map g l).
Proof.
  induction 1 as [|a rest Ha _ IH]; simpl; [reflexivity|].
  now rewrite Ha, IH.
Qed.

Lemma index_map {A B : Type} (f : A -> B) (d : A) (l : list A) : forall j,
  (j < length l)%nat -> index (map f l) j = Ok (f (nth j l d)).
Proof.
  induction l as [|a rest IH]; intros j Hj; simpl in Hj; [lia|].
  destruct j as [|j]; [reflexivity|].
  unfold index in *. simpl. apply IH. lia.
Qed.

(** The diagonal of a matrix given row by row over one list. *)
Lemma diagonal_ok {E V : Type} (H : E -> E -> V) (full : list E) :
  forall later earlier,
    full = (earlier ++ later)%list ->
    sequence
      (imap (fun i row => index row (length earlier + i))
         (map (fun e => map (H e) full) later))
    = Ok (map (fun e => H e e) later).
Proof.
  induction later as [|e rest IH]; intros earlier Hfull; [reflexivity|].
  simpl. rewrite Nat.add_0_r.
  assert (E0 : index (map (H e) full) (length earlier) = Ok (H e e)).
  { rewrite (index_map (H e) e).
    - subst full. rewrite app_nth2 by lia. now rewrite Nat.sub_diag.
    - subst full. rewrite length_app. simpl. lia. }
  rewrite E0. simpl.
  specialize (IH (earlier ++ [e])%list).
  rewrite <- app_assoc in IH. specialize (IH Hfull).
  rewrite length_app in IH. simpl in IH.
  erewrite imap_ext; [rewrite IH; reflexivity|].
  intros i row _. simpl. f_equal. lia.
Qed.

Section Soft.

Variable cosine_similarity : Row -> Row -> fnum.
Variable norm : Row -> fnum.
Variable cross_entropy : list Row -> list nat -> fnum.
Variable multinomial : nat -> nat -> list (list nat).
Variable peer_losses : list fnum.

(** Row [i] of the similarity matrix when soft negatives are on: the
    dot product of the normalized query and positive of example [i] and
    the cosine similarity of its query and negative, each multiplied by
    [1/temperature], and, for every sampled index [j], the dot product of
    the normalized query of example [j] with the normalized positive of
    example 0, multiplied by [1/temperature]. *)
Definition soft_row (t : R) (examples : list Example) (e : Example)
  (sampled : list nat) : Row :=
  (fmul (dot (unit norm (query e)) (unit norm (positive e))) (Finite (1 / t))
   :: fmul (cosine_similarity (query e) (negative e)) (Finite (1 / t))
   :: map (fun j =>
             fmul
               (dot (nth j (map (fun e => unit norm (query e)) examples) [])
                    (nth 0 (map (fun e => unit norm (positive e)) examples) []))
               (Finite (1 / t)))
        sampled)%list.

(** The matrix [all_cs]: dot products of every normalized query with
    every normalized positive, multiplied by [1/temperature]. *)
Definition all_cs (t : R) (examples : list Example) : list Row :=
  map (fun x =>
         map (fun e =>
                fmul (dot (unit norm (query x)) (unit norm (positive e)))
                  (Finite (1 / t)))
           examples)
      examples.

Definition no_example : Example := {| query := []; positive := []; negative := [] |}.

Lemma all_cs_source t examples :
  map (fun x : Example =>
         mul_scalar (1 / t)
           (map (dot (map (fun v => fdiv v (norm (query x))) (query x)))
              (map (fun e : Example =>
                      map (fun v => fdiv v (norm (positive e))) (positive e))
                 examples)))
    examples
  = all_cs t examples.
Proof.
  unfold all_cs, mul_scalar. apply map_ext. intros x.
  rewrite !map_map. reflexivity.
Qed.

Lemma all_cs_diagonal t examples :
  sequence (imap (fun i row => index row i) (all_cs t examples))
  = Ok (map (fun e => fmul (dot (unit norm (query e)) (unit norm (positive e)))
                        (Finite (1 / t))) examples).
Proof.
  apply (diagonal_ok
           (fun e e' => fmul (dot (unit norm (query e)) (unit norm (positive e')))
                          (Finite (1 / t))) examples examples []).
  reflexivity.
Qed.

Lemma all_cs_sampled t examples (sampled : list nat) :
  Forall (fun j => (j < length examples)%nat) sampled ->
  sequence
    (map (fun j => let* row := index (all_cs t examples) j in index row 0)
       sampled)
  = Ok (map (fun j =>
               fmul
                 (dot (nth j (map (fun e => unit norm (query e)) examples) [])
                      (nth 0 (map (fun e => unit norm (positive e)) examples) []))
                 (Finite (1 / t)))
          sampled).
Proof.
  intros Hr. apply sequence_map_ok.
  eapply Forall_impl; [exact Hr|]. intros j Hj. cbv beta in *.
  unfold all_cs.
  match goal with
  | |- context [index (map ?f examples) j] =>
      rewrite (index_map f no_example) by exact Hj
  end.
  simpl bind.
  match goal with
  | |- context [index (map ?f ?l) 0] =>
      rewrite (index_map f no_example l) by lia
  end.
  do 3 f_equal.
  - change (@nil fnum) with (unit norm (query no_example)).
    rewrite (map_nth (fun e => unit norm (query e))). reflexivity.
  - change (@nil fnum) with (unit norm (positive no_example)).
    rewrite (map_nth (fun e => unit norm (positive e))). reflexivity.
Qed.

Lemma length_unsqueeze1 (xs : Row) : length (unsqueeze1 xs) = length xs.
Proof. apply length_map. Qed.

Lemma soft_rows_cat (f1 f2 : Example -> fnum) (g : nat -> fnum) :
  forall (examples : list Example) (samples : list (list nat)),
    zip_with (fun a b => (a ++ b)%list) (unsqueeze1 (map f1 examples))
      (zip_with (fun a b => (a ++ b)%list) (unsqueeze1 (map f2 examples))
         (map (map g) samples))
    = zip_with (fun e s => f1 e :: f2 e :: map g s) examples samples.
Proof.
  induction examples as [|e rest IH]; intros [|s samples]; simpl;
    try reflexivity.
  now rewrite IH.
Qed.

(** With a non-zero [temperature], [0 < num_soft_negatives < number of
    examples] and sampled indices that are in range, one row per example,
    the loss is the cross-entropy against class 0 of the matrix whose row
    [i] is [soft_row]: its soft-negative columns are the similarities of
    the sampled queries with the positive of example 0. *)
Lemma loss_func_soft self loss_mask output_tensor examples :
  gather output_tensor loss_mask
    (seq 0 (length (default [] (head output_tensor)))) = Ok (interleave examples) ->
  temperature self <> 0%R ->
  (0 < num_soft_negatives self < length examples)%nat ->
  let samples := multinomial (length examples) (num_soft_negatives self) in
  length samples = length examples ->
  Forall (Forall (fun j => (j < length examples)%nat)) samples ->
  loss_func cosine_similarity norm cross_entropy multinomial peer_losses
    self loss_mask output_tensor
  = Ok (let ce :=
          cross_entropy
            (zip_with (soft_row (temperature self) examples) examples samples)
            (repeat 0%nat (length examples)) in
        if (1 <? context_parallel_size self)%Z
        then fold_left fadd peer_losses ce else ce,
        map (fun e => unit norm (query e)) examples,
        map (fun e => unit norm (positive e)) examples).
Proof.
  intros Hg Ht [Hpos Hlt] samples Hlen Hrange.
  unfold loss_func. rewrite Hg. simpl bind.
  destruct (strided_interleave examples) as (-> & -> & ->).
  rewrite rowwise_map. simpl bind.
  rewrite (py_div_ok 1 _ Ht). simpl bind.
  unfold normalize. rewrite !map_map.
  rewrite !length_map.
  apply Nat.ltb_lt in Hpos, Hlt. rewrite Hpos, Hlt.
  fold samples.
  rewrite all_cs_source.
  rewrite (all_cs_diagonal (temperature self) examples). simpl bind.
  rewrite (sequence_map_ok _
             (map (fun j =>
                     fmul
                       (dot (nth j (map (fun e => unit norm (query e)) examples) [])
                            (nth 0 (map (fun e => unit norm (positive e)) examples) []))
                       (Finite (1 / temperature self))))).
  2:{ eapply Forall_impl; [exact Hrange|]. intros sampled Hs.
      exact (all_cs_sampled (temperature self) examples sampled Hs). }
  simpl bind. unfold cat_columns. simpl bind.
  unfold mul_scalar. rewrite !map_map.
  rewrite !length_unsqueeze1, !length_map, Hlen, Nat.eqb_refl. simpl bind.
  rewrite length_zip_with, !length_unsqueeze1, !length_map, Hlen, Nat.min_id,
    Nat.eqb_refl.
  rewrite soft_rows_cat. simpl bind.
  rewrite length_zip_with, Hlen, Nat.min_id.
  reflexivity.
Qed.

(** Asking for as many soft negatives as there are examples, or more,
    fails the assertion of line 235 when [temperature] is not zero:
    nothing is sampled and no loss is computed.  With a zero
    [temperature] the division of line 230 has raised before. *)
Lemma loss_func_too_many_soft_negatives self loss_mask output_tensor examples :
  gather output_tensor loss_mask
    (seq 0 (length (default [] (head output_tensor)))) = Ok (interleave examples) ->
  (0 < num_soft_negatives self)%nat ->
  (length examples <= num_soft_negatives self)%nat ->
  (temperature self <> 0%R ->
   loss_func cosine_similarity norm cross_entropy multinomial peer_losses
     self loss_mask output_tensor
   = Raise (AssertionError "Batch size is not large enough for soft negatives")) /\
  (temperature self = 0%R ->
   loss_func cosine_similarity norm cross_entropy multinomial peer_losses
     self loss_mask output_tensor
   = Raise ZeroDivisionError).
Proof.
  intros Hg Hpos Hge.
  unfold loss_func. rewrite Hg. simpl bind.
  destruct (strided_interleave examples) as (-> & -> & ->).
  rewrite rowwise_map. simpl bind. split; intros Ht.
  - rewrite (py_div_ok 1 _ Ht). simpl bind.
    unfold normalize. rewrite !map_map, !length_map.
    apply Nat.ltb_lt in Hpos. rewrite Hpos.
    apply Nat.ltb_ge in Hge. rewrite Hge. reflexivity.
  - rewrite Ht, py_div_zero. reflexivity.
Qed.

End Soft.

Definition two_examples : list Example :=
  [ {| query := [Finite 1; Finite 0]; positive := [Finite 1; Finite 0];
       negative := [Finite 0; Finite 1] |};
    {| query := [Finite 0; Finite 2]; positive := [Finite 0; Finite 1];
       negative := [Finite 3; Finite 0] |} ].

(** Hidden states [s = 1, b = 6, h = 2] holding those two examples. *)
Definition two_examples_output : list (list Row) :=
  [[ [Finite 1; Finite 0]; [Finite 1; Finite 0]; [Finite 0; Finite 1];
     [Finite 0; Finite 2]; [Finite 0; Finite 1]; [Finite 3; Finite 0] ]].

Definition two_examples_mask : list Z := [0%Z; 0%Z; 0%Z; 0%Z; 0%Z; 0%Z].

(** Each example draws the other one. *)
Definition swap_samples (n k : nat) : list (list nat) := [[1%nat]; [0%nat]].

Lemma loss_func_soft_witness :
  loss_func ideal_cosine_similarity ideal_norm ideal_cross_entropy
    swap_samples [] (init None (Some 1%nat) None)
    two_examples_mask two_examples_output
  = Ok (ideal_cross_entropy
          (zip_with (soft_row ideal_cosine_similarity ideal_norm 1 two_examples)
             two_examples [[1%nat]; [0%nat]])
          [0%nat; 0%nat],
        map (fun e => unit ideal_norm (query e)) two_examples,
        map (fun e => unit ideal_norm (positive e)) two_examples).
Proof.
  apply (loss_func_soft ideal_cosine_similarity ideal_norm ideal_cross_entropy
           swap_samples [] (init None (Some 1%nat) None)
           two_examples_mask two_examples_output two_examples).
  - reflexivity.
  - simpl. lra.
  - simpl. lia.
  - reflexivity.
  - repeat constructor.
Defined.

Lemma loss_func_too_many_soft_negatives_witness :
  loss_func ideal_cosine_similarity ideal_norm ideal_cross_entropy
    swap_samples [] (init None (Some 2%nat) None)
    two_examples_mask two_examples_output
  = Raise (AssertionError "Batch size is not large enough for soft negatives") /\
  loss_func ideal_cosine_similarity ideal_norm ideal_cross_entropy
    swap_samples [] (init (Some 0%R) (Some 2%nat) None)
    two_examples_mask two_examples_output
  = Raise ZeroDivisionError.
Proof.
  split.
  - apply (loss_func_too_many_soft_negatives ideal_cosine_similarity ideal_norm
             ideal_cross_entropy swap_samples [] (init None (Some 2%nat) None)
             two_examples_mask two_examples_output two_examples);
      try reflexivity; simpl; try lia; lra.
  - apply (loss_func_too_many_soft_negatives ideal_cosine_similarity ideal_norm
             ideal_cross_entropy swap_samples []
             (init (Some 0%R) (Some 2%nat) None)
             two_examples_mask two_examples_output two_examples);
      try reflexivity; simpl; lia.
Defined.

End LossSoftNegatives.

(** ** [megatron_gpt_embedding_model.py]: gathering and writing predictions *)

Module Predictions.
Import Py Py.Notations EmbeddingModel.

(** A value of a metadata dict or of a configuration entry. *)
Inductive jval : Type :=
| JNone
| JBool (b : bool)
| JInt (z : Z)
| JStr (s : string).

Definition truthy (v : jval) : bool :=
  match v with
  | JNone => false
  | JBool b => b
  | JInt z => negb (Z.eqb z 0)
  | JStr s => negb (String.eqb s "")
  end.

Definition Meta : Type := gmap string jval.

(** The dict a validation step returns for one batch: [q_hs] and [d_hs]
    are [batch_size, hidden_size] tensors, [metadata] a list of dicts. *)
Record StepOutput : Type := {
  loss : R;
  metadata : list Meta;
  q_hs : list Vec;
  d_hs : list Vec
}.

(** [{'q_hs': x['q_hs'], 'd_hs': x['d_hs'], 'metadata': x['metadata']}] *)
Record Gathered : Type := {
  g_q_hs : list Vec;
  g_d_hs : list Vec;
  g_metadata : list Meta
}.

Definition project (x : StepOutput) : Gathered :=
  {| g_q_hs := q_hs x; g_d_hs := d_hs x; g_metadata := metadata x |}.

Record Deduplicated : Type := {
  dq_hs : list Vec;
  dd_hs : list Vec;
  dmetadata : list Meta
}.

(** [metadata.get("__AUTOGENERATED__", False)], as a truth value. *)
Definition autogenerated (m : Meta) : bool :=
  truthy (default (JBool false) (m !! "__AUTOGENERATED__")).

(** Lines 157-164: one example of a batch. *)
Definition dedup_example (acc : Deduplicated * nat) (x : Vec * Vec * Meta)
  : Deduplicated * nat :=
  let total_size := (acc.2 + 1)%nat in
  if negb (autogenerated x.2) then
    ({| dq_hs := (dq_hs acc.1 ++ [x.1.1])%list;
        dd_hs := (dd_hs acc.1 ++ [x.1.2])%list;
        dmetadata := (dmetadata acc.1 ++ [x.2])%list |}, total_size)
  else (acc.1, total_size).

(** [zip(batch['q_hs'], batch['d_hs'], batch['metadata'])] *)
Definition examples_of (batch : Gathered) : list (Vec * Vec * Meta) :=
  zip (zip (g_q_hs batch) (g_d_hs batch)) (g_metadata batch).

Definition dedup_batch (acc : Deduplicated * nat) (batch : Gathered)
  : Deduplicated * nat :=
  fold_left dedup_example (examples_of batch) acc.

Definition dedup_rank (acc : Deduplicated * nat) (batches : list Gathered)
  : Deduplicated * nat :=
  fold_left dedup_batch batches acc.

(** Lines 148-164, over what every rank contributed. *)
Definition deduplicate (gathered_outputs : list (list Gathered))
  : Deduplicated * nat :=
  fold_left dedup_rank gathered_outputs
    ({| dq_hs := []; dd_hs := []; dmetadata := [] |}, 0%nat).

(** What reaches the file system. *)
Inductive io : Type :=
| np_save (path : string) (array : list R).

Record DataCfg : Type := {
  write_embeddings_to_file_flag : option jval;
  (* [None]: no such attribute; [Some None]: the attribute is [None] *)
  output_file_path_prefix : option (option string)
}.

Record Model : Type := {
  val_metric_name : string;
  test_metric_name : string;
  global_rank : nat
}.

Section Gather.

(** [torch.cat(rows, dim=0)], which raises on an empty list. *)
Variable torch_cat : list Vec -> result (list R).
(** [self._determine_log_key(data_cfg, dataloader_idx, None, mode)] of the
    SFT base model. *)
Variable _determine_log_key : DataCfg -> nat -> string -> string.

Definition lift {A : Type} (r : result A) : eff (list io) A := fun tr => (r, tr).

Definition save (path : string) (array : list R) : eff (list io) unit :=
  fun tr => (Ok tt, (tr ++ [np_save path array])%list).

(** [write_embeddings_to_file], lines 187-194. *)
Definition write_embeddings_to_file (outputs : Deduplicated)
  (output_file_path : string) : eff (list io) bool :=
  run* q := lift (torch_cat (dq_hs outputs)) in
  run* d := lift (torch_cat (dd_hs outputs)) in
  save (output_file_path ++ "_q_hs.npy") q ;;
  save (output_file_path ++ "_d_hs.npy") d ;;
  eret true.

(** [gather_and_maybe_write_predictions], lines 140-185.  The objects of
    the other data-parallel ranks are [before] and [after] this rank's. *)
Definition gather_and_maybe_write_predictions (self : Model)
  (before after : list (list Gathered)) (output : list StepOutput)
  (data_cfg : DataCfg) (mode : string) (dataloader_idx : nat)
  : eff (list io) (Deduplicated * nat) :=
  let gathered_outputs := (before ++ [map project output] ++ after)%list in
  let deduplicated := deduplicate gathered_outputs in
  let metric_name :=
    if String.eqb mode "validation" then val_metric_name self
    else test_metric_name self in
  if negb (String.eqb metric_name "loss")
  then eraise (AssertionError "Only loss is supported for now.")
  else
    (if Nat.eqb (global_rank self) 0
        && truthy (default (JBool false) (write_embeddings_to_file_flag data_cfg))
     then
       match output_file_path_prefix data_cfg with
       | Some (Some prefix) =>
           let filename_log_key :=
             _determine_log_key data_cfg dataloader_idx mode in
           write_embeddings_to_file deduplicated.1
             (prefix ++ "_" ++ filename_log_key) ;;
           eret tt
       | _ =>
           eraise (ValueError "Cannot write predictions to file when output_file_path_prefix is not set or present in the yaml config file.")
       end
     else eret tt) ;;
    eret deduplicated.

End Gather.

End Predictions.

Module PredictionsFacts.
Import Py Py.Notations EmbeddingModel Predictions.

Definition keep (x : Vec * Vec * Meta) : bool := negb (autogenerated x.2).

(** Every example of every batch of every rank, in loop order. *)
Definition all_examples (gathered_outputs : list (list Gathered))
  : list (Vec * Vec * Meta) :=
  flat_map examples_of (concat gathered_outputs).

Definition extend (d : Deduplicated) (xs : list (Vec * Vec * Meta)) : Deduplicated :=
  {| dq_hs := (dq_hs d ++ map (fun x => x.1.1) xs)%list;
     dd_hs := (dd_hs d ++ map (fun x => x.1.2) xs)%list;
     dmetadata := (dmetadata d ++ map snd xs)%list |}.

Lemma extend_nil d : extend d [] = d.
Proof. destruct d. unfold extend. simpl. now rewrite !app_nil_r. Qed.

Lemma extend_app d xs ys : extend (extend d xs) ys = extend d (xs ++ ys).
Proof. unfold extend. simpl. now rewrite !map_app, !app_assoc. Qed.

Lemma dedup_examples xs : forall acc,
  fold_left dedup_example xs acc
  = (extend acc.1 (List.filter keep xs), (acc.2 + length xs)%nat).
Proof.
  induction xs as [|x rest IH]; intros [d n]; simpl.
  - now rewrite extend_nil, Nat.add_0_r.
  - rewrite IH. unfold dedup_example, keep. simpl.
    destruct (negb (autogenerated x.2)); simpl.
    + f_equal; [|lia]. unfold extend. simpl.
      now rewrite <- !app_assoc.
    + f_equal. lia.
Qed.

Lemma dedup_batches batches : forall acc,
  fold_left dedup_batch batches acc
  = (extend acc.1 (List.filter keep (flat_map examples_of batches)),
     (acc.2 + length (flat_map examples_of batches))%nat).
Proof.
  induction batches as [|b rest IH]; intros [d n]; simpl.
  - now rewrite extend_nil, Nat.add_0_r.
  - rewrite IH. unfold dedup_batch. rewrite dedup_examples. simpl.
    rewrite extend_app, List.filter_app, length_app. f_equal. lia.
Qed.

Lemma dedup_ranks gathered : forall acc,
  fold_left dedup_rank gathered acc
  = (extend acc.1 (List.filter keep (all_examples gathered)),
     (acc.2 + length (all_examples gathered))%nat).
Proof.
  unfold all_examples.
  induction gathered as [|batches rest IH]; intros [d n]; simpl.
  - now rewrite extend_nil, Nat.add_0_r.
  - rewrite IH. unfold dedup_rank. rewrite dedup_batches. simpl.
    rewrite extend_app, flat_map_app, List.filter_app, length_app.
    f_equal. lia.
Qed.

Lemma deduplicate_eq gathered :
  deduplicate gathered
  = (extend {| dq_hs := []; dd_hs := []; dmetadata := [] |}
       (List.filter keep (all_examples gathered)),
     length (all_examples gathered)).
Proof. unfold deduplicate. now rewrite dedup_ranks. Qed.

Lemma zip_unzip3 (xs : list (Vec * Vec * Meta)) :
  zip (zip (map (fun x => x.1.1) xs) (map (fun x => x.1.2) xs)) (map snd xs) = xs.
Proof.
  induction xs as [|[[q d] m] rest IH]; simpl; [reflexivity | now rewrite IH].
Qed.

(** The three deduplicated lists stay aligned: together they are exactly
    the examples that are not marked autogenerated, in the order of ranks,
    batches and rows, so they have one length and hold no autogenerated
    metadata; [total_size] counts every example seen, kept or not. *)
Theorem deduplicate_keeps_aligned :
  forall (gathered_outputs : list (list Gathered)),
    let d := (deduplicate gathered_outputs).1 in
    let total_size := (deduplicate gathered_outputs).2 in
    zip (zip (dq_hs d) (dd_hs d)) (dmetadata d)
      = List.filter keep (all_examples gathered_outputs) /\
    length (dq_hs d) = length (dmetadata d) /\
    length (dd_hs d) = length (dmetadata d) /\
    Forall (fun m => autogenerated m = false) (dmetadata d) /\
    total_size = length (all_examples gathered_outputs) /\
    (length (dmetadata d) <= total_size)%nat.
Proof.
  intros gathered d total_size. subst d total_size.
  rewrite deduplicate_eq. simpl.
  split; [apply zip_unzip3|].
  rewrite !length_map.
  split; [reflexivity|]. split; [reflexivity|]. split; [|split].
  - apply List.Forall_map. apply List.Forall_forall. intros x Hx.
    apply List.filter_In in Hx. destruct Hx as [_ Hk].
    unfold keep in Hk. now apply negb_true_iff in Hk.
  - reflexivity.
  - apply List.filter_length_le.
Qed.

Lemma deduplicate_keeps_aligned_check :
  let m_auto : Meta := {[ "__AUTOGENERATED__" := JBool true ]} in
  let m_real : Meta := {[ "id" := JInt 7 ]} in
  deduplicate
    [ [ {| g_q_hs := [[1%R]; [2%R]]; g_d_hs := [[3%R]; [4%R]];
           g_metadata := [m_real; m_auto] |} ];
      [ {| g_q_hs := [[5%R]]; g_d_hs := [[6%R]]; g_metadata := [m_real] |} ] ]
  = ({| dq_hs := [[1%R]; [5%R]]; dd_hs := [[3%R]; [6%R]];
        dmetadata := [m_real; m_real] |}, 3%nat).
Proof. reflexivity. Qed.

Section Writes.

Variable torch_cat : list Vec -> result (list R).
Variable _determine_log_key : DataCfg -> nat -> string -> string.
Variable self : Model.
Variables (before after : list (list Gathered)) (output : list StepOutput).
Variable data_cfg : DataCfg.
Variable mode : string.
Variable dataloader_idx : nat.

Let gathered_outputs : list (list Gathered) :=
  (before ++ [map project output] ++ after)%list.

Let metric_name : string :=
  if String.eqb mode "validation" then val_metric_name self
  else test_metric_name self.

Let asked_to_write : bool :=
  Nat.eqb (global_rank self) 0
  && truthy (default (JBool false) (write_embeddings_to_file_flag data_cfg)).

(** Files are written by rank 0 only, only when asked and only for the
    metric "loss"; they are the two arrays of the deduplicated query and
    document embeddings, written together or not at all; and whatever is
    returned is the deduplicated gather. *)
Theorem gather_writes_both_or_nothing :
  forall tr r tr',
    gather_and_maybe_write_predictions torch_cat _determine_log_key self
      before after output data_cfg mode dataloader_idx tr = (r, tr') ->
    (forall result, r = Ok result -> result = deduplicate gathered_outputs) /\
    (tr' = tr \/
     exists prefix q d,
       global_rank self = 0%nat /\
       asked_to_write = true /\
       metric_name = "loss" /\
       output_file_path_prefix data_cfg = Some (Some prefix) /\
       torch_cat (dq_hs (deduplicate gathered_outputs).1) = Ok q /\
       torch_cat (dd_hs (deduplicate gathered_outputs).1) = Ok d /\
       r = Ok (deduplicate gathered_outputs) /\
       let path :=
         prefix ++ "_" ++ _determine_log_key data_cfg dataloader_idx mode in
       tr' = (tr ++ [np_save (path ++ "_q_hs.npy") q;
                     np_save (path ++ "_d_hs.npy") d])%list).
Proof.
  intros tr r tr'. unfold gather_and_maybe_write_predictions.
  fold gathered_outputs. fold metric_name. fold asked_to_write.
  destruct (String.eqb_spec metric_name "loss") as [Hm | Hm]; simpl.
  2:{ unfold eraise. intros H; inversion H; subst.
      split; [discriminate | now left]. }
  destruct asked_to_write eqn:Hask.
  2:{ unfold ebind, eret. simpl. intros H; inversion H; subst.
      split; [intros ? E; now inversion E | now left]. }
  destruct (output_file_path_prefix data_cfg) as [[prefix|]|] eqn:Hp;
    try (unfold ebind, eraise; simpl; intros H; inversion H; subst;
         split; [discriminate | now left]).
  unfold ebind, write_embeddings_to_file, Predictions.lift, save, eret.
  destruct (torch_cat (dq_hs (deduplicate gathered_outputs).1)) as [q|e] eqn:Hq;
    [|intros H; inversion H; subst; split; [discriminate | now left]].
  destruct (torch_cat (dd_hs (deduplicate gathered_outputs).1)) as [d|e] eqn:Hd;
    [|intros H; inversion H; subst; split; [discriminate | now left]].
  intros H; inversion H; subst. split; [intros ? E; now inversion E|].
  right. exists prefix, q, d.
  unfold asked_to_write in Hask. apply andb_true_iff in Hask.
  destruct Hask as [Hr Hf]. apply Nat.eqb_eq in Hr.
  repeat split; try assumption; try reflexivity.
  simpl. now rewrite <- app_assoc.
Qed.

(** The error cases: a metric other than "loss" fails the assertion; on
    rank 0 a request to write without [output_file_path_prefix] (absent
    or [None]) raises [ValueError]; on other ranks, or without the request,
    the call returns the deduplicated gather.  Nothing is written in any
    of them. *)
Theorem gather_error_cases :
  forall tr,
    let run :=
      gather_and_maybe_write_predictions torch_cat _determine_log_key self
        before after output data_cfg mode dataloader_idx tr in
    (metric_name <> "loss" ->
     run = (Raise (AssertionError "Only loss is supported for now."), tr)) /\
    (metric_name = "loss" -> asked_to_write = true ->
     (output_file_path_prefix data_cfg = None \/
      output_file_path_prefix data_cfg = Some None) ->
     exists msg, run = (Raise (ValueError msg), tr)) /\
    (metric_name = "loss" -> asked_to_write = false ->
     run = (Ok (deduplicate gathered_outputs), tr)).
Proof.
  intros tr run. subst run. unfold gather_and_maybe_write_predictions.
  fold gathered_outputs. fold metric_name. fold asked_to_write.
  split; [|split].
  - intros Hm. apply String.eqb_neq in Hm. now rewrite Hm.
  - intros Hm Hask Hp. rewrite Hm, Hask. simpl.
    destruct Hp as [-> | ->]; eexists; reflexivity.
  - intros Hm Hask. rewrite Hm, Hask. reflexivity.
Qed.

End Writes.

(** [torch.cat] over the reals; an empty list is refused. *)
Definition cat_rows (rows : list Vec) : result (list R) :=
  match rows with
  | [] => Raise (ValueError "expected a non-empty list of Tensors")
  | _ => Ok (concat rows)
  end.

Definition rank0_model : Model :=
  {| val_metric_name := "loss"; test_metric_name := "accuracy"; global_rank := 0 |}.

Definition writing_cfg (prefix : option (option string)) : DataCfg :=
  {| write_embeddings_to_file_flag := Some (JBool true);
     output_file_path_prefix := prefix |}.

Definition one_step : StepOutput :=
  {| loss := 0.5;
     metadata := [ (∅ : Meta); {[ "__AUTOGENERATED__" := JBool true ]} ];
     q_hs := [[1%R; 2%R]; [3%R; 4%R]];
     d_hs := [[5%R; 6%R]; [7%R; 8%R]] |}.

Lemma gather_writes_both_or_nothing_witness :
  snd (gather_and_maybe_write_predictions cat_rows (fun _ _ mode => mode)
         rank0_model [] [] [one_step] (writing_cfg (Some (Some "emb")))
         "validation" 0 [])
  = [np_save "emb_validation_q_hs.npy" [1%R; 2%R];
     np_save "emb_validation_d_hs.npy" [5%R; 6%R]].
Proof.
  destruct (gather_writes_both_or_nothing cat_rows (fun _ _ mode => mode)
              rank0_model [] [] [one_step] (writing_cfg (Some (Some "emb")))
              "validation" 0 [] _ _ eq_refl) as [_ [H | H]].
  - discriminate.
  - reflexivity.
Defined.

Lemma gather_error_cases_witness :
  gather_and_maybe_write_predictions cat_rows (fun _ _ mode => mode)
    rank0_model [] [] [one_step] (writing_cfg (Some (Some "emb"))) "test" 0 []
  = (Raise (AssertionError "Only loss is supported for now."), []) /\
  exists msg,
    gather_and_maybe_write_predictions cat_rows (fun _ _ mode => mode)
      rank0_model [] [] [one_step] (writing_cfg (Some None)) "validation" 0 []
    = (Raise (ValueError msg), []).
Proof.
  split.
  - apply (gather_error_cases cat_rows (fun _ _ mode => mode) rank0_model
             [] [] [one_step] (writing_cfg (Some (Some "emb"))) "test" 0 []).
    discriminate.
  - apply (gather_error_cases cat_rows (fun _ _ mode => mode) rank0_model
             [] [] [one_step] (writing_cfg (Some None)) "validation" 0 []);
      [reflexivity | reflexivity | right; reflexivity].
Defined.

End PredictionsFacts.

(** ** [megatron_gpt_embedding_model.py]: the validation step *)

Module ValidationStep.
Import Py Py.Notations EmbeddingModel Predictions.

(** [self.model]: one module, or the list of modules of a pipeline with
    virtual stages; each by its [training] flag. *)
Inductive ModelField : Type :=
| SingleModule (training : bool)
| ModuleList (trainings : list bool).

Record State : Type := {
  model : ModelField;
  validation_step_outputs : list R;
  test_step_outputs : list R;
  initialize_ub : bool;
  trainer_testing : bool
}.

Definition set_model (m : ModelField) (st : State) : State :=
  {| model := m;
     validation_step_outputs := validation_step_outputs st;
     test_step_outputs := test_step_outputs st;
     initialize_ub := initialize_ub st;
     trainer_testing := trainer_testing st |}.

(** [for model_module in self.model: model_module.eval()] (or [.train()])
    under [isinstance(self.model, list)]. *)
Definition switch_modules (training : bool) : eff State unit :=
  fun st =>
    match model st with
    | ModuleList ms => (Ok tt, set_model (ModuleList (map (fun _ => training) ms)) st)
    | SingleModule _ => (Ok tt, st)
    end.

Definition append_loss (to_validation : bool) (l : R) : eff State unit :=
  fun st =>
    (Ok tt,
     if to_validation then
       {| model := model st;
          validation_step_outputs := (validation_step_outputs st ++ [l])%list;
          test_step_outputs := test_step_outputs st;
          initialize_ub := initialize_ub st;
          trainer_testing := trainer_testing st |}
     else
       {| model := model st;
          validation_step_outputs := validation_step_outputs st;
          test_step_outputs := (test_step_outputs st ++ [l])%list;
          initialize_ub := initialize_ub st;
          trainer_testing := trainer_testing st |}).

Definition get {A : Type} (f : State -> A) : eff State A := fun st => (Ok (f st), st).

(** A batch as the dataloader yields it: its token rows and, possibly,
    its metadata. *)
Record Batch : Type := {
  tokens : option (list (list Z));
  batch_metadata : option (list Meta)
}.

Definition NonLoss : Type := gmap string (list Vec).

Section Step.

(** Methods of the base models, which are not among the sources. *)
Variable _val_iterator_done : list Batch -> list Batch * bool.
Variable initialize_ub_func : eff State unit.
Variable fwd_bwd_step : list Batch -> nat -> bool -> eff State (R * NonLoss).

(** [local_validation_step], lines 196-222; [None] is the bare [return]. *)
Definition local_validation_step (dataloader_iter : list Batch) (batch_idx : nat)
  : eff State (option (R * NonLoss)) :=
  let '(dataloader_iter, done) := _val_iterator_done dataloader_iter in
  if done then eret None
  else
    run* testing := get trainer_testing in
    let mode := if testing then "test" else "val" in
    run* ub := get initialize_ub in
    (if ub then initialize_ub_func else eret tt) ;;
    switch_modules false ;;
    run* out := fwd_bwd_step dataloader_iter batch_idx true in
    switch_modules true ;;
    append_loss (String.eqb mode "val") out.1 ;;
    eret (Some out).

(** [d[key]] *)
Definition getitem {A : Type} (d : gmap string A) (key : string) : result A :=
  match d !! key with
  | Some v => Ok v
  | None => Raise (KeyError key)
  end.

Definition elift {A : Type} (r : result A) : eff State A := fun st => (r, st).

(** [inference_step_validation_call], lines 129-138.  The default of
    [batch.get] is evaluated before the lookup. *)
Definition inference_step_validation_call (batch : Batch) (batch_idx : nat)
  : eff State StepOutput :=
  run* rows :=
    elift (match tokens batch with
           | Some rows => Ok rows
           | None => Raise (KeyError "tokens")
           end) in
  let fallback := repeat (∅ : Meta) (length rows) in
  let metadata := default fallback (batch_metadata batch) in
  run* returned := local_validation_step [batch] batch_idx in
  run* unpacked :=
    elift (match returned with
           | Some both => Ok both
           | None => Raise TypeError
           end) in
  run* q := elift (getitem unpacked.2 "query_hs") in
  run* d := elift (getitem unpacked.2 "doc_hs") in
  eret {| loss := unpacked.1; metadata := metadata; q_hs := q; d_hs := d |}.

End Step.

End ValidationStep.

Module ValidationStepFacts.
Import Py Py.Notations EmbeddingModel Predictions ValidationStep.

(** The modes after every module of a list model has been switched; a
    single module is never switched. *)
Definition switched (training : bool) (m : ModelField) : ModelField :=
  match m with
  | ModuleList ms => ModuleList (map (fun _ => training) ms)
  | SingleModule t => SingleModule t
  end.

Lemma switched_twice a b m : switched a (switched b m) = switched a m.
Proof. destruct m as [t | ms]; simpl; [reflexivity|]. now rewrite map_map. Qed.

Section Modes.

Variable _val_iterator_done : list Batch -> list Batch * bool.
Variable initialize_ub_func : eff State unit.
Variable fwd_bwd_step : list Batch -> nat -> bool -> eff State (R * NonLoss).

(** The base-class methods leave the module modes and the two lists of
    step outputs alone. *)
Definition preserves {A : Type} (c : eff State A) : Prop :=
  forall st,
    model (c st).2 = model st /\
    validation_step_outputs (c st).2 = validation_step_outputs st /\
    test_step_outputs (c st).2 = test_step_outputs st.

Hypothesis ub_preserves : preserves initialize_ub_func.
Hypothesis ub_returns : forall st, (initialize_ub_func st).1 = Ok tt.
Hypothesis fwd_preserves : forall it idx flag, preserves (fwd_bwd_step it idx flag).


End Modes.

(** Stand-ins for the base-class methods: an iterator is done when it
    is empty, and the forward pass returns a fixed loss. *)
Definition done_when_empty (it : list Batch) : list Batch * bool :=
  (it, match it with [] => true | _ => false end).

Definition fixed_forward (l : R) (tensors : NonLoss)
  (_ : list Batch) (_ : nat) (_ : bool) : eff State (R * NonLoss) :=
  eret (l, tensors).

Definition failing_forward (_ : list Batch) (_ : nat) (_ : bool)
  : eff State (R * NonLoss) :=
  eraise (ValueError "forward failed").

Lemma eret_preserves {A : Type} (a : A) : preserves (@eret State A a).
Proof. intros st. repeat split; reflexivity. Qed.

Lemma eraise_preserves {A : Type} (e : exn) : preserves (@eraise State A e).
Proof. intros st. repeat split; reflexivity. Qed.

Definition mixed_state : State :=
  {| model := ModuleList [false; true];
     validation_step_outputs := [1%R];
     test_step_outputs := [];
     initialize_ub := false;
     trainer_testing := false |}.

Definition plain_batch : Batch :=
  {| tokens := Some [[1%Z; 2%Z]; [3%Z; 4%Z]]; batch_metadata := None |}.


Section Inference.

Variable _val_iterator_done : list Batch -> list Batch * bool.
Variable initialize_ub_func : eff State unit.
Variable fwd_bwd_step : list Batch -> nat -> bool -> eff State (R * NonLoss).

(** A batch without ['tokens'] raises [KeyError] before anything runs,
    even when it carries metadata, because the default of [batch.get] is
    computed first; an exhausted iterator makes the unpacking of the step's
    [None] raise [TypeError]; and a returned output carries the batch's
    metadata, or, when the batch has none, one empty dict per token row,
    none of which marks its example as autogenerated. *)
Theorem inference_step_edge_cases :
  forall batch batch_idx st,
    let run :=
      inference_step_validation_call _val_iterator_done initialize_ub_func
        fwd_bwd_step batch batch_idx st in
    (tokens batch = None -> run = (Raise (KeyError "tokens"), st)) /\
    (tokens batch <> None -> (_val_iterator_done [batch]).2 = true ->
     run = (Raise TypeError, st)) /\
    (forall out st' rows,
       run = (Ok out, st') -> tokens batch = Some rows ->
       metadata out
       = default (repeat (∅ : Meta) (length rows)) (batch_metadata batch) /\
       (batch_metadata batch = None ->
        length (metadata out) = length rows /\
        Forall (fun m => autogenerated m = false) (metadata out))).
Proof.
  intros batch batch_idx st run. subst run.
  unfold inference_step_validation_call. split; [|split].
  - intros Ht. rewrite Ht. reflexivity.
  - intros Ht Hd. destruct (tokens batch) as [rows|]; [|contradiction].
    unfold ebind at 1. unfold elift at 1. unfold ebind at 1.
    unfold local_validation_step.
    destruct (_val_iterator_done [batch]) as [it done]. simpl in Hd. subst done.
    reflexivity.
  - intros out st' rows Hrun Ht. rewrite Ht in Hrun.
    unfold ebind at 1 in Hrun. unfold elift at 1 in Hrun.
    unfold ebind at 1 in Hrun.
    destruct (local_validation_step _ _ _ [batch] batch_idx st)
      as [[returned | e] st1]; [|discriminate].
    unfold ebind, elift, eret in Hrun.
    destruct returned as [both|]; [|discriminate].
    destruct (getitem both.2 "query_hs") as [q|e]; [|discriminate].
    destruct (getitem both.2 "doc_hs") as [d|e]; [|discriminate].
    inversion Hrun; subst; clear Hrun. simpl.
    split; [reflexivity|]. intros Hn. rewrite Hn. simpl.
    split; [apply repeat_length|].
    apply List.Forall_forall. intros m Hm.
    apply repeat_spec in Hm. subst m. reflexivity.
Qed.

End Inference.

Lemma inference_step_edge_cases_witness :
  inference_step_validation_call done_when_empty (eret tt)
    (fixed_forward 0.25 ∅)
    {| tokens := None; batch_metadata := Some [∅] |} 0 mixed_state
  = (Raise (KeyError "tokens"), mixed_state).
Proof.
  apply (inference_step_edge_cases done_when_empty (eret tt)
           (fixed_forward 0.25 ∅)
           {| tokens := None; batch_metadata := Some [∅] |} 0 mixed_state).
  reflexivity.
Defined.

End ValidationStepFacts.

(** ** Further properties of the dataset construction *)

Module DatasetCap.
Import Py Py.Notations BuildDataset.

Definition datasets_of (b : Built) : list GPTEmbeddingDataset :=
  match b with
  | Blended dataset => BuildDataset.datasets dataset
  | PerFile ds => ds
  end.

(** Absolute position embeddings: the type is unset or "learned_absolute". *)
Definition absolute (self : Model) : bool :=
  match position_embedding_type self with
  | None => true
  | Some t => String.eqb t "learned_absolute"
  end.

Section Cap.

Variable helper :
  list prefix_item -> list Z -> result (list string * list R * list (list Z)).
Variable self : Model.

Lemma per_file_datasets_length data_cfg pairs : forall ds,
  per_file_datasets self data_cfg pairs = Ok ds ->
  Forall (fun d => ds_max_seq_length d = max_seq_length data_cfg) ds.
Proof.
  induction pairs as [|[path counts] rest IH]; intros ds; simpl.
  - intros H; inversion H. constructor.
  - destruct (index counts 0) as [first|e]; simpl; [|discriminate].
    destruct (per_file_datasets self data_cfg rest) as [others|e]; simpl;
      [|discriminate].
    intros H; inversion H; subst. constructor; [reflexivity | now apply IH].
Qed.

Lemma cap_value data_cfg :
  max_seq_length (cap_max_seq_length self data_cfg)
  = if absolute self
    then Z.min (max_seq_length data_cfg) (max_position_embeddings self)
    else max_seq_length data_cfg.
Proof.
  unfold cap_max_seq_length, absolute.
  destruct (match position_embedding_type self with
            | Some t => String.eqb t "learned_absolute"
            | None => true
            end); simpl; [|reflexivity].
  destruct (Z.ltb_spec (max_position_embeddings self) (max_seq_length data_cfg));
    simpl; lia.
Qed.

(** Whatever [_build_dataset] returns, every dataset in it was built with
    one sequence length, the one the returned configuration now holds:
    the configured [max_seq_length], lowered to [max_position_embeddings]
    when the position embeddings are absolute.  So with absolute position
    embeddings no dataset exceeds [max_position_embeddings]. *)
Theorem build_dataset_caps_sequence_length :
  forall data_cfg is_train built data_cfg',
    _build_dataset helper self data_cfg is_train = Ok (built, data_cfg') ->
    max_seq_length data_cfg'
    = (if absolute self
       then Z.min (max_seq_length data_cfg) (max_position_embeddings self)
       else max_seq_length data_cfg) /\
    Forall (fun d => ds_max_seq_length d = max_seq_length data_cfg')
      (datasets_of built) /\
    (absolute self = true ->
     Forall (fun d => (ds_max_seq_length d <= max_position_embeddings self)%Z)
       (datasets_of built)).
Proof.
  intros data_cfg is_train built data_cfg'. unfold _build_dataset.
  destruct (negb (is_list_config (file_names data_cfg))); [discriminate|].
  destruct (sample_counts helper self data_cfg is_train) as [counts|e];
    simpl; [|discriminate].
  destruct (per_file_datasets self (cap_max_seq_length self data_cfg) _)
    as [ds|e] eqn:Eds; simpl; [|discriminate].
  apply per_file_datasets_length in Eds.
  intros H.
  assert (Hd : datasets_of built = ds /\
               data_cfg' = cap_max_seq_length self data_cfg).
  { destruct is_train; inversion H; subst; split; reflexivity. }
  destruct Hd as [-> ->]. clear H.
  split; [apply cap_value|]. split; [exact Eds|].
  intros Ha. eapply Forall_impl; [exact Eds|].
  intros d Hd. simpl in Hd. rewrite Hd, cap_value, Ha. lia.
Qed.

End Cap.

Lemma build_dataset_caps_sequence_length_witness :
  exists built data_cfg',
    _build_dataset BuildDatasetFacts.every_count
      {| trainer_max_steps := Some 10%Z;
         position_embedding_type := Some "learned_absolute";
         max_position_embeddings := 256;
         tokenizer := "tokenizer";
         virtual_tokens := 0;
         chat_prompt_tokens := None |}
      (BuildDatasetFacts.example_data_cfg ConfNone) false
    = Ok (built, data_cfg') /\
    max_seq_length data_cfg' = 256%Z /\
    Forall (fun d => ds_max_seq_length d = 256%Z) (datasets_of built).
Proof.
  destruct (_build_dataset BuildDatasetFacts.every_count
              {| trainer_max_steps := Some 10%Z;
                 position_embedding_type := Some "learned_absolute";
                 max_position_embeddings := 256;
                 tokenizer := "tokenizer";
                 virtual_tokens := 0;
                 chat_prompt_tokens := None |}
              (BuildDatasetFacts.example_data_cfg ConfNone) false)
    as [[built data_cfg'] | e] eqn:E; [|discriminate].
  exists built, data_cfg'. split; [reflexivity|].
  destruct (build_dataset_caps_sequence_length _ _ _ _ _ _ E) as (Hm & Hf & _).
  assert (Hv : max_seq_length data_cfg' = 256%Z) by (rewrite Hm; reflexivity).
  split; [exact Hv|].
  eapply Forall_impl; [exact Hf|]. intros d Hd. simpl in Hd. congruence.
Defined.

End DatasetCap.

(** ** Further properties of [gemma1] *)

Module GemmaBatch.
Import Py Py.Notations Gemma.

(** The values filed under [k] among encoded items, in order. *)
Definition column {V : Type} (k : string) (items : list (string * V)) : list V :=
  map snd (List.filter (fun kv => String.eqb kv.1 k) items).

(** A [defaultdict(list)] entry: absent until something is appended. *)
Definition entry {V : Type} (old : option (list V)) (new : list V)
  : option (list V) :=
  match old, new with
  | None, [] => None
  | _, _ => Some (default [] old ++ new)%list
  end.

Lemma entry_nil {V : Type} (old : option (list V)) : entry old [] = old.
Proof. destruct old as [l|]; simpl; [now rewrite app_nil_r | reflexivity]. Qed.

Lemma entry_app {V : Type} (old : option (list V)) (a b : list V) :
  entry (entry old a) b = entry old (a ++ b).
Proof.
  destruct old as [l|]; destruct a as [|x a]; destruct b as [|y b]; simpl;
    rewrite ?app_nil_r, <- ?app_assoc; reflexivity.
Qed.

Section Aggregate.

Variable V : Type.
Variable encode_dialog : list Turn -> result (list (string * V)).

Lemma ans_append_lookup (ans : gmap string (list V)) (kv : string * V) (k : string) :
  ans_append V ans kv !! k = entry (ans !! k) (column k [kv]).
Proof.
  unfold ans_append, column. simpl.
  destruct (String.eqb_spec kv.1 k) as [E | E]; simpl.
  - subst k. rewrite lookup_insert_eq. destruct (ans !! kv.1); reflexivity.
  - rewrite lookup_insert_ne by exact E. destruct (ans !! k) as [l|]; simpl;
      [now rewrite app_nil_r | reflexivity].
Qed.

Lemma fold_append_lookup (items : list (string * V)) : forall ans k,
  fold_left (ans_append V) items ans !! k = entry (ans !! k) (column k items).
Proof.
  induction items as [|kv rest IH]; intros ans k; simpl.
  - unfold column. simpl. now rewrite entry_nil.
  - rewrite IH, ans_append_lookup, entry_app. f_equal.
    unfold column. simpl. destruct (String.eqb kv.1 k); reflexivity.
Qed.

Lemma column_app (k : string) (a b : list (string * V)) :
  column k (a ++ b) = (column k a ++ column k b)%list.
Proof. unfold column. now rewrite List.filter_app, map_app. Qed.

(** A cut was encoded into [items]. *)
Definition encoded_as (cut : Cut) (items : list (string * V)) : Prop :=
  exists turns, gemma1_turns cut = Ok turns /\ encode_dialog turns = Ok items.

Lemma gemma1_loop_ok cuts : forall encoded ans,
  Forall2 encoded_as cuts encoded ->
  exists ans',
    gemma1_loop V encode_dialog cuts ans = Ok ans' /\
    forall k, ans' !! k = entry (ans !! k) (column k (concat encoded)).
Proof.
  induction cuts as [|cut rest IH]; intros encoded ans H; inversion H; subst.
  - exists ans. split; [reflexivity|]. intros k. simpl.
    unfold column. simpl. now rewrite entry_nil.
  - match goal with
    | Hc : encoded_as cut ?items |- _ => destruct Hc as (turns & Ht & He)
    end.
    simpl. rewrite Ht. simpl. rewrite He. simpl.
    match goal with
    | Hr : Forall2 encoded_as rest ?l |- _ =>
        destruct (IH l (fold_left (ans_append V) y ans) Hr) as (ans' & E & Hk)
    end.
    exists ans'. split; [exact E|]. intros k.
    rewrite Hk, fold_append_lookup, entry_app, column_app. reflexivity.
Qed.

(** When every cut is encoded, [gemma1] files, under each key, the values
    that the cuts' encodings hold for that key, in cut order, and has no
    entry for a key that no encoding holds: nothing is lost, reordered or
    filed under another key. *)
Theorem gemma1_groups_by_key :
  forall cuts encoded,
    Forall2 encoded_as cuts encoded ->
    exists ans,
      gemma1 V encode_dialog cuts = Ok ans /\
      forall k,
        ans !! k = match column k (concat encoded) with
                   | [] => None
                   | values => Some values
                   end.
Proof.
  intros cuts encoded H.
  destruct (gemma1_loop_ok cuts encoded ∅ H) as (ans & E & Hk).
  exists ans. split; [exact E|]. intros k. rewrite Hk, lookup_empty.
  now destruct (column k (concat encoded)).
Qed.

(** The first cut that cannot be turned into a dialog decides the
    outcome: its exception is what [gemma1] raises, once the cuts before
    it have been encoded. *)
Theorem gemma1_first_failure :
  forall good encoded bad rest e,
    Forall2 encoded_as good encoded ->
    gemma1_turns bad = Raise e ->
    gemma1 V encode_dialog (good ++ bad :: rest) = Raise e.
Proof.
  intros good encoded bad rest e Hgood Hbad. unfold gemma1.
  generalize (∅ : gmap string (list V)). revert encoded Hgood.
  induction good as [|cut good IH]; intros encoded Hgood ans;
    inversion Hgood; subst; simpl.
  - now rewrite Hbad.
  - match goal with
    | Hc : encoded_as cut ?items |- _ => destruct Hc as (turns & Ht & He)
    end.
    rewrite Ht. simpl. rewrite He. simpl. eapply IH. eassumption.
Qed.

End Aggregate.

(** A cut that has none of [context], [question] and [default_context]
    raises [AttributeError] for [default_context], whatever else it holds;
    a cut that has one of them but no supervision raises [IndexError]. *)
Theorem gemma1_turns_errors :
  forall cut,
    (custom (resolve cut) !! "context" = None ->
     custom (resolve cut) !! "question" = None ->
     custom (resolve cut) !! "default_context" = None ->
     gemma1_turns cut = Raise (AttributeError "default_context")) /\
    (forall context,
       select_context (resolve cut) = Ok context ->
       supervisions (resolve cut) = [] ->
       gemma1_turns cut = Raise IndexError).
Proof.
  intros cut. split.
  - intros H1 H2 H3. unfold gemma1_turns, select_context, has_custom, getattr.
    now rewrite H1, H2, H3.
  - intros context Hc Hs. unfold gemma1_turns. rewrite Hc. simpl.
    unfold has_custom, getattr, index.
    destruct (custom (resolve cut) !! "system_prompt"); simpl;
      now rewrite Hs.
Qed.

Definition cut_without_supervision : Cut :=
  MonoCut {| custom := {["context" := "Transcribe."]}; supervisions := [] |}.

Lemma gemma1_turns_errors_witness :
  gemma1_turns (MixedCut {| custom := {["system_prompt" := "Be brief."]};
                            supervisions := [ {| text := Some "hi" |} ] |})
    = Raise (AttributeError "default_context") /\
  gemma1_turns cut_without_supervision = Raise IndexError.
Proof.
  split.
  - apply gemma1_turns_errors; reflexivity.
  - apply (proj2 (gemma1_turns_errors cut_without_supervision) "Transcribe.");
      reflexivity.
Defined.

(** An encoder that reports the number of turns of the dialog. *)
Definition count_turns (turns : list Turn) : result (list (string * nat)) :=
  Ok [("n_turns", length turns)].

Lemma gemma1_groups_by_key_witness :
  exists ans,
    gemma1 nat count_turns [GemmaFacts.cut_question; GemmaFacts.cut_system]
      = Ok ans /\
    ans !! "n_turns" = Some [2%nat; 1%nat] /\
    ans !! "answer_ids" = None.
Proof.
  destruct (gemma1_groups_by_key nat count_turns
              [GemmaFacts.cut_question; GemmaFacts.cut_system]
              [[("n_turns", 2%nat)]; [("n_turns", 1%nat)]])
    as (ans & E & Hk).
  - repeat constructor; eexists; split; vm_compute; reflexivity.
  - exists ans. split; [exact E|]. split; rewrite Hk; reflexivity.
Defined.

Lemma gemma1_first_failure_witness :
  gemma1 nat count_turns
    [GemmaFacts.cut_question; cut_without_supervision; GemmaFacts.cut_system]
  = Raise IndexError.
Proof.
  apply (gemma1_first_failure nat count_turns [GemmaFacts.cut_question]
           [[("n_turns", 2%nat)]] cut_without_supervision
           [GemmaFacts.cut_system] IndexError).
  - repeat constructor; eexists; split; vm_compute; reflexivity.
  - reflexivity.
Defined.

End GemmaBatch.

(** ** Further properties of the speech-LLM drivers *)

Module DriverCalls.
Import Py Py.Notations SlmApi.

Lemma andthen_run {A B : Type} (c : run A) (k : A -> run B) (tr : trace) :
  andthen c k tr
  = match c tr with
    | (Some (Ok a), tr') => k a tr'
    | (Some (Raise e), tr') => (Some (Raise e), tr')
    | (None, tr') => (None, tr')
    end.
Proof. reflexivity. Qed.

Lemma build_ends outcome debugger cfg tr :
  (build outcome debugger cfg tr).1 <> None.
Proof.
  unfold build, andthen, ret, invoke.
  repeat match goal with
    | |- context [model_peft cfg] => destruct (model_peft cfg)
    | |- context [match outcome ?c with Some _ => _ | None => _ end] =>
        destruct (outcome c)
    end; discriminate.
Qed.

Section Calls.

Variable outcome : call -> option exn.
Variable debugger : session.
Variable cfg : DictConfig.

(** The three drivers build tokenizer, model, data, optimizer, trainer,
    PEFT, resume and logger by the same calls, and differ only in what
    follows: training calls [llm.finetune] and returns [logger.log_dir];
    validation and generation call [_setup] and then [trainer.validate]
    (and the debugger) or [trainer.predict], and return
    [app_state.log_dir].  So the training driver never validates or
    predicts, and the other two never fine-tune. *)
Theorem drivers_share_build :
  forall tr,
    let built := (build outcome debugger cfg tr).2 in
    (exists more,
       (speetch_to_text_llm_train outcome debugger cfg tr).2
       = (built ++ more)%list /\
       (more = [] \/ more = [llm_finetune]) /\
       forall v, (speetch_to_text_llm_train outcome debugger cfg tr).1
                 = Some (Ok v) ->
                 v = logger_log_dir cfg /\ more = [llm_finetune]) /\
    (exists more,
       (speetch_to_text_llm_validate outcome debugger cfg tr).2
       = (built ++ more)%list /\
       (more = [] \/ more = [setup] \/ more = [setup; trainer_validate] \/
        more = [setup; trainer_validate; pdb_set_trace]) /\
       forall v, (speetch_to_text_llm_validate outcome debugger cfg tr).1
                 = Some (Ok v) ->
                 v = app_state_log_dir cfg /\
                 more = [setup; trainer_validate; pdb_set_trace]) /\
    (exists more,
       (speetch_to_text_llm_generate outcome debugger cfg tr).2
       = (built ++ more)%list /\
       (more = [] \/ more = [setup] \/ more = [setup; trainer_predict]) /\
       forall v, (speetch_to_text_llm_generate outcome debugger cfg tr).1
                 = Some (Ok v) ->
                 v = app_state_log_dir cfg /\ more = [setup; trainer_predict]).
Proof.
  intros tr built. subst built.
  unfold speetch_to_text_llm_train, speetch_to_text_llm_validate,
    speetch_to_text_llm_generate.
  rewrite !(andthen_run (build outcome debugger cfg)).
  pose proof (build_ends outcome debugger cfg tr) as Hends.
  destruct (build outcome debugger cfg tr) as [[[u | e]|] tb]; simpl;
    [| |now elim Hends].
  2:{ repeat split; exists []; rewrite app_nil_r;
        (split; [reflexivity|]); (split; [now left | discriminate]). }
  unfold andthen, invoke, ret.
  split; [|split].
  - destruct (outcome llm_finetune); simpl;
      eexists; (split; [reflexivity|]); split; try (now right);
      intros v H; inversion H; split; reflexivity.
  - destruct (outcome setup); simpl;
      [eexists; (split; [reflexivity|]);
       split; [right; left; reflexivity | discriminate]|].
    destruct (outcome trainer_validate); simpl; rewrite <- ?app_assoc; simpl;
      [eexists; (split; [reflexivity|]);
       split; [right; right; left; reflexivity | discriminate]|].
    destruct debugger; simpl; rewrite <- ?app_assoc; simpl;
      eexists; (split; [reflexivity|]);
      (split; [right; right; right; reflexivity|]);
      intros v H; inversion H; split; reflexivity.
  - destruct (outcome setup); simpl;
      [eexists; (split; [reflexivity|]);
       split; [right; left; reflexivity | discriminate]|].
    destruct (outcome trainer_predict); simpl; rewrite <- ?app_assoc; simpl;
      eexists; (split; [reflexivity|]); split; try discriminate.
    + right; right; reflexivity.
    + right; right; reflexivity.
    + intros v H; inversion H; split; reflexivity.
Qed.

(** [SpeechToTextLLMPEFT] is constructed only when [cfg['model']] has a
    truthy ['peft'], after the trainer and before resume and logger; with
    it, every run that builds the logger has constructed it. *)
Theorem build_constructs_peft_when_configured :
  forall tr,
    exists added,
      (build outcome debugger cfg tr).2 = (tr ++ added)%list /\
      (In SpeechToTextLLMPEFT added ->
       model_peft cfg = true /\
       exists before after,
         added = (before ++ Trainer :: SpeechToTextLLMPEFT :: after)%list /\
         (after = [] \/ after = [from_config_resume] \/
          after = [from_config_resume; from_config_logger])) /\
      (model_peft cfg = true -> In from_config_logger added ->
       In SpeechToTextLLMPEFT added).
Proof.
  intros tr. unfold build, andthen, ret, invoke.
  repeat match goal with
    | |- context [model_peft cfg] => destruct (model_peft cfg)
    | |- context [match outcome ?c with Some _ => _ | None => _ end] =>
        destruct (outcome c)
    end;
    rewrite <- ?app_assoc; simpl; eexists; (split; [reflexivity|]);
    (split; [intros Hin | intros Hp Hin]);
    try discriminate;
    try (exfalso; simpl in Hin; intuition discriminate);
    try (simpl; tauto).
  all: split; [reflexivity|].
  all: match goal with
       | |- exists before after, ?l = _ /\ _ =>
           exists (firstn 8 l), (skipn 10 l)
       end; split; [reflexivity|]; simpl; tauto.
Qed.

End Calls.

End DriverCalls.

(** ** [language.py]: [LlamaCrossAttention] *)

Module CrossAttention.
Import Py Py.Notations XAttn.

(** Lines 577-580 of [__init__]: the assertion on the projection sizes
    and the repetition count, on Python integers. *)
Definition init_n_rep (query_projection_size kv_projection_size : Z) : result Z :=
  if Z.eqb kv_projection_size 0 then Raise ZeroDivisionError
  else if negb (Z.eqb (query_projection_size mod kv_projection_size) 0)
       then Raise (AssertionError "")
       else Ok (query_projection_size / kv_projection_size)%Z.

Inductive AttnMaskType : Type := padding | causal | no_mask.

(** The submodules and settings the [Attention] base class of
    Megatron-core provides. *)
Record LlamaCrossAttention : Type := {
  linear_q : pyval -> pyval * pyval;
  linear_kv : pyval -> pyval * pyval;
  q_layernorm : pyval -> pyval;
  k_layernorm : pyval -> pyval;
  core_attention :
    pyval -> pyval -> pyval -> pyval -> AttnMaskType -> pyval -> pyval;
  _checkpointed_attention_forward :
    pyval -> pyval -> pyval -> pyval -> AttnMaskType -> pyval -> pyval;
  linear_proj : pyval -> pyval * pyval;
  _adjust_key_value_for_inference :
    pyval -> pyval -> pyval -> pyval -> pyval * pyval * pyval * AttnMaskType;
  checkpoint_core_attention : bool;
  attention_training : bool;
  num_query_groups_per_partition : nat;
  num_attention_heads_per_partition : nat;
  hidden_size_per_attention_head : nat
}.

Section Attention.

(** Tensor operations of torch and Megatron-core. *)
(** [view] keeping every dimension but the last, which becomes
    [heads] by [width]. *)
Variable view_heads : pyval -> nat -> nat -> pyval.
Variable split_tensor_along_last_dim_2 : pyval -> pyval * pyval.
Variable squeeze : nat -> pyval -> pyval.
(** [t.reshape(t.size(0), 1, -1)] *)
Variable reshape_packed : pyval -> pyval.
(** [t.permute(2, 0, 1, 3)] *)
Variable permute_2013 : pyval -> pyval.
Variable mul : pyval -> pyval -> pyval.

Variable self : LlamaCrossAttention.

(** Lines 618-637. *)
Definition get_key_value_tensors (key_value_states : pyval) : pyval * pyval :=
  let mixed_kv := (linear_kv self key_value_states).1 in
  let mixed_kv :=
    view_heads mixed_kv (num_query_groups_per_partition self)
      (2 * hidden_size_per_attention_head self) in
  let '(key, value) := split_tensor_along_last_dim_2 mixed_kv in
  let key := k_layernorm self key in
  (key, value).

(** Lines 639-654. *)
Definition get_query_tensor (hidden_states : pyval) : pyval :=
  let query := (linear_q self hidden_states).1 in
  let query :=
    view_heads query (num_attention_heads_per_partition self)
      (hidden_size_per_attention_head self) in
  q_layernorm self query.

(** [torch.stack([key, value])] *)
Definition stack2 (key value : pyval) : result pyval :=
  match key, value with
  | PTensor k, PTensor v => Ok (PTensor (Stack [k; v]))
  | _, _ => Raise TypeError
  end.

(** [_compute_xattn_kv_cache], lines 774-776. *)
Definition _compute_xattn_kv_cache (xattn_tokens : pyval) : result pyval :=
  let '(key, value) := get_key_value_tensors xattn_tokens in
  stack2 key value.

Definition is_none (v : pyval) : bool :=
  match v with PNone => true | _ => false end.

Definition is_tuple (v : pyval) : bool :=
  match v with PTuple _ => true | _ => false end.

(** A method call on a tensor; [None] has no such attribute. *)
Definition method (name : string) (f : pyval -> pyval) (v : pyval) : result pyval :=
  match v with
  | PNone => Raise (AttributeError name)
  | _ => Ok (f v)
  end.

(** [LlamaCrossAttention.forward], lines 661-772. *)
Definition forward (hidden_states cross_attention_masks xattn_cache
                    full_text_row_masked_out_mask inference_params
                    rotary_pos_emb packed_seq_params : pyval)
  : result (pyval * pyval) :=
  let rotary_pos_emb :=
    if negb (is_none rotary_pos_emb) && negb (is_tuple rotary_pos_emb)
    then PTuple [rotary_pos_emb; rotary_pos_emb] else rotary_pos_emb in
  let query := get_query_tensor hidden_states in
  let* kv := unpack2 xattn_cache in
  let '(key, value, rotary_pos_emb, attn_mask_type) :=
    _adjust_key_value_for_inference self inference_params kv.1 kv.2
      rotary_pos_emb in
  let packed := negb (is_none packed_seq_params) in
  let query := if packed then squeeze 1 query else query in
  let key := if packed then squeeze 1 key else key in
  let value := if packed then squeeze 1 value else value in
  (* the embeddings are unpacked and the sequence lengths of a
     [PackedSeqParams] read, but the calls applying them are commented
     out in the source *)
  let* _ :=
    (if negb (is_none rotary_pos_emb)
     then let* embs := unpack2 rotary_pos_emb in Ok tt
     else Ok tt) in
  let core_attn_out :=
    if checkpoint_core_attention self && attention_training self
    then _checkpointed_attention_forward self query key value
           cross_attention_masks attn_mask_type packed_seq_params
    else core_attention self query key value cross_attention_masks
           attn_mask_type packed_seq_params in
  let core_attn_out :=
    if packed then reshape_packed core_attn_out else core_attn_out in
  let* permuted := method "permute" permute_2013 full_text_row_masked_out_mask in
  let full_text_row_masked_out_mask := squeeze 2 permuted in
  let core_attn_out := mul core_attn_out full_text_row_masked_out_mask in
  Ok (linear_proj self core_attn_out).

End Attention.

End CrossAttention.

Module CrossAttentionFacts.
Import Py Py.Notations XAttn CrossAttention.

(** What [forward] accepts as [rotary_pos_emb]: [None], one tensor (which
    it duplicates) or a pair. *)
Definition rope_ok (rope : pyval) : bool :=
  match rope with
  | PNone | PTensor _ | PTuple [_; _] => true
  | PTuple _ => false
  end.

(** [None] or a pair: the shape of [rotary_pos_emb] once duplicated. *)
Definition rope_pair (rope : pyval) : bool :=
  match rope with
  | PNone | PTuple [_; _] => true
  | _ => false
  end.

Lemma unpack2_rope_pair (rope : pyval) :
  rope_pair rope = true -> is_none rope = false ->
  exists embs, unpack2 rope = Ok embs.
Proof.
  destruct rope as [| t | [| a [| b [| c l]]]]; simpl; try discriminate;
    intros _ _; eexists; reflexivity.
Qed.

Section Facts.

Variable view_heads : pyval -> nat -> nat -> pyval.
Variable split_tensor_along_last_dim_2 : pyval -> pyval * pyval.
Variable squeeze : nat -> pyval -> pyval.
Variable reshape_packed : pyval -> pyval.
Variable permute_2013 : pyval -> pyval.
Variable mul : pyval -> pyval -> pyval.

Variable self : LlamaCrossAttention.

Let forward := forward view_heads squeeze reshape_packed permute_2013 mul self.
Let adjust := _adjust_key_value_for_inference self.

(** The rotary embedding has no effect on cross-attention.  Assume
    of Megatron-core's [_adjust_key_value_for_inference] that the key,
    value and mask type it returns do not depend on the rotary embedding
    it is handed, and that it returns [None] or a pair of embeddings when
    handed [None] or a pair.  Then for every [rotary_pos_emb] that is
    [None], a tensor or a pair, [forward] returns (or raises) exactly what
    it does with [rotary_pos_emb=None]: the embedding is unpacked and
    dropped, never applied to the query or the key. *)
Theorem forward_ignores_rotary_pos_emb
    (Hkv : forall ip k v rope,
        ((adjust ip k v rope).1.1.1, (adjust ip k v rope).1.1.2,
         (adjust ip k v rope).2)
        = ((adjust ip k v PNone).1.1.1, (adjust ip k v PNone).1.1.2,
           (adjust ip k v PNone).2))
    (Hrope : forall ip k v rope,
        rope_pair rope = true -> rope_pair (adjust ip k v rope).1.2 = true)
    (hidden_states cross_attention_masks xattn_cache
       full_text_row_masked_out_mask inference_params rotary_pos_emb
       packed_seq_params : pyval) :
  rope_ok rotary_pos_emb = true ->
  forward hidden_states cross_attention_masks xattn_cache
    full_text_row_masked_out_mask inference_params rotary_pos_emb
    packed_seq_params
  = forward hidden_states cross_attention_masks xattn_cache
      full_text_row_masked_out_mask inference_params PNone
      packed_seq_params.
Proof.
  intros Hok. unfold forward, CrossAttention.forward.
  set (rope := if negb (is_none rotary_pos_emb) && negb (is_tuple rotary_pos_emb)
               then PTuple [rotary_pos_emb; rotary_pos_emb]
               else rotary_pos_emb).
  assert (Hpair : rope_pair rope = true).
  { subst rope.
    destruct rotary_pos_emb as [| t | [| a [| b [| c l]]]]; simpl in *;
      try discriminate; reflexivity. }
  cbn [is_none is_tuple negb andb].
  destruct (unpack2 xattn_cache) as [[key value] | e]; simpl; [|reflexivity].
  fold adjust.
  pose proof (Hkv inference_params key value rope) as Heq.
  pose proof (Hrope inference_params key value rope Hpair) as Hr.
  pose proof (Hrope inference_params key value PNone eq_refl) as Hr0.
  destruct (adjust inference_params key value rope) as [[[k1 v1] r1] m1].
  destruct (adjust inference_params key value PNone) as [[[k0 v0] r0] m0].
  simpl in *. inversion Heq; subst k1 v1 m1; clear Heq.
  assert (Hunit : forall r, rope_pair r = true ->
            (if negb (is_none r)
             then let* embs := unpack2 r in Ok tt else Ok tt) = Ok tt).
  { intros r Hp. destruct (is_none r) eqn:En; simpl; [reflexivity|].
    destruct (unpack2_rope_pair r Hp En) as [embs ->]. reflexivity. }
  rewrite (Hunit r1 Hr), (Hunit r0 Hr0). reflexivity.
Qed.

(** The cache made by [_compute_xattn_kv_cache] is what [forward]
    expects.  When the key and value projections of the vision tokens are
    tensors, [_compute_xattn_kv_cache] stacks them into one tensor, and
    [key, value = xattn_cache] in [forward] takes that tensor apart along
    its first dimension into the same key and value: [forward] on the
    stacked cache equals [forward] on the pair [(key, value)] itself.  The
    default [xattn_cache=None], on the other hand, always raises
    [TypeError]. *)
Theorem xattn_cache_round_trip
    (xattn_tokens : pyval) (key value : Tensor)
    (hidden_states cross_attention_masks full_text_row_masked_out_mask
       inference_params rotary_pos_emb packed_seq_params : pyval) :
  get_key_value_tensors view_heads split_tensor_along_last_dim_2 self
    xattn_tokens = (PTensor key, PTensor value) ->
  exists cache,
    _compute_xattn_kv_cache view_heads split_tensor_along_last_dim_2 self
      xattn_tokens = Ok cache
    /\ unpack2 cache = Ok (PTensor key, PTensor value)
    /\ forward hidden_states cross_attention_masks cache
         full_text_row_masked_out_mask inference_params rotary_pos_emb
         packed_seq_params
       = forward hidden_states cross_attention_masks
           (PTuple [PTensor key; PTensor value])
           full_text_row_masked_out_mask inference_params rotary_pos_emb
           packed_seq_params
    /\ forward hidden_states cross_attention_masks PNone
         full_text_row_masked_out_mask inference_params rotary_pos_emb
         packed_seq_params
       = Raise TypeError.
Proof.
  intros Hkv. exists (PTensor (Stack [key; value])).
  unfold _compute_xattn_kv_cache. rewrite Hkv.
  repeat split; reflexivity.
Qed.

(** [forward] cannot be called with its default
    [full_text_row_masked_out_mask=None]: whatever the other arguments
    and submodules are, the call raises, and when the cache is a pair and
    the rotary embedding returned by [_adjust_key_value_for_inference] is
    [None] or a pair, the exception is the [AttributeError] of
    [None.permute]. *)
Theorem forward_needs_row_mask
    (hidden_states cross_attention_masks xattn_cache inference_params
       rotary_pos_emb packed_seq_params key value : pyval) :
  rope_pair (adjust inference_params key value PNone).1.2 = true ->
  (exists e,
      forward hidden_states cross_attention_masks xattn_cache PNone
        inference_params rotary_pos_emb packed_seq_params = Raise e)
  /\ forward hidden_states cross_attention_masks (PTuple [key; value]) PNone
       inference_params PNone packed_seq_params
     = Raise (AttributeError "permute").
Proof.
  intros Hr. split.
  - unfold forward, CrossAttention.forward.
    destruct (unpack2 xattn_cache) as [[key' value'] | e]; simpl;
      [|eexists; reflexivity].
    destruct (_adjust_key_value_for_inference self inference_params key' value' _)
      as [[[k1 v1] r1] m1].
    destruct (if negb (is_none r1) then _ else _) as [[] | e]; simpl;
      eexists; reflexivity.
  - unfold forward, CrossAttention.forward. simpl.
    fold adjust.
    destruct (adjust inference_params key value PNone) as [[[k1 v1] r1] m1].
    simpl in Hr.
    destruct (is_none r1) eqn:En; simpl; [reflexivity|].
    destruct (unpack2_rope_pair r1 Hr En) as [embs ->]. reflexivity.
Qed.

End Facts.

(** The assertion of [__init__] makes [n_rep] an exact quotient:
    construction succeeds only when [kv_projection_size] is not zero and
    divides [query_projection_size], and then
    [n_rep * kv_projection_size = query_projection_size]; a zero
    [kv_projection_size] raises [ZeroDivisionError] and any other size
    that does not divide raises [AssertionError]. *)
Theorem init_n_rep_exact (query_projection_size kv_projection_size : Z) :
  match init_n_rep query_projection_size kv_projection_size with
  | Ok n_rep =>
      kv_projection_size <> 0%Z
      /\ (n_rep * kv_projection_size)%Z = query_projection_size
  | Raise ZeroDivisionError => kv_projection_size = 0%Z
  | Raise (AssertionError _) =>
      kv_projection_size <> 0%Z
      /\ forall n : Z, (n * kv_projection_size)%Z <> query_projection_size
  | Raise _ => False
  end.
Proof.
  unfold init_n_rep.
  destruct (Z.eqb_spec kv_projection_size 0) as [-> | Hnz]; [reflexivity|].
  destruct (Z.eqb_spec (query_projection_size mod kv_projection_size) 0)
    as [Hm | Hm]; simpl.
  - split; [assumption|].
    pose proof (Z.div_mod query_projection_size kv_projection_size Hnz). lia.
  - split; [assumption|]. intros n Hn. apply Hm.
    rewrite <- Hn. apply Z.mod_mul. assumption.
Qed.

(** An attention module whose submodules leave their input as it is. *)
Definition identity_attention : LlamaCrossAttention :=
  {| linear_q := fun x => (x, PNone);
     linear_kv := fun x => (x, PNone);
     q_layernorm := fun x => x;
     k_layernorm := fun x => x;
     core_attention := fun q k v m t p => q;
     _checkpointed_attention_forward := fun q k v m t p => q;
     linear_proj := fun x => (x, PNone);
     _adjust_key_value_for_inference := fun ip k v rope => (k, v, rope, padding);
     checkpoint_core_attention := false;
     attention_training := true;
     num_query_groups_per_partition := 1;
     num_attention_heads_per_partition := 1;
     hidden_size_per_attention_head := 1 |}.

Definition t1 : pyval := PTensor (Scalar 1).

Lemma forward_ignores_rotary_pos_emb_witness :
  CrossAttention.forward (fun t _ _ => t) (fun _ t => t) (fun t => t)
    (fun t => t) (fun a _ => a) identity_attention
    t1 PNone (PTuple [t1; t1]) t1 PNone t1 PNone
  = CrossAttention.forward (fun t _ _ => t) (fun _ t => t) (fun t => t)
      (fun t => t) (fun a _ => a) identity_attention
      t1 PNone (PTuple [t1; t1]) t1 PNone PNone PNone.
Proof.
  apply (forward_ignores_rotary_pos_emb (fun t _ _ => t) (fun _ t => t)
           (fun t => t) (fun t => t) (fun a _ => a) identity_attention).
  - intros; reflexivity.
  - intros ip k v rope H; exact H.
  - reflexivity.
Defined.

Lemma xattn_cache_round_trip_witness :
  exists cache,
    _compute_xattn_kv_cache (fun t _ _ => t) (fun t => (t, t))
      identity_attention t1 = Ok cache
    /\ unpack2 cache = Ok (t1, t1)
    /\ CrossAttention.forward (fun t _ _ => t) (fun _ t => t) (fun t => t)
         (fun t => t) (fun a _ => a) identity_attention
         t1 PNone cache t1 PNone PNone PNone
       = CrossAttention.forward (fun t _ _ => t) (fun _ t => t) (fun t => t)
           (fun t => t) (fun a _ => a) identity_attention
           t1 PNone (PTuple [t1; t1]) t1 PNone PNone PNone
    /\ CrossAttention.forward (fun t _ _ => t) (fun _ t => t) (fun t => t)
         (fun t => t) (fun a _ => a) identity_attention
         t1 PNone PNone t1 PNone PNone PNone
       = Raise TypeError.
Proof.
  apply (xattn_cache_round_trip (fun t _ _ => t) (fun t => (t, t))
           (fun _ t => t) (fun t => t) (fun t => t) (fun a _ => a)
           identity_attention t1 (Scalar 1) (Scalar 1)).
  reflexivity.
Defined.

Lemma forward_needs_row_mask_witness :
  (exists e,
      CrossAttention.forward (fun t _ _ => t) (fun _ t => t) (fun t => t)
        (fun t => t) (fun a _ => a) identity_attention
        t1 PNone (PTuple [t1; t1]) PNone PNone t1 PNone = Raise e)
  /\ CrossAttention.forward (fun t _ _ => t) (fun _ t => t) (fun t => t)
       (fun t => t) (fun a _ => a) identity_attention
       t1 PNone (PTuple [t1; t1]) PNone PNone PNone PNone
     = Raise (AttributeError "permute").
Proof.
  apply (forward_needs_row_mask (fun t _ _ => t) (fun _ t => t)
           (fun t => t) (fun t => t) (fun a _ => a) identity_attention
           t1 PNone (PTuple [t1; t1]) PNone t1 PNone t1 t1).
  reflexivity.
Defined.

End CrossAttentionFacts.

(** ** [language.py]: the ids looked up by the partially trainable
       embedding, and [CrossAttentionTextModel._get_xattn_mask] *)

Module TextModelShapes.
Import Py Py.Notations TextModel.

(** [num_embeddings=8] of [self.learnable_embedding], line 125. *)
Definition learnable_num_embeddings : Z := 8.

(** The two id tensors of [get_partially_trainable_embedding], lines
    248-249, before they are handed to the embedding tables. *)
Definition frozen_ids (self : CrossAttentionTextModel) (x : IntTensor2) : IntTensor2 :=
  minimum x (_thresh self).

Definition learnable_ids (self : CrossAttentionTextModel) (x : IntTensor2) : IntTensor2 :=
  sub_scalar (maximum x (_thresh self + 1)) (num_frozen_embeddings self).

Definition unpack4 {A : Type} (l : list A) : result (A * A * A * A) :=
  match l with
  | [a; b; c; d] => Ok (a, b, c, d)
  | _ => Raise (ValueError "unpack (expected 4)")
  end.

Definition unpack5 {A : Type} (l : list A) : result (A * A * A * A * A) :=
  match l with
  | [a; b; c; d; e] => Ok (a, b, c, d, e)
  | _ => Raise (ValueError "unpack (expected 5)")
  end.

Section XattnMask.

(** Tensors of torch, with the operations the function applies. *)
Variable Tensor : Type.
Variable shape : Tensor -> list nat.
(** [t.repeat_interleave(n, dim=3).view(bsz, ntext, -1).unsqueeze(1)] *)
Variable repeat_view_unsqueeze : Tensor -> nat -> nat -> nat -> Tensor.
(** [_get_full_row_masked_out_mask(t, get_negative_inf_value(t.dtype))] *)
Variable _get_full_row_masked_out_mask : Tensor -> Tensor.
Variable mul : Tensor -> Tensor -> Tensor.
(** [t.to(device=text_device, dtype=text_dtype)] *)
Variable to_text : Tensor -> Tensor.

(** [_get_xattn_mask], lines 135-170.  The messages of the assertions are
    kept up to the shapes formatted into them. *)
Definition _get_xattn_mask (num_tokens : nat) (vision_tokens : option Tensor)
    (cross_attention_masks : Tensor) : result (Tensor * Tensor) :=
  match vision_tokens with
  | None => Raise (AssertionError "Vision tokens must be provided")
  | Some vision_tokens =>
      let* vision_seqlen := index (shape vision_tokens) 3 in
      let* v1 := index (shape vision_tokens) 1 in
      let* m2 := index (shape cross_attention_masks) 2 in
      if negb (Nat.eqb v1 m2)
      then Raise (AssertionError
                    "Mismatch in number of images given and number of masks given")
      else
      let* v2 := index (shape vision_tokens) 2 in
      let* m3 := index (shape cross_attention_masks) 3 in
      if negb (Nat.eqb v2 m3)
      then Raise (AssertionError "Vision tokens shape mismatch with xattn shape")
      else
      let* m1 := index (shape cross_attention_masks) 1 in
      if negb (Nat.eqb num_tokens m1)
      then Raise (AssertionError
                    "Mismatch in text sequence length and cross attention mask sequence length")
      else
      let* _ := unpack5 (shape vision_tokens) in
      let* dims := unpack4 (shape cross_attention_masks) in
      let '(bsz, ntext, nimg, nchunks) := dims in
      let cross_attention_masks :=
        repeat_view_unsqueeze cross_attention_masks vision_seqlen bsz ntext in
      let full_text_row_masked_out_mask :=
        _get_full_row_masked_out_mask cross_attention_masks in
      let cross_attention_masks :=
        mul cross_attention_masks full_text_row_masked_out_mask in
      Ok (to_text cross_attention_masks, to_text full_text_row_masked_out_mask)
  end.

End XattnMask.

End TextModelShapes.

Module TextModelShapesFacts.
Import Py Py.Notations TextModel TextModelShapes.

(** The ids handed to the two embedding tables are those of
    [frozen_ids] and [learnable_ids]; the frozen id never exceeds the last
    frozen row and the learnable id is never negative, whatever the
    input.  Both lookups are inside their tables (the frozen one with
    [num_frozen_embeddings] rows, the learnable one with 8) exactly when
    the table of frozen embeddings is not empty and the input id is at
    least 0 and below [num_frozen_embeddings + 8]: the clamping does not
    protect against a negative id or one past the learnable rows. *)
Theorem embedding_lookups_in_range
    (frozen_table : Z -> Z -> nat -> R) (learnable_table : Z -> nat -> R)
    (n : Z) (x position_ids : IntTensor2) (b s : nat) :
  let self := init n in
  get_partially_trainable_embedding frozen_table learnable_table self x
    position_ids
  = add_t
      (mul_t (embedding frozen_table (frozen_ids self x) position_ids)
             (type_as (mask_orig self x)))
      (mul_t (transpose01 (learnable_embedding learnable_table
                             (learnable_ids self x)))
             (type_as (mask_new self x)))
  /\ (frozen_ids self x b s < num_frozen_embeddings self)%Z
  /\ (0 <= learnable_ids self x b s)%Z
  /\ ((0 <= frozen_ids self x b s
       /\ learnable_ids self x b s < learnable_num_embeddings)%Z
      <-> (1 <= n /\ 0 <= x b s < n + learnable_num_embeddings)%Z).
Proof.
  intros self. subst self.
  unfold frozen_ids, learnable_ids, learnable_num_embeddings, minimum,
    maximum, sub_scalar, init; simpl.
  split; [reflexivity|]. lia.
Qed.

Section MaskFacts.

Variable Tensor : Type.
Variable shape : Tensor -> list nat.
Variable repeat_view_unsqueeze : Tensor -> nat -> nat -> nat -> Tensor.
Variable _get_full_row_masked_out_mask : Tensor -> Tensor.
Variable mul : Tensor -> Tensor -> Tensor.
Variable to_text : Tensor -> Tensor.

Let get_mask :=
  _get_xattn_mask Tensor shape repeat_view_unsqueeze
    _get_full_row_masked_out_mask mul to_text.

(** [_get_xattn_mask] returns exactly when the vision tokens are given
    with five dimensions [[a, nimg, nchunks, seqlen, dim]] and the masks
    have the four dimensions [[bsz, num_tokens, nimg, nchunks]]; the
    batch sizes [a] and [bsz] are not compared.  It then returns the
    masks, repeated [seqlen] times along the chunks and multiplied by
    their full-row mask, together with that full-row mask, both moved to
    the text device and dtype. *)
Theorem get_xattn_mask_shapes
    (num_tokens : nat) (vision_tokens : option Tensor)
    (cross_attention_masks : Tensor) (r : Tensor * Tensor) :
  get_mask num_tokens vision_tokens cross_attention_masks = Ok r
  <-> exists vt a nimg nchunks seqlen dim bsz,
      vision_tokens = Some vt
      /\ shape vt = [a; nimg; nchunks; seqlen; dim]
      /\ shape cross_attention_masks = [bsz; num_tokens; nimg; nchunks]
      /\ let masks :=
           repeat_view_unsqueeze cross_attention_masks seqlen bsz num_tokens in
         let full := _get_full_row_masked_out_mask masks in
         r = (to_text (mul masks full), to_text full).
Proof.
  unfold get_mask, _get_xattn_mask. split.
  - destruct vision_tokens as [vt|]; [|discriminate].
    destruct (shape vt) as [|a [|v1 [|v2 [|sl [|dim [|extra l]]]]]] eqn:Ev;
      simpl; try discriminate.
    + destruct (shape cross_attention_masks) as [|b0 [|m1 [|m2 [|m3 l']]]];
        simpl; try discriminate.
      * destruct (Nat.eqb v1 m2); discriminate.
      * destruct (Nat.eqb v1 m2); simpl; [|discriminate].
        destruct (Nat.eqb v2 m3); simpl; [|discriminate].
        destruct (Nat.eqb num_tokens m1); discriminate.
    + destruct (shape cross_attention_masks) as [|b0 [|m1 [|m2 [|m3 [|m4 l']]]]]
        eqn:Em; simpl; try discriminate.
      * destruct (Nat.eqb v1 m2); discriminate.
      * destruct (Nat.eqb_spec v1 m2) as [-> |]; simpl; [|discriminate].
        destruct (Nat.eqb_spec v2 m3) as [-> |]; simpl; [|discriminate].
        destruct (Nat.eqb_spec num_tokens m1) as [<- |]; simpl; [|discriminate].
        intros H; inversion H; subst r.
        exists vt, a, m2, m3, sl, dim, b0. repeat split; assumption.
      * destruct (Nat.eqb v1 m2); simpl; [|discriminate].
        destruct (Nat.eqb v2 m3); simpl; [|discriminate].
        destruct (Nat.eqb num_tokens m1); discriminate.
    + destruct (shape cross_attention_masks) as [|b0 [|m1 [|m2 [|m3 l']]]];
        simpl; try discriminate.
      * destruct (Nat.eqb v1 m2); discriminate.
      * destruct (Nat.eqb v1 m2); simpl; [|discriminate].
        destruct (Nat.eqb v2 m3); simpl; [|discriminate].
        destruct (Nat.eqb num_tokens m1); discriminate.
  - intros (vt & a & nimg & nchunks & seqlen & dim & bsz & -> & Ev & Em & ->).
    rewrite Ev, Em. simpl. rewrite !Nat.eqb_refl. reflexivity.
Qed.

End MaskFacts.

End TextModelShapesFacts.
